(** * ArcPy_IngestREST: bulk extraction of a feature service layer

    A shallow embedding of [ArcPy_IngestREST.py]: the chunk planner
    ([IterableChunk] and the main loop), the extraction client
    ([QueryExtractionRequest]) with its retry loop, the staging folder
    and the conversion and merge stage. *)

From Stdlib Require Import ZArith Lia Ascii String.
From Stdlib.Strings Require Import Byte.
From stdpp Require Import gmap strings list sorting.

Local Open Scope Z_scope.

(** ** Python values and exceptions *)

Inductive exn :=
| ZeroDivisionError
| IndexError
| TypeError
| ExecuteError
| KeyError
| JSONDecodeError
| ConnectionError.

(** ** The chunk planner *)

Module Planner.

(** [args = [iter(ObjectIDManifest)] * ServiceRequestMAX] holds the SAME list
    iterator [ServiceRequestMAX] times.  Inside [itertools.zip_longest] an
    entry of [iterators] is either still that shared iterator or has been
    replaced by [repeat(fillvalue)]. *)
Inductive iterator :=
| shared_iter
| repeat_fill.

(** The state of one pass of [zip_longest]: the tuple built, the updated
    [iterators], what the shared iterator has left, and [num_active]. *)
Definition row_state : Type :=
  list (option Z) * list iterator * list Z * nat.

(** One pass of [for i, it in enumerate(iterators)].  [src] is what the
    shared list iterator has not delivered yet; a Python [None] (the fill
    value) is [None].  The result [None] is the [return] of the generator. *)
Fixpoint zip_longest_row (iterators : list iterator) (src : list Z)
    (num_active : nat) : option row_state :=
  match iterators with
  | [] => Some ([], [], src, num_active)
  | shared_iter :: its =>
      match src with
      | value :: src' =>
          match zip_longest_row its src' num_active with
          | Some (values, its', s, a) =>
              Some (Some value :: values, shared_iter :: its', s, a)
          | None => None
          end
      | [] =>
          (* StopIteration *)
          let num_active := (num_active - 1)%nat in
          if Nat.eqb num_active 0 then None
          else
            match zip_longest_row its [] num_active with
            | Some (values, its', s, a) =>
                Some (None :: values, repeat_fill :: its', s, a)
            | None => None
            end
      end
  | repeat_fill :: its =>
      match zip_longest_row its src num_active with
      | Some (values, its', s, a) =>
          Some (None :: values, repeat_fill :: its', s, a)
      | None => None
      end
  end.

(** [while True:] of [zip_longest], one tuple per round.  The outer [None]
    means that [fuel] rounds were not enough. *)
Fixpoint zip_longest_loop (fuel : nat) (iterators : list iterator)
    (src : list Z) (num_active : nat) : option (list (list (option Z))) :=
  match fuel with
  | O => None
  | S fuel' =>
      match zip_longest_row iterators src num_active with
      | None => Some []
      | Some (values, its, src', a) =>
          cons values <$> zip_longest_loop fuel' its src' a
      end
  end.

(** [itertools.zip_longest] applied to the unpacked [args]. *)
Definition zip_longest (fuel : nat) (args : list iterator) (src : list Z)
  : option (list (list (option Z))) :=
  let num_active := length args in
  if Nat.eqb num_active 0 then Some []
  else zip_longest_loop fuel args src num_active.

(** [[item for item in chunk if item != None]] *)
Definition drop_none (chunk : list (option Z)) : list Z :=
  omap id chunk.

(** The generator returned by [IterableChunk], forced as [list(...)] does. *)
Definition chunks_of (fuel : nat) (args : list iterator) (src : list Z)
  : option (list (list Z)) :=
  map drop_none <$> zip_longest fuel args src.

(** What [IterableChunk] prints and returns. *)
Record plan := Plan {
  total_iterations : Z;          (* "This will take ... iterations" *)
  groups : list (list Z)         (* the chunks, once the generator is forced *)
}.

(** [len(ObjectIDManifest)] *)
Definition len {A} (l : list A) : Z := Z.of_nat (length l).

(** [IterableChunk(ServiceRequestMAX, ObjectIDManifest)].  [%] and [//] raise
    [ZeroDivisionError] on a zero page size; [[x] * n] is empty for [n <= 0].
    The generator makes at most [len + 1] rounds, see [zip_longest_loop_strides]. *)
Definition IterableChunk (ServiceRequestMAX : Z) (ObjectIDManifest : list Z)
  : exn + plan :=
  let args := repeat shared_iter (Z.to_nat ServiceRequestMAX) in
  if ServiceRequestMAX =? 0 then inl ZeroDivisionError
  else
    let final_iterator :=
      if len ObjectIDManifest mod ServiceRequestMAX >? 0 then 1 else 0 in
    let total_iterations :=
      len ObjectIDManifest / ServiceRequestMAX + final_iterator in
    match chunks_of (S (length ObjectIDManifest)) args ObjectIDManifest with
    | Some gs => inr (Plan total_iterations gs)
    | None => inr (Plan total_iterations [])
    end.

(** [objectID_group[0]] and [objectID_group[-1]] of the main loop. *)
Definition group_bounds (objectID_group : list Z) : option (Z * Z) :=
  match head objectID_group, last objectID_group with
  | Some lo, Some hi => Some (lo, hi)
  | _, _ => None
  end.

(** The spec's wording of the planner: walk the manifest in strides of the
    page size, each stride one chunk, the final one possibly shorter. *)
Fixpoint strides (fuel : nat) (n : nat) (l : list Z) : list (list Z) :=
  match fuel with
  | O => []
  | S fuel' =>
      match l with
      | [] => []
      | _ => take n l :: strides fuel' n (drop n l)
      end
  end.

End Planner.

(** ** Python strings and bytes *)

Module Py.

(** The decimal digit [d] (0 to 9) as a character. *)
Definition digit_char (d : Z) : ascii := ascii_of_N (48 + Z.to_N d).

(** The decimal digits of [n >= 0] in front of [acc], most significant
    first; [fuel] bounds the number of digits after the first. *)
Fixpoint digits (fuel : nat) (n : Z) (acc : string) : string :=
  let acc' := String (digit_char (n mod 10)) acc in
  match fuel with
  | O => acc'
  | S fuel' => if n / 10 =? 0 then acc' else digits fuel' (n / 10) acc'
  end.

(** The [width] low decimal digits of [n] in front of [acc], most
    significant first: what [str(n).zfill(width)] is for [0 <= n < 10^width]. *)
Fixpoint fixed_width (width : nat) (n : Z) (acc : string) : string :=
  match width with
  | O => acc
  | S width' => fixed_width width' (n / 10) (String (digit_char (n mod 10)) acc)
  end.

(** [str(z)] for an integer. *)
Definition str (z : Z) : string :=
  if z <? 0 then String "-"%char (digits (Z.to_nat (Z.log2 (- z))) (- z) EmptyString)
  else digits (Z.to_nat (Z.log2 z)) z EmptyString.

Fixpoint zeros (n : nat) : string :=
  match n with
  | O => EmptyString
  | S n' => String "0"%char (zeros n')
  end.

(** [s.zfill(width)]: pad with zeros on the left, after a leading sign. *)
Definition zfill (width : nat) (s : string) : string :=
  let pad := (width - String.length s)%nat in
  match s with
  | String c s' =>
      if (Ascii.eqb c "+" || Ascii.eqb c "-")%bool
      then String c (zeros pad +:+ s')
      else zeros pad +:+ s
  | EmptyString => zeros pad
  end.

(** [file.split(".")[0]]: the text before the first dot. *)
Fixpoint split_dot_head (s : string) : string :=
  match s with
  | EmptyString => EmptyString
  | String c s' => if Ascii.eqb c "." then EmptyString else String c (split_dot_head s')
  end.

(** Python compares [str] values lexicographically by code point. *)
Definition str_lt (a b : string) : Prop := String.compare a b = Lt.

Definition bytes : Type := list byte.

Fixpoint startswith (prefix s : bytes) : bool :=
  match prefix, s with
  | [], _ => true
  | a :: prefix', b :: s' => Byte.eqb a b && startswith prefix' s'
  | _ :: _, [] => false
  end.

(** [needle in hay] on [bytes]: [needle] occurs at some offset of [hay]. *)
Fixpoint bytes_in (needle hay : bytes) : bool :=
  startswith needle hay ||
  match hay with
  | [] => false
  | _ :: hay' => bytes_in needle hay'
  end.

End Py.

(** ** Settings of the script *)

Definition query_request_standard_pause : Z := 10.
Definition record_extraction_hardcode : Z := 30000.

(** The double quote character, which the sentinel body is full of. *)
Definition dq : string := String "034"%char EmptyString.

(** [server_error_message]: the JSON error body with code 500 and message
    [Error performing query operation] that the server sends with a
    200-class status when it is overloaded. *)
Definition server_error_message : Py.bytes :=
  list_byte_of_string
    ("{" +:+ dq +:+ "error" +:+ dq +:+ ":{" +:+ dq +:+ "code" +:+ dq +:+ ":500,"
     +:+ dq +:+ "message" +:+ dq +:+ ":" +:+ dq
     +:+ "Error performing query operation" +:+ dq +:+ ","
     +:+ dq +:+ "details" +:+ dq +:+ ":[]}}").

(** ** The world the script acts on *)

(** A reply of [session.get]: [response.status_code] and [response.content]. *)
Record reply := Reply {
  status_code : Z;
  content : Py.bytes
}.

(** [response.ok] of requests: [raise_for_status] raises for a status from
    400 to 599 and for no other, and [ok] is [False] exactly then. *)
Definition ok (r : reply) : bool :=
  negb ((400 <=? status_code r) && (status_code r <? 600)).

(** A feature service that answers every request and whose metadata replies
    are well formed, as far as the script looks at it: the entries of the
    parsed metadata replies and the reply to the [k]-th chunk query of the
    run.  What else a server can do is an [endpoint], below. *)
Record service := Service {
  service_URL : string;
  maxRecordCount : Z;
  objectIdFieldName : string;
  objectIds : list Z;
  query_reply : nat -> string -> reply
}.

(** What the script gets when it asks for metadata: [session.get] raises
    (no connection, a timeout), or it returns a reply that [response.json()]
    cannot parse, or one that parses to a JSON object, of which [entries]
    holds what the script looks up. *)
Inductive fetched (A : Type) :=
| Unreachable
| NotJSON
| Object (entries : A).
Arguments Unreachable {A}.
Arguments NotJSON {A}.
Arguments Object {A} entries.

(** The server as the requests of the script meet it.  An entry of a JSON
    object is [None] when the object has no such key (an error body has none
    of them); [objectIds] may be [null], which is [Some None].  A chunk
    query is answered by a reply, or [session.get] raises. *)
Record endpoint := Endpoint {
  endpoint_URL : string;
  layer_reply : fetched (option Z);
  ids_reply : fetched (option string * option (option (list Z)));
  chunk_reply : nat -> string -> option reply
}.

(** A service seen as an endpoint: every request is answered, and the
    metadata replies are JSON objects with the keys the script reads and an
    array of identifiers.  A theorem about a [service] is about such an
    endpoint. *)
Definition healthy (svc : service) : endpoint :=
  Endpoint (service_URL svc)
    (Object (Some (maxRecordCount svc)))
    (Object (Some (objectIdFieldName svc), Some (Some (objectIds svc))))
    (fun k queryURL => Some (query_reply svc k queryURL)).

Coercion healthy : service >-> endpoint.

(** A feature class of a geodatabase, as arcpy shows it. *)
Record feature_class := FeatureClass {
  shapeType : string;
  fields : list string;
  rows : list (list string)
}.

Inductive event :=
| Get (url : string)                         (* session.get(url) *)
| Sleep (seconds : Z)                        (* time.sleep(seconds) *)
| WriteFile (name : string) (body : Py.bytes) (* open(name, "wb").write(body) *)
| Transferring (file : string).              (* print("Transferring ...") *)

Record world := World {
  response_flag : bool;                      (* the global of that name *)
  json_file_iterator : Z;                    (* the global of that name *)
  queries_sent : nat;                        (* chunk queries issued so far *)
  out_json_folder : gmap string Py.bytes;    (* staged payloads by file name *)
  intermediate_gdb : option (list (string * feature_class));
  final_featureclass : option feature_class; (* Final_GDB\Final_FeatureClass *)
  log : list event
}.

Definition set_response_flag (b : bool) (w : world) : world :=
  World b (json_file_iterator w) (queries_sent w) (out_json_folder w)
    (intermediate_gdb w) (final_featureclass w) (log w).

Definition set_json_file_iterator (z : Z) (w : world) : world :=
  World (response_flag w) z (queries_sent w) (out_json_folder w)
    (intermediate_gdb w) (final_featureclass w) (log w).

Definition set_queries_sent (n : nat) (w : world) : world :=
  World (response_flag w) (json_file_iterator w) n (out_json_folder w)
    (intermediate_gdb w) (final_featureclass w) (log w).

Definition set_out_json_folder (d : gmap string Py.bytes) (w : world) : world :=
  World (response_flag w) (json_file_iterator w) (queries_sent w) d
    (intermediate_gdb w) (final_featureclass w) (log w).

Definition set_intermediate_gdb (g : option (list (string * feature_class)))
    (w : world) : world :=
  World (response_flag w) (json_file_iterator w) (queries_sent w)
    (out_json_folder w) g (final_featureclass w) (log w).

Definition set_final_featureclass (f : option feature_class) (w : world) : world :=
  World (response_flag w) (json_file_iterator w) (queries_sent w)
    (out_json_folder w) (intermediate_gdb w) f (log w).

Definition emit (e : event) (w : world) : world :=
  World (response_flag w) (json_file_iterator w) (queries_sent w)
    (out_json_folder w) (intermediate_gdb w) (final_featureclass w)
    (log w ++ [e]).

(** The state the module-level assignments set up, around what is on disk
    before the run. *)
Definition initial_world (folder : gmap string Py.bytes)
    (gdb : option (list (string * feature_class)))
    (final : option feature_class) : world :=
  World true 0 0 folder gdb final [].

(** ** A state and exception monad for the script *)

Inductive outcome (A : Type) :=
| Returned (a : A) (w : world)
| Raised (e : exn) (w : world)
| OutOfFuel.
Arguments Returned {A} a w.
Arguments Raised {A} e w.
Arguments OutOfFuel {A}.

Definition M (A : Type) : Type := world -> outcome A.

Definition ret {A} (a : A) : M A := fun w => Returned a w.

Definition bind {A B} (m : M A) (k : A -> M B) : M B :=
  fun w =>
    match m w with
    | Returned a w' => k a w'
    | Raised e w' => Raised e w'
    | OutOfFuel => OutOfFuel
    end.

Definition raise {A} (e : exn) : M A := fun w => Raised e w.
Definition gets {A} (f : world -> A) : M A := fun w => Returned (f w) w.
Definition modify (f : world -> world) : M unit := fun w => Returned tt (f w).

Declare Scope script_scope.
Delimit Scope script_scope with script.
Notation "x <- m ;; k" := (bind m (fun x => k))
  (at level 100, m at next level, right associativity) : script_scope.
Notation "m ;; k" := (bind m (fun _ => k))
  (at level 100, right associativity) : script_scope.
Local Open Scope script_scope.

(** [for x in l: body(x)] *)
Fixpoint for_each {A} (l : list A) (body : A -> M unit) : M unit :=
  match l with
  | [] => ret tt
  | x :: l' => body x ;; for_each l' body
  end.

(** The world an outcome leaves behind, if the script got that far. *)
Definition world_of {A} (o : outcome A) : option world :=
  match o with
  | Returned _ w => Some w
  | Raised _ w => Some w
  | OutOfFuel => None
  end.

(** ** The script *)

Section Script.

(** The collaborators of a run: the server, the converter behind
    [arcpy.JSONToFeatures_conversion] ([None] when the tool fails) and the
    order in which [os.listdir] enumerates a folder. *)
Variable svc : endpoint.
Variable JSONToFeatures : Py.bytes -> string -> option feature_class.
Variable os_listdir : gmap string Py.bytes -> list string.

(** [response = session.get(url)] and the first [response.json()] of a
    metadata request: the request may fail, and so may the parser. *)
Definition response_json {A} (url : string) (response : fetched A) : M A :=
  modify (emit (Get url)) ;;
  match response with
  | Unreachable => raise ConnectionError
  | NotJSON => raise JSONDecodeError
  | Object entries => ret entries
  end.

(** [response.json()[key]] *)
Definition subscript {A} (entry : option A) : M A :=
  match entry with
  | Some value => ret value
  | None => raise KeyError
  end.

(** [sorted(ids)]: a stable merge sort; [None] is not iterable. *)
Definition sorted (ids : option (list Z)) : M (list Z) :=
  match ids with
  | Some l => ret (merge_sort Z.le l)
  | None => raise TypeError
  end.

(** [ServiceGetRecordExtract(ServiceURL)] *)
Definition ServiceGetRecordExtract (ServiceURL : string) : M Z :=
  response <- response_json (ServiceURL +:+ "?f=pjson") (layer_reply svc) ;;
  ServiceRequestMAX <- subscript response ;;
  ret ServiceRequestMAX.

(** [ServiceGetObjectIDs(ServiceURL)] *)
Definition ServiceGetObjectIDs (ServiceURL : string) : M (string * list Z) :=
  response <- response_json
                (ServiceURL +:+ "/query?where=1%3D1&returnIdsOnly=true&f=json")
                (ids_reply svc) ;;
  ObjectID_FieldName <- subscript (fst response) ;;
  ids <- subscript (snd response) ;;
  ObjectID_Manifest <- sorted ids ;;
  ret (ObjectID_FieldName, ObjectID_Manifest).

(** [session.get(queryURL)] for a chunk query; the script catches nothing
    that [requests] raises. *)
Definition session_get (queryURL : string) : M reply :=
  k <- gets queries_sent ;;
  modify (set_queries_sent (S k)) ;;
  modify (emit (Get queryURL)) ;;
  match chunk_reply svc k queryURL with
  | Some response => ret response
  | None => raise ConnectionError
  end.

(** [time.sleep(seconds)] *)
Definition time_sleep (seconds : Z) : M unit := modify (emit (Sleep seconds)).

(** The [while not response.ok or response_flag == False:] loop.  It has no
    bound in the script; [fuel] bounds the number of retries here. *)
Fixpoint retry_loop (fuel : nat) (queryURL : string) (response : reply)
    (sleep_timer : Z) : M reply :=
  flag <- gets response_flag ;;
  if (negb (ok response) || negb flag)%bool then
    match fuel with
    | O => fun _ => OutOfFuel
    | S fuel' =>
        let sleep_timer := sleep_timer * 2 in
        time_sleep sleep_timer ;;
        response <- session_get queryURL ;;
        (if Py.bytes_in server_error_message (content response)
         then modify (set_response_flag false)
         else modify (set_response_flag true)) ;;
        retry_loop fuel' queryURL response sleep_timer
    end
  else ret response.

(** The query URL built at the top of [QueryExtractionRequest]. *)
Definition query_url (ObjectID_MIN ObjectID_MAX ObjectID_FieldName ServiceURL : string)
  : string :=
  let fields := "*" in
  let where_ := ObjectID_FieldName +:+ " >= " +:+ ObjectID_MIN +:+ " and "
                +:+ ObjectID_FieldName +:+ " <= " +:+ ObjectID_MAX in
  ServiceURL +:+ "/query?where=" +:+ where_ +:+ "&returnGeometry=true&outFields="
    +:+ fields +:+ "&f=json".

(** The name of the file [QueryExtractionRequest] writes, inside
    [Out_JSON_Folder]. *)
Definition json_file_name (iterator : Z) : string :=
  Py.zfill 6 (Py.str iterator) +:+ ".json".

(** [QueryExtractionRequest(ObjectID_MIN, ObjectID_MAX, ObjectID_FieldName,
    Out_JSON_Folder, ServiceURL)] *)
Definition QueryExtractionRequest (fuel : nat)
    (ObjectID_MIN ObjectID_MAX ObjectID_FieldName ServiceURL : string) : M unit :=
  let queryURL := query_url ObjectID_MIN ObjectID_MAX ObjectID_FieldName ServiceURL in
  response <- session_get queryURL ;;
  (if Py.bytes_in server_error_message (content response)
   then modify (set_response_flag false)
   else ret tt) ;;
  time_sleep query_request_standard_pause ;;
  let sleep_timer := 30 in
  response <- retry_loop fuel queryURL response sleep_timer ;;
  iterator <- gets json_file_iterator ;;
  let name := json_file_name iterator in
  modify (emit (WriteFile name (content response))) ;;
  folder <- gets out_json_folder ;;
  modify (set_out_json_folder (<[name := content response]> folder)).

(** [CleanUpJSONsFolder(Out_JSON_Folder)] *)
Definition CleanUpJSONsFolder : M unit :=
  folder <- gets out_json_folder ;;
  for_each (os_listdir folder) (fun file =>
    folder <- gets out_json_folder ;;
    modify (set_out_json_folder (delete file folder))).

(** [arcpy.JSONToFeatures_conversion(in_json_file, out_features, geometry)]
    with [arcpy.env.overwriteOutput = True]: a feature class of that name is
    replaced.  The tool raises when the file is missing or does not convert. *)
Definition JSONToFeatures_conversion (file out_features geometry_type : string)
  : M unit :=
  folder <- gets out_json_folder ;;
  gdb <- gets intermediate_gdb ;;
  match folder !! file, gdb with
  | Some body, Some fcs =>
      match JSONToFeatures body geometry_type with
      | Some fc =>
          let others := filter (fun p => negb (String.eqb (fst p) out_features)) fcs in
          modify (set_intermediate_gdb (Some (others ++ [(out_features, fc)])))
      | None => raise ExecuteError
      end
  | _, _ => raise ExecuteError
  end.

(** [arcpy.ListFeatureClasses()] in the workspace the script set, the
    intermediate geodatabase; [None] when there is no such workspace. *)
Definition ListFeatureClasses : M (option (list string)) :=
  gdb <- gets intermediate_gdb ;;
  ret (map fst <$> gdb).

(** The body of the [for file in os.listdir(Out_JSON_Folder):] loop of
    [ConvertJSONstoFeatureClasses]. *)
Definition transfer (file : string) : M unit :=
  let file_name := Py.split_dot_head file in
  modify (emit (Transferring file)) ;;
  JSONToFeatures_conversion file ("chunk_" +:+ file_name) "POLYGON".

(** [ConvertJSONstoFeatureClasses(Out_JSON_Folder, Intermediate_GDB_Folder)] *)
Definition ConvertJSONstoFeatureClasses : M unit :=
  gdb <- gets intermediate_gdb ;;
  (if bool_decide (is_Some gdb) then modify (set_intermediate_gdb None) else ret tt) ;;
  modify (set_intermediate_gdb (Some [])) ;;
  list_fc <- ListFeatureClasses ;;
  for_each (default [] list_fc) (fun fc =>
    gdb <- gets intermediate_gdb ;;
    modify (set_intermediate_gdb
      (filter (fun p => negb (String.eqb (fst p) fc)) <$> gdb))) ;;
  folder <- gets out_json_folder ;;
  for_each (os_listdir folder) transfer.

(** [ReplaceFinalFeatureClassWithIntermediateFeatureClasses(Final_GDB,
    Final_FeatureClass)].  [Append] with [NO_TEST] adds the rows of every
    input without comparing schemas. *)
Definition ReplaceFinalFeatureClassWithIntermediateFeatureClasses : M unit :=
  final <- gets final_featureclass ;;
  (if bool_decide (is_Some final) then modify (set_final_featureclass None) else ret tt) ;;
  list_fc <- ListFeatureClasses ;;
  gdb <- gets intermediate_gdb ;;
  match list_fc, gdb with
  | None, _ | _, None => raise TypeError
  | Some [], _ => raise IndexError
  | Some (first :: _), Some fcs =>
      match snd <$> head fcs with
      | None => raise IndexError
      | Some describe_fc =>
          modify (set_final_featureclass
            (Some (FeatureClass (shapeType describe_fc) (fields describe_fc) []))) ;;
          modify (set_final_featureclass
            (Some (FeatureClass (shapeType describe_fc) (fields describe_fc)
                     (concat (map (fun p => rows (snd p)) fcs)))))
      end
  end.

(** The [for objectID_group in objectID_Groups:] loop of the script. *)
Definition extraction_loop (fuel : nat) (objectID_Groups : list (list Z))
    (objectID_Field_Name : string) : M unit :=
  for_each objectID_Groups (fun objectID_group =>
    match head objectID_group, last objectID_group with
    | Some lo, Some hi =>
        let objectID_MIN := Py.str lo in
        let objectID_MAX := Py.str hi in
        iterator <- gets json_file_iterator ;;
        modify (set_json_file_iterator (iterator + Planner.len objectID_group)) ;;
        QueryExtractionRequest fuel objectID_MIN objectID_MAX objectID_Field_Name
          (endpoint_URL svc)
    | _, _ => raise IndexError
    end).

(** The statements at module level from [CleanUpJSONsFolder(out_json_folder)]
    to the end of the extraction loop, with the page size handed to
    [IterableChunk] as a parameter. *)
Definition extract_all (page_size : Z) (fuel : nat) : M unit :=
  CleanUpJSONsFolder ;;
  service_request_MAX <- ServiceGetRecordExtract (endpoint_URL svc) ;;
  ids <- ServiceGetObjectIDs (endpoint_URL svc) ;;
  let '(objectID_Field_Name, objectID_Manifest) := ids in
  match Planner.IterableChunk page_size objectID_Manifest with
  | inl e => raise e
  | inr p =>
      let objectID_Groups := Planner.groups p in
      extraction_loop fuel objectID_Groups objectID_Field_Name
  end.

(** The whole run: extraction, then the two calls of the merge stage. *)
Definition script (page_size : Z) (fuel : nat) : M unit :=
  extract_all page_size fuel ;;
  ConvertJSONstoFeatureClasses ;;
  ReplaceFinalFeatureClassWithIntermediateFeatureClasses.

(** The run as written: the page size is [record_extraction_hardcode]. *)
Definition main (fuel : nat) : M unit := script record_extraction_hardcode fuel.

End Script.

(** ** Observations on a run *)

(** A reply that ends the retry loop: HTTP success without the sentinel. *)
Definition accepted (r : reply) : bool :=
  (ok r && negb (Py.bytes_in server_error_message (content r)))%bool.

(** What [n] rounds of the retry loop add to the log when they start from
    [sleep_timer]: the doubled delay, then the request. *)
Fixpoint backoff_events (queryURL : string) (sleep_timer : Z) (n : nat)
  : list event :=
  match n with
  | O => []
  | S n' =>
      Sleep (sleep_timer * 2) :: Get queryURL
        :: backoff_events queryURL (sleep_timer * 2) n'
  end.

Definition is_get (e : event) : bool :=
  match e with Get _ => true | _ => false end.

(** The events that follow the last request of a log. *)
Fixpoint after_last_get (l : list event) : list event :=
  match l with
  | [] => []
  | e :: l' =>
      if existsb is_get l' then after_last_get l'
      else if is_get e then l' else e :: l'
  end.

(** The delays slept, the files written and the files handed to the
    converter, each in the order of the log. *)
Definition sleeps_of (l : list event) : list Z :=
  omap (fun e => match e with Sleep t => Some t | _ => None end) l.

Definition writes_of (l : list event) : list (string * Py.bytes) :=
  omap (fun e => match e with WriteFile f b => Some (f, b) | _ => None end) l.

Definition transfers_of (l : list event) : list string :=
  omap (fun e => match e with Transferring f => Some f | _ => None end) l.

(** The value of [json_file_iterator] after each chunk of the loop. *)
Fixpoint cumulative (iterator : Z) (objectID_Groups : list (list Z)) : list Z :=
  match objectID_Groups with
  | [] => []
  | g :: gs => (iterator + Planner.len g) :: cumulative (iterator + Planner.len g) gs
  end.

(** [os.listdir] enumerates exactly the files of the folder, each once, in
    an order of its own. *)
Definition lists_folder (os_listdir : gmap string Py.bytes -> list string) : Prop :=
  forall d, os_listdir d ≡ₚ (map_to_list d).*1.

Definition gets_of (l : list event) : list string :=
  omap (fun e => match e with Get u => Some u | _ => None end) l.

Definition is_standard_pause (e : event) : bool :=
  match e with
  | Sleep t => t =? query_request_standard_pause
  | _ => false
  end.

(** Does the log pause for the standard interval after its last request? *)
Definition pauses_after_final_response (l : list event) : bool :=
  existsb is_standard_pause (after_last_get l).

(** A computation that leaves the destination feature class as it found it,
    however it ends. *)
Definition keeps_final {A} (m : M A) : Prop :=
  forall w w', world_of (m w) = Some w' ->
  final_featureclass w' = final_featureclass w.

(** Every chunk query is answered properly after at most [fuel] rejected
    replies. *)
Definition eventually_accepts (svc : service) (fuel : nat) : Prop :=
  forall (k : nat) (queryURL : string),
  exists m, (m <= fuel)%nat /\ accepted (query_reply svc (k + m) queryURL) = true.

(** Writing the files of a list into a folder, in order. *)
Definition write_all (folder : gmap string Py.bytes)
    (files : list (string * Py.bytes)) : gmap string Py.bytes :=
  foldl (fun d file => <[file.1 := file.2]> d) folder files.

(** The time a log sleeps in all. *)
Definition total_sleep (l : list event) : Z := foldr Z.add 0 (sleeps_of l).

(** The name [ConvertJSONstoFeatureClasses] gives the feature class of a
    staged file: [f"chunk_{file_name[0]}"]. *)
Definition chunk_class_name (file : string) : string :=
  "chunk_" +:+ Py.split_dot_head file.

(** The feature classes the converter makes of the listed files. *)
Definition converted (JSONToFeatures : Py.bytes -> string -> option feature_class)
    (folder : gmap string Py.bytes) (files : list string)
  : list (string * feature_class) :=
  omap (fun file =>
          match folder !! file with
          | Some body =>
              match JSONToFeatures body "POLYGON" with
              | Some fc => Some (chunk_class_name file, fc)
              | None => None
              end
          | None => None
          end) files.

(** What [ReplaceFinalFeatureClassWithIntermediateFeatureClasses] builds from
    the feature classes of the workspace: the shape and the fields of the
    first, the rows of all. *)
Definition merged (fcs : list (string * feature_class)) : option feature_class :=
  match fcs with
  | [] => None
  | (_, first) :: _ =>
      Some (FeatureClass (shapeType first) (fields first)
              (concat (map (fun p => rows (snd p)) fcs)))
  end.

(** The same service advertising another [maxRecordCount]. *)
Definition advertising (m : Z) (svc : service) : service :=
  Service (service_URL svc) m (objectIdFieldName svc) (objectIds svc)
    (query_reply svc).

(** What the two metadata requests raise, if one of them does: the
    exception of the first step that fails. *)
Definition metadata_error (net : endpoint) : option exn :=
  match layer_reply net with
  | Unreachable => Some ConnectionError
  | NotJSON => Some JSONDecodeError
  | Object None => Some KeyError
  | Object (Some _) =>
      match ids_reply net with
      | Unreachable => Some ConnectionError
      | NotJSON => Some JSONDecodeError
      | Object (None, _) => Some KeyError
      | Object (Some _, None) => Some KeyError
      | Object (Some _, Some None) => Some TypeError
      | Object (Some _, Some (Some _)) => None
      end
  end.

(** [body] is what the service answered to the query of the chunk [g], in a
    reply that the client accepts. *)
Definition answers (svc : service) (field : string) (g : list Z) (body : Py.bytes)
  : Prop :=
  exists (lo hi : Z) (k : nat),
    head g = Some lo /\ last g = Some hi /\
    accepted (query_reply svc k
                (query_url (Py.str lo) (Py.str hi) field (service_URL svc))) = true /\
    body = content (query_reply svc k
                      (query_url (Py.str lo) (Py.str hi) field (service_URL svc))).

(** Removing the files of a list from a folder, in order. *)
Definition remove_all (folder : gmap string Py.bytes) (files : list string)
  : gmap string Py.bytes :=
  foldl (fun d file => delete file d) folder files.

(** ** Scenarios *)

Definition soft_error : reply := Reply 200 server_error_message.
Definition hard_failure : reply := Reply 503 [].
Definition success : reply := Reply 200 (list_byte_of_string "{}").

(** A service that answers the first chunk query with the sentinel, the
    second with a failure status, and every later one properly. *)
Definition flaky_service : service :=
  Service "https://host/arcgis/rest/services/Map/FeatureServer/0" 1000 "OBJECTID"
    [12; 5; 9; 8; 41; 40]
    (fun k _ => match k with
                | O => soft_error
                | S O => hard_failure
                | _ => success
                end).

(** The same layer behind a server that never fails. *)
Definition steady_service : service :=
  Service "https://host/arcgis/rest/services/Map/FeatureServer/0" 1000 "OBJECTID"
    [12; 5; 9; 8; 41; 40] (fun _ _ => success).

(** A layer without records. *)
Definition empty_service : service :=
  Service "https://host/arcgis/rest/services/Map/FeatureServer/0" 1000 "OBJECTID"
    [] (fun _ _ => success).

(** A well-formed JSON body that holds the bytes of the sentinel as the
    value of one of its members. *)
Definition nested_payload : Py.bytes :=
  list_byte_of_string ("{" +:+ dq +:+ "features" +:+ dq +:+ ":[]," +:+ dq
                       +:+ "lastError" +:+ dq +:+ ":")
  ++ server_error_message ++ list_byte_of_string "}".

(** A service whose first answer to a chunk query is that payload, with a
    success status, and which answers properly afterwards. *)
Definition nesting_service : service :=
  Service "https://host/arcgis/rest/services/Map/FeatureServer/0" 1000 "OBJECTID"
    [12; 5; 9; 8; 41; 40]
    (fun k _ => match k with
                | O => Reply 200 nested_payload
                | _ => success
                end).




(** A payload store that holds two staged chunks. *)
Definition staged_world : world :=
  World true 6 2
    (<["000006.json" := content success]> (<["000003.json" := content success]> ∅))
    None (Some (FeatureClass "POLYGON" ["OBJECTID"] [["1"]; ["2"]])) [].

(** The feature classes of two converted chunks. *)
Definition two_chunk_classes : list (string * feature_class) :=
  [("chunk_000003", FeatureClass "POLYGON" ["OBJECTID"] [["5"]; ["8"]]);
   ("chunk_000006", FeatureClass "POLYGON" ["OBJECTID"] [["12"]])].

(** A converter that accepts every payload, and one that accepts none. *)
Definition lenient_converter (body : Py.bytes) (geometry_type : string)
  : option feature_class :=
  Some (FeatureClass geometry_type ["OBJECTID"] [[string_of_list_byte body]]).

Definition failing_converter (body : Py.bytes) (geometry_type : string)
  : option feature_class := None.

(** Two directory orders: the one of the map's enumeration and its reverse. *)
Definition listdir_forward (d : gmap string Py.bytes) : list string :=
  (map_to_list d).*1.

Definition listdir_backward (d : gmap string Py.bytes) : list string :=
  reverse (map_to_list d).*1.

Definition old_destination : feature_class :=
  FeatureClass "POLYGON" ["OBJECTID"] [["1"]; ["2"]].

(** ** The anatomy of a call of [QueryExtractionRequest] *)

Section CallAnatomy.
Variable svc : service.

(** The replies a call sees: the one in hand, then those of the requests it
    goes on to send when [k] chunk queries went out before. *)
Definition attempt (response : reply) (k : nat) (queryURL : string) (j : nat)
  : reply :=
  match j with
  | O => response
  | S j' => query_reply svc (k + j') queryURL
  end.

(** One round of the loop body: the doubled delay, the request and the new
    value of the flag. *)
Definition retry_round (queryURL : string) (sleep_timer : Z) (w : world) : world :=
  let response := query_reply svc (queries_sent w) queryURL in
  set_response_flag (negb (Py.bytes_in server_error_message (content response)))
    (emit (Get queryURL)
       (set_queries_sent (S (queries_sent w)) (emit (Sleep (sleep_timer * 2)) w))).

(** The first accepted reply of a call that starts when [k] chunk queries
    went out: the [n] replies before it are rejected. *)
Definition first_accepted (k : nat) (queryURL : string) (n : nat) : Prop :=
  (forall j, (j < n)%nat -> accepted (query_reply svc (k + j) queryURL) = false) /\
  accepted (query_reply svc (k + n) queryURL) = true.

(** The world before the retry loop of a call: the first request, the
    one-sided update of the flag and the standard pause. *)
Definition before_retries (queryURL : string) (w : world) : world :=
  let response := query_reply svc (queries_sent w) queryURL in
  let w1 := emit (Get queryURL) (set_queries_sent (S (queries_sent w)) w) in
  let w2 :=
    if Py.bytes_in server_error_message (content response)
    then set_response_flag false w1 else w1 in
  emit (Sleep query_request_standard_pause) w2.

(** The write that ends a call. *)
Definition persist (response : reply) (w : world) : world :=
  let name := json_file_name (json_file_iterator w) in
  set_out_json_folder (<[name := content response]> (out_json_folder w))
    (emit (WriteFile name (content response)) w).

End CallAnatomy.

(** * WebGISDR-cli-wrapper: backup rotation *)

Module WebGISDR.

(** The [argparse.Namespace] that [configure] returns. *)
Record backup_arguments := BackupArguments {
  mode : string;
  copies : Z
}.

(** [seq[:stop]]: a negative [stop] counts from the end. *)
Definition slice_to {A} (stop : Z) (l : list A) : list A :=
  if stop <? 0 then take (length l - Z.to_nat (- stop)) l
  else take (Z.to_nat stop) l.

(** What [prune_copies] leaves behind and what it prints. *)
Record pruning := Pruning {
  directory : gmap string Py.bytes;
  backups_retained : list string;
  backups_pruned : list string
}.

Section Pruning.

(** What depends on the platform: how [pathlib] orders two paths of one
    directory (case is folded on Windows), which names the pattern
    [*{mode}.webgissite] matches, and in which order the directory is
    scanned. *)
Variable path_le : relation string.
Context `{!RelDecision path_le}.
Variable glob_match : string -> string -> bool.
Variable iterdir : gmap string Py.bytes -> list string.

(** The order of [sort(reverse=True)]. *)
Definition path_ge : relation string := flip path_le.

#[local] Instance path_ge_dec : RelDecision path_ge :=
  fun x y => decide_rel path_le y x.

(** [webgisdr_backups_path.glob(f"*{mode}.webgissite")] *)
Definition glob (webgisdr_backups_path : gmap string Py.bytes) (mode : string)
  : list string :=
  filter (fun name => glob_match mode name = true) (iterdir webgisdr_backups_path).

(** [prune_copies(webgisdr_backups_path, backup_arguments)] *)
Definition prune_copies (webgisdr_backups_path : gmap string Py.bytes)
    (arguments : backup_arguments) : pruning :=
  let WebGISDR_backups := glob webgisdr_backups_path (mode arguments) in
  let WebGISDR_backups := merge_sort path_ge WebGISDR_backups in
  let file_names := WebGISDR_backups in
  let backups_retained := slice_to (copies arguments) file_names in
  let backups_pruned :=
    filter (fun item => item ∉ backups_retained) file_names in
  Pruning (remove_all webgisdr_backups_path backups_pruned)
    backups_retained backups_pruned.

End Pruning.

(** [key in line] for [str]. *)
Definition str_in (key line : string) : bool :=
  Py.bytes_in (list_byte_of_string key) (list_byte_of_string line).

(** [set_WebGISDR], from the [lines] that [file_content.splitlines()] gives
    to the lines that are joined and written back: every line that holds
    [BACKUP_RESTORE_MODE =] is replaced by the new setting. *)
Definition set_WebGISDR (backup_mode : string) (lines : list string) : list string :=
  (fun line =>
     if str_in "BACKUP_RESTORE_MODE =" line
     then "BACKUP_RESTORE_MODE = " +:+ backup_mode
     else line) <$> lines.

(** The characters at which [str.splitlines] ends a line, among the code
    points below 256: line feed, vertical tab, form feed, carriage return,
    the three separators 28 to 30 and next line (133). *)
Definition line_boundary (c : ascii) : bool :=
  match N_of_ascii c with
  | 10%N | 11%N | 12%N | 13%N | 28%N | 29%N | 30%N | 133%N => true
  | _ => false
  end.

(** [text.splitlines()] behind the line read so far: a text that ends at a
    boundary has no empty last line, and the line feed that follows a
    carriage return ([after_cr]) belongs to the boundary before it. *)
Fixpoint splitlines_from (after_cr : bool) (line text : string) : list string :=
  match text with
  | EmptyString =>
      match line with
      | EmptyString => []
      | _ => [line]
      end
  | String c rest =>
      if (after_cr && Ascii.eqb c "010")%bool then splitlines_from false line rest
      else if line_boundary c
           then line :: splitlines_from (Ascii.eqb c "013") EmptyString rest
           else splitlines_from false (line +:+ String c EmptyString) rest
  end.

Definition splitlines (text : string) : list string :=
  splitlines_from false EmptyString text.

Definition newline : string := String "010"%char EmptyString.

(** [set_WebGISDR] from the text that [read_text] gives to the text that
    [write_text] is given.  A text is a string of code points below 256;
    what the script writes holds no carriage return, so that the next
    [read_text] gives the text as it was written. *)
Definition set_WebGISDR_text (backup_mode file_content : string) : string :=
  let lines := splitlines file_content in
  String.concat newline (set_WebGISDR backup_mode lines).

(** A string without a line boundary. *)
Fixpoint single_line (s : string) : bool :=
  match s with
  | EmptyString => true
  | String c s' => negb (line_boundary c) && single_line s'
  end.

(** The lines without the last one, when that is empty. *)
Fixpoint drop_final_blank (lines : list string) : list string :=
  match lines with
  | [] => []
  | line :: rest =>
      match rest with
      | [] => match line with EmptyString => [] | _ => [line] end
      | _ => line :: drop_final_blank rest
      end
  end.

(** A properties file that ends in a blank line. *)
Definition properties_file : string :=
  "SHARED_LOCATION = D:" +:+ newline +:+ "BACKUP_RESTORE_MODE = backup"
  +:+ newline +:+ newline.
(** A directory of backups, named by date and mode. *)
Definition backups_folder : gmap string Py.bytes :=
  <["20240103-FULL.webgissite" := []]>
    (<["20240101-FULL.webgissite" := []]>
       (<["20240102-FULL.webgissite" := []]>
          (<["20240102-INCREMENTAL.webgissite" := []]>
             (<["notes.txt" := []]> ∅)))).

(** A matcher for the scenario: the name ends in the mode and the suffix. *)
Fixpoint ends_with (suffix name : string) : bool :=
  String.eqb suffix name ||
  match name with
  | EmptyString => false
  | String _ name' => ends_with suffix name'
  end.

Definition suffix_match (mode name : string) : bool :=
  ends_with (mode +:+ ".webgissite") name.

End WebGISDR.

(** * arcgis-patch-notifier: new patches of the watched versions *)

Module PatchNotifier.

(** The exceptions the notifier can meet: a key that a [dict] does not hold,
    a request that [raise_for_status] refuses, a manifest that is not JSON. *)
Inductive error :=
| KeyError (key : string)
| HTTPError
| JSONDecodeError.

#[global] Instance error_eq_dec : EqDecision error.
Proof. solve_decision. Defined.

Definition ARCGIS_VERSIONS : list string := ["11.2"].
Definition MESSAGE_RECIPIENTS : list string := ["your-email-here"].

Definition tab : string := String "009"%char EmptyString.
Definition nl : string := String "010"%char EmptyString.

(** What [send_email] hands to the SMTP server. *)
Record email := Email {
  msg_subject : string;
  msg_content : string;
  msg_to : list string;
  msg_priority : Z
}.

(** The machine the notifier runs on: the local manifest file, if there is
    one, the number of requests sent to Esri and the messages sent. *)
Record host := Host {
  manifest : option Py.bytes;
  requests : nat;
  outbox : list email
}.

Section Notifier.

(** A patch is a JSON object: the notifier compares two of them with [==]
    and prints the entries [Name], [Products], [ReleaseDate] and [Critical],
    which every patch of a manifest is taken to hold.  What [logging] writes
    to the log file is left out. *)
Variable patch : Type.
Context `{!EqDecision patch}.
Variables Name Products ReleaseDate Critical : patch -> string.

(** An entry of the [Product] list of a manifest, with its keys [version]
    and [patches]. *)
Record product := Product {
  version : string;
  patches : list patch
}.

(** A [dict] from versions to patch lists, in insertion order. *)
Definition dict : Type := list (string * list patch).

(** [d[key] = value]: a key that is there keeps its place. *)
Fixpoint dict_set (key : string) (value : list patch) (d : dict) : dict :=
  match d with
  | [] => [(key, value)]
  | (k, v) :: d' =>
      if decide (k = key) then (key, value) :: d'
      else (k, v) :: dict_set key value d'
  end.

(** [d[key]] *)
Fixpoint dict_get (key : string) (d : dict) : error + list patch :=
  match d with
  | [] => inl (KeyError key)
  | (k, v) :: d' => if decide (k = key) then inr v else dict_get key d'
  end.

(** [a == b] for two dicts: the same keys with equal values, in any order. *)
Definition dict_eq (a b : dict) : bool :=
  bool_decide (list_to_map a =@{gmap string (list patch)} list_to_map b).

(** A parsed manifest: the list under its [Product] key, if it has one. *)
Definition document : Type := option (list product).

(** [find_product(product_version, patch_json)] *)
Definition find_product (product_version : list string) (patch_json : document)
  : error + dict :=
  match patch_json with
  | None => inl (KeyError "Product")
  | Some items =>
      inr (foldl (fun available_patches item =>
                    if bool_decide (version item ∈ product_version)
                    then dict_set (version item) (patches item) available_patches
                    else available_patches)
             [] items)
  end.

(** The four lines appended for a new patch. *)
Definition patch_lines (version : string) (p : patch) : list string :=
  [ "- Version: " +:+ version +:+ " | " +:+ Name p;
    tab +:+ "- Product: " +:+ Products p;
    tab +:+ "- Release Date: " +:+ ReleaseDate p;
    tab +:+ "- Critical: " +:+ Critical p +:+ nl ].

(** [for patch in online_patches]: [patches_local[version]] is looked up
    once for every patch. *)
Fixpoint format_patches (patches_local : dict) (version : string)
    (online_patches : list patch) (formatted_patches : list string)
  : error + list string :=
  match online_patches with
  | [] => inr formatted_patches
  | p :: rest =>
      match dict_get version patches_local with
      | inl e => inl e
      | inr local =>
          format_patches patches_local version rest
            (if bool_decide (p ∈ local) then formatted_patches
             else formatted_patches ++ patch_lines version p)
      end
  end.

(** [for version, online_patches in patches_online.items()] *)
Fixpoint format_versions (patches_local patches_online : dict)
    (formatted_patches : list string) : error + list string :=
  match patches_online with
  | [] => inr formatted_patches
  | (version, online_patches) :: rest =>
      match format_patches patches_local version online_patches formatted_patches with
      | inl e => inl e
      | inr formatted_patches => format_versions patches_local rest formatted_patches
      end
  end.

(** [format_patch_differences(patches_local, patches_online)] *)
Definition format_patch_differences (patches_local patches_online : dict)
  : error + string :=
  match format_versions patches_local patches_online [] with
  | inl e => inl e
  | inr formatted_patches => inr (String.concat nl formatted_patches)
  end.

(** ** The notifier's effects *)

Definition N (A : Type) : Type := host -> (error + A) * host.

Definition bind {A B} (m : N A) (k : A -> N B) : N B :=
  fun h =>
    match m h with
    | (inr a, h') => k a h'
    | (inl e, h') => (inl e, h')
    end.

(** The value or the exception of a computation without effects. *)
Definition lift {A} (r : error + A) : N A := fun h => (r, h).

(** [try: body except Exception as e: handler] *)
Definition try_except (body : N unit) (handler : error -> N unit) : N unit :=
  fun h =>
    match body h with
    | (inr tt, h') => (inr tt, h')
    | (inl e, h') => handler e h'
    end.

Declare Scope notifier_scope.
Delimit Scope notifier_scope with notifier.
Notation "x <- m ;; k" := (bind m (fun x => k))
  (at level 100, m at next level, right associativity) : notifier_scope.
Notation "m ;; k" := (bind m (fun _ => k))
  (at level 100, right associativity) : notifier_scope.
Local Open Scope notifier_scope.

(** What the machine and the network give: the reply to the n-th request to
    Esri, after [raise_for_status]; [json.loads], on the file as on the
    reply; [os.environ]; [str(e)] and [str.lower]. *)
Variable esri : nat -> error + Py.bytes.
Variable json_loads : Py.bytes -> error + document.
Variable os_environ : string -> option string.
Variable str_error : error -> string.
Variable str_lower : string -> string.

Definition current_file_name : string := "arcgis-patch-notifier-sample.py".
Definition current_file_stem : string := "arcgis-patch-notifier-sample".

(** [send_email]: the SMTP server takes the message. *)
Definition send_email (msg_subject msg_content : string) (msg_to : list string)
    (msg_priority : Z) : N unit :=
  fun h =>
    (inr tt,
     Host (manifest h) (requests h)
       (outbox h ++ [Email msg_subject msg_content msg_to msg_priority])).

(** [ARCGIS_PATCHES_FILE.write_bytes(content)] *)
Definition write_bytes (content : Py.bytes) : N unit :=
  fun h => (inr tt, Host (Some content) (requests h) (outbox h)).

(** [get_esri_patches()] *)
Definition get_esri_patches : N Py.bytes :=
  fun h => (esri (requests h), Host (manifest h) (S (requests h)) (outbox h)).

(** [get_local_patches(local_patches_path)] *)
Definition get_local_patches : N document :=
  fun h =>
    match manifest h with
    | Some file_content => lift (json_loads file_content) h
    | None =>
        (esri_response <- get_esri_patches ;;
         write_bytes esri_response ;;
         lift (json_loads esri_response)) h
    end.

(** [os.environ[key]] *)
Definition environ (key : string) : error + string :=
  match os_environ key with
  | Some value => inr value
  | None => inl (KeyError key)
  end.

(** [main()] *)
Definition main : N unit :=
  try_except
    (local_patches <- get_local_patches ;;
     esri_patches <- get_esri_patches ;;
     online_json <- lift (json_loads esri_patches) ;;
     patches_online <- lift (find_product ARCGIS_VERSIONS online_json) ;;
     patches_local <- lift (find_product ARCGIS_VERSIONS local_patches) ;;
     if dict_eq patches_online patches_local then
       send_email "No New ArcGIS Patches Available for Version(s) ['11.2']"
         "No New ArcGIS Patches Available" MESSAGE_RECIPIENTS 3
     else
       new_patches <- lift (format_patch_differences patches_local patches_online) ;;
       send_email "New ArcGIS Patches Available for Version(s) ['11.2']"
         ("New ArcGIS Patches Available:" +:+ nl +:+ nl +:+ new_patches)
         MESSAGE_RECIPIENTS 1 ;;
       write_bytes esri_patches)
    (fun e =>
       computername <- lift (environ "COMPUTERNAME") ;;
       send_email ("failure, " +:+ current_file_name)
         ("ArcGIS Patch Notifier Failed with an Unexpected Error" +:+ nl +:+ nl
          +:+ "Please review the logs on " +:+ str_lower computername
          +:+ " at:" +:+ nl +:+ current_file_stem +:+ ".log" +:+ nl +:+ nl
          +:+ "Error as follows:" +:+ nl +:+ str_error e)
         MESSAGE_RECIPIENTS 1).

(** ** Observations on the notifier *)

(** The three messages of [main]. *)
Definition no_new_patches : email :=
  Email "No New ArcGIS Patches Available for Version(s) ['11.2']"
    "No New ArcGIS Patches Available" MESSAGE_RECIPIENTS 3.

Definition new_patches_available (new_patches : string) : email :=
  Email "New ArcGIS Patches Available for Version(s) ['11.2']"
    ("New ArcGIS Patches Available:" +:+ nl +:+ nl +:+ new_patches)
    MESSAGE_RECIPIENTS 1.

Definition failure (computername : string) (e : error) : email :=
  Email ("failure, " +:+ current_file_name)
    ("ArcGIS Patch Notifier Failed with an Unexpected Error" +:+ nl +:+ nl
     +:+ "Please review the logs on " +:+ str_lower computername
     +:+ " at:" +:+ nl +:+ current_file_stem +:+ ".log" +:+ nl +:+ nl
     +:+ "Error as follows:" +:+ nl +:+ str_error e)
    MESSAGE_RECIPIENTS 1.

(** The machine after [n] runs of [main], as long as none of them raises. *)
Fixpoint runs (n : nat) (h : host) : (error + unit) * host :=
  match n with
  | O => (inr tt, h)
  | S n' =>
      match main h with
      | (inr tt, h') => runs n' h'
      | (inl e, h') => (inl e, h')
      end
  end.

(** The patches of an entry of [patches_online] that [patches_local] does
    not hold under the entry's version. *)
Definition new_patches (patches_local : dict) (online : string * list patch)
  : list (string * patch) :=
  match dict_get online.1 patches_local with
  | inr local => (fun p => (online.1, p)) <$> filter (fun p => p ∉ local) online.2
  | inl _ => []
  end.

(** An entry of [patches_online] with a patch, under a version that
    [patches_local] does not know. *)
Definition uncovered (patches_local : dict) (online : string * list patch) : Prop :=
  online.2 <> [] /\ dict_get online.1 patches_local = inl (KeyError online.1).

(** The lines for a new patch of a version. *)
Definition lines_of (new : string * patch) : list string :=
  patch_lines new.1 new.2.

(** The entries of [items] for one version. *)
Definition entries_of (v : string) (items : list product) : list product :=
  filter (fun item => version item = v) items.

End Notifier.

Arguments Product {patch} version patches.
Arguments version {patch} p.
Arguments patches {patch} p.
Arguments dict_set {patch} key value d.
Arguments dict_get {patch} key d.
Arguments dict_eq {patch _} a b.
Arguments find_product {patch} product_version patch_json.
Arguments new_patches {patch _} patches_local online.
Arguments uncovered {patch} patches_local online.
Arguments entries_of {patch} v items.
Arguments patch_lines {patch} Name Products ReleaseDate Critical version p.
Arguments lines_of {patch} Name Products ReleaseDate Critical new.
Arguments format_patches {patch _} Name Products ReleaseDate Critical.
Arguments format_versions {patch _} Name Products ReleaseDate Critical.
Arguments format_patch_differences {patch _} Name Products ReleaseDate Critical.
Arguments get_esri_patches esri h.
Arguments get_local_patches {patch} esri json_loads h.
Arguments main {patch _} Name Products ReleaseDate Critical esri json_loads
  os_environ str_error str_lower h.
Arguments runs {patch _} Name Products ReleaseDate Critical esri json_loads
  os_environ str_error str_lower n h.

(** ** Scenarios *)

(** The manifest that Esri serves, and three local manifests: one that lacks
    the newest patch, one from before the watched version, and one with a
    patch that Esri has withdrawn since. *)
Definition esri_manifest : list (product string) :=
  [ Product "11.1" ["Security 2023 Update 1"];
    Product "11.2" ["Security 2024 Update 1"; "Security 2024 Update 2"] ].

Definition local_manifest : list (product string) :=
  [ Product "11.1" ["Security 2023 Update 1"];
    Product "11.2" ["Security 2024 Update 1"] ].

Definition stale_manifest : list (product string) :=
  [ Product "11.1" ["Security 2023 Update 1"] ].

Definition ample_manifest : list (product string) :=
  [ Product "11.2"
      ["Security 2024 Update 1"; "Security 2024 Update 2"; "Portal Hotfix"] ].

(** A manifest that lists a version twice. *)
Definition doubled_manifest : list (product string) :=
  [ Product "11.2" ["Security 2024 Update 1"];
    Product "11.1" ["Security 2023 Update 1"];
    Product "11.2" ["Security 2024 Update 2"] ].

(** Their files, and a parser for them. *)
Definition esri_bytes : Py.bytes := [x00].
Definition stale_bytes : Py.bytes := [x02].
Definition ample_bytes : Py.bytes := [x03].

Definition loads (content : Py.bytes) : error + document string :=
  match content with
  | [b] =>
      match Byte.to_N b with
      | 0%N => inr (Some esri_manifest)
      | 1%N => inr (Some local_manifest)
      | 2%N => inr (Some stale_manifest)
      | 3%N => inr (Some ample_manifest)
      | _ => inl JSONDecodeError
      end
  | _ => inl JSONDecodeError
  end.

(** A service that always serves the manifest, a machine with and one
    without the variable [COMPUTERNAME]. *)
Definition steady (n : nat) : error + Py.bytes := inr esri_bytes.

Definition windows (key : string) : option string :=
  if decide (key = "COMPUTERNAME") then Some "GIS01" else None.


Definition str_of (e : error) : string :=
  match e with
  | KeyError key => "'" +:+ key +:+ "'"
  | HTTPError => "HTTPError"
  | JSONDecodeError => "JSONDecodeError"
  end.

End PatchNotifier.

(** * Properties *)

(** ** The planner: [zip_longest] over aliases of one iterator walks the
    manifest in strides *)

Section PlannerFacts.
Import Planner.

(** A full stride: the shared iterator still holds at least [n] items. *)
Lemma zip_longest_row_full (n : nat) : forall (src : list Z) (a : nat),
  (n <= length src)%nat ->
  zip_longest_row (repeat shared_iter n) src a
  = Some (Some <$> take n src, repeat shared_iter n, drop n src, a).
Proof.
  induction n as [|n IH]; intros src a Hlen; simpl.
  - by rewrite drop_0.
  - destruct src as [|x src]; simpl in *; [exfalso; lia|].
    rewrite IH by lia. reflexivity.
Qed.

(** The shared iterator is exhausted and more aliases are active than are
    left in this pass: each of them is swapped for the filler. *)
Lemma zip_longest_row_fill (j : nat) : forall (a : nat),
  (j < a)%nat ->
  zip_longest_row (repeat shared_iter j) [] a
  = Some (repeat None j, repeat repeat_fill j, [], (a - j)%nat).
Proof.
  induction j as [|j IH]; intros a Ha; simpl.
  - by rewrite Nat.sub_0_r.
  - destruct (Nat.eqb_spec (a - 1) 0) as [E|E]; [exfalso; lia|].
    rewrite IH by lia.
    replace (a - 1 - j)%nat with (a - S j)%nat by lia. reflexivity.
Qed.

(** The last, shorter stride. *)
Lemma zip_longest_row_partial (src : list Z) : forall (j a : nat),
  (j < a)%nat ->
  zip_longest_row (repeat shared_iter (length src + j)) src a
  = Some ((Some <$> src) ++ repeat None j,
          repeat shared_iter (length src) ++ repeat repeat_fill j,
          [], (a - j)%nat).
Proof.
  induction src as [|x src IH]; intros j a Ha; simpl.
  - by apply zip_longest_row_fill.
  - rewrite IH by done. reflexivity.
Qed.

(** Once the last active alias hits the exhausted iterator, the generator
    returns. *)
Lemma zip_longest_row_return (k : nat) : forall (its : list iterator) (a : nat),
  (1 <= a <= k)%nat ->
  zip_longest_row (repeat shared_iter k ++ its) [] a = None.
Proof.
  induction k as [|k IH]; intros its a Ha; simpl; [lia|].
  destruct (Nat.eqb_spec (a - 1) 0) as [E|E]; [done|].
  rewrite IH by lia. reflexivity.
Qed.

Lemma drop_none_Some (l : list Z) : drop_none (Some <$> l) = l.
Proof. unfold drop_none. induction l as [|x l IH]; csimpl; [done|]. by rewrite IH. Qed.

Lemma drop_none_app_fill (l : list Z) (j : nat) :
  drop_none ((Some <$> l) ++ repeat None j) = l.
Proof.
  unfold drop_none. rewrite omap_app.
  replace (omap id (repeat (@None Z) j)) with (@nil Z).
  - rewrite app_nil_r. apply drop_none_Some.
  - induction j; simpl; auto.
Qed.

(** The generator refines the spec's stride walk, given one round more than
    there are identifiers. *)
Lemma zip_longest_loop_strides (n : nat) : (1 <= n)%nat ->
  forall (fuel : nat) (src : list Z),
  (length src < fuel)%nat ->
  fmap (M := option) (map drop_none) (zip_longest_loop fuel (repeat shared_iter n) src n)
  = Some (strides fuel n src).
Proof.
  intros Hn. induction fuel as [|fuel IH]; intros src Hlen; [lia|].
  simpl. destruct src as [|x src].
  - rewrite <- (app_nil_r (repeat shared_iter n)).
    rewrite zip_longest_row_return by lia. reflexivity.
  - destruct (le_lt_dec n (length (x :: src))) as [Hfull|Hshort].
    + rewrite zip_longest_row_full by done.
      specialize (IH (drop n (x :: src))).
      rewrite length_drop in IH. simpl in Hlen, IH.
      destruct (zip_longest_loop fuel (repeat shared_iter n) (drop n (x :: src)) n)
        as [rows|]; simpl in *.
      * rewrite drop_none_Some. f_equal. f_equal.
        assert (Some (map drop_none rows) = Some (strides fuel n (drop n (x :: src)))) as E
          by (apply IH; lia).
        by injection E.
      * exfalso. assert (None = Some (strides fuel n (drop n (x :: src)))) by (apply IH; lia).
        discriminate.
    + remember (x :: src) as l eqn:El.
      assert (1 <= length l)%nat as Hpos by (subst l; simpl; lia).
      replace n with (length l + (n - length l))%nat at 1 by lia.
      rewrite zip_longest_row_partial by lia.
      destruct fuel as [|fuel]; [exfalso; lia|].
      simpl zip_longest_loop.
      replace (n - (n - length l))%nat with (length l) by lia.
      rewrite zip_longest_row_return by lia.
      simpl. rewrite drop_none_app_fill.
      rewrite take_ge by lia. rewrite drop_ge by lia.
      subst l. reflexivity.
Qed.

End PlannerFacts.
(** ** The stride walk partitions the manifest *)

Section Strides.
Import Planner.
Variable n : nat.
Hypothesis n_pos : (1 <= n)%nat.

Lemma strides_concat : forall (fuel : nat) (l : list Z),
  (length l <= fuel)%nat -> concat (strides fuel n l) = l.
Proof using n_pos.
  induction fuel as [|fuel IH]; intros l Hlen.
  - destruct l; simpl in *; [done | exfalso; lia].
  - destruct l as [|x l]; [done|].
    change (concat (take n (x :: l) :: strides fuel n (drop n (x :: l))) = x :: l).
    rewrite concat_cons, IH, take_drop; [done|].
    rewrite length_drop. simpl in *. lia.
Qed.

Lemma strides_groups : forall (fuel : nat) (l : list Z),
  Forall (fun g => g <> [] /\ (length g <= n)%nat) (strides fuel n l).
Proof using n_pos.
  induction fuel as [|fuel IH]; intros l; [constructor|].
  destruct l as [|x l]; [constructor|].
  change (Forall (fun g => g <> [] /\ (length g <= n)%nat)
            (take n (x :: l) :: strides fuel n (drop n (x :: l)))).
  constructor; [|apply IH]. split.
  - destruct n; [exfalso; lia | done].
  - rewrite length_take. lia.
Qed.

(** The number of strides is the length divided by the page size, rounded up. *)
Lemma strides_length : forall (fuel : nat) (l : list Z),
  (length l <= fuel)%nat ->
  len (strides fuel n l) = (len l + Z.of_nat n - 1) / Z.of_nat n.
Proof using n_pos.
  unfold len. induction fuel as [|fuel IH]; intros l Hlen.
  - destruct l; simpl in *; [|exfalso; lia].
    symmetry. apply Z.div_small. lia.
  - destruct l as [|x l].
    + simpl. symmetry. apply Z.div_small. lia.
    + change (strides (S fuel) n (x :: l))
        with (take n (x :: l) :: strides fuel n (drop n (x :: l))).
      rewrite length_cons, Nat2Z.inj_succ, IH
        by (rewrite length_drop; simpl in *; lia).
      rewrite length_drop. remember (length (x :: l)) as m eqn:Em.
      assert (1 <= m)%nat by (subst m; simpl; lia).
      destruct (le_lt_dec n m) as [Hfull|Hshort].
      * replace (Z.of_nat m + Z.of_nat n - 1)
          with ((Z.of_nat (m - n) + Z.of_nat n - 1) + 1 * Z.of_nat n) by lia.
        rewrite Z.div_add by lia. lia.
      * replace (m - n)%nat with 0%nat by lia.
        rewrite (Z.div_small (Z.of_nat 0 + Z.of_nat n - 1)) by lia.
        replace (Z.of_nat m + Z.of_nat n - 1)
          with ((Z.of_nat m - 1) + 1 * Z.of_nat n) by lia.
        rewrite Z.div_add by lia. rewrite Z.div_small by lia. lia.
Qed.

End Strides.

(** What the script prints as the number of iterations is the rounded-up
    quotient. *)
Lemma total_iterations_ceil (m n : Z) : 0 <= m -> 1 <= n ->
  m / n + (if m mod n >? 0 then 1 else 0) = (m + n - 1) / n.
Proof.
  intros Hm Hn.
  pose proof (Z.div_mod m n ltac:(lia)) as Hdm.
  pose proof (Z.mod_pos_bound m n ltac:(lia)) as Hb.
  set (q := m / n) in *. set (r := m mod n) in *.
  destruct (Z.gtb_spec r 0) as [Hpos|Hzero].
  - replace (m + n - 1) with ((r - 1) + (q + 1) * n) by nia.
    rewrite Z.div_add by lia. rewrite Z.div_small by lia. lia.
  - replace (m + n - 1) with ((n - 1) + q * n) by nia.
    rewrite Z.div_add by lia. rewrite Z.div_small by lia. lia.
Qed.

(** [IterableChunk] on a page size of at least one: no error, and the chunks
    are the strides of the manifest. *)
Lemma IterableChunk_strides (ServiceRequestMAX : Z) (ObjectIDManifest : list Z) :
  1 <= ServiceRequestMAX ->
  Planner.IterableChunk ServiceRequestMAX ObjectIDManifest
  = inr (Planner.Plan
           ((Planner.len ObjectIDManifest + ServiceRequestMAX - 1) / ServiceRequestMAX)
           (Planner.strides (S (length ObjectIDManifest))
              (Z.to_nat ServiceRequestMAX) ObjectIDManifest)).
Proof.
  intros Hn. unfold Planner.IterableChunk.
  destruct (Z.eqb_spec ServiceRequestMAX 0) as [E|_]; [exfalso; lia|].
  rewrite total_iterations_ceil by (unfold Planner.len; lia).
  unfold Planner.chunks_of, Planner.zip_longest.
  rewrite repeat_length.
  destruct (Nat.eqb_spec (Z.to_nat ServiceRequestMAX) 0) as [E|_]; [exfalso; lia|].
  rewrite zip_longest_loop_strides by lia. reflexivity.
Qed.

(** ** Chunks of a strictly increasing manifest *)

Section SortedChunks.

Lemma sorted_head_le (g : list Z) (lo x : Z) :
  StronglySorted Z.lt g -> head g = Some lo -> x ∈ g -> lo <= x.
Proof.
  intros Hs Hh Hx. apply head_Some in Hh as [t ->].
  apply StronglySorted_inv in Hs as [_ Hall].
  apply elem_of_cons in Hx as [->|Hx]; [lia|].
  rewrite Forall_forall in Hall. specialize (Hall x Hx). lia.
Qed.

Lemma sorted_le_last (g : list Z) (hi x : Z) :
  StronglySorted Z.lt g -> last g = Some hi -> x ∈ g -> x <= hi.
Proof.
  intros Hs Hl Hx. apply last_Some in Hl as [t ->].
  apply StronglySorted_app in Hs as (Hlt & _ & _).
  apply elem_of_app in Hx as [Hx|Hx].
  - specialize (Hlt x hi Hx ltac:(by apply list_elem_of_singleton)). lia.
  - apply list_elem_of_singleton in Hx. lia.
Qed.

(** One chunk inside the sorted concatenation: it is sorted, everything
    before it is smaller and everything after it is larger. *)
Lemma sorted_concat_middle (gs1 gs2 : list (list Z)) (g : list Z) :
  StronglySorted Z.lt (concat (gs1 ++ g :: gs2)) ->
  StronglySorted Z.lt g /\
  (forall x y, x ∈ concat gs1 -> y ∈ g -> x < y) /\
  (forall x y, x ∈ g -> y ∈ concat gs2 -> x < y).
Proof.
  rewrite concat_app, concat_cons. intros Hs.
  apply StronglySorted_app in Hs as (Hpre & _ & Hs).
  apply StronglySorted_app in Hs as (Hpost & Hg & _).
  split; [done|]. split; [|done].
  intros x y Hx Hy. apply Hpre; [done|]. apply elem_of_app. by left.
Qed.

Lemma filter_all (P : Z -> Prop) `{forall x, Decision (P x)} (l : list Z) :
  (forall x, x ∈ l -> P x) -> filter P l = l.
Proof.
  induction l as [|x l IH]; intros Hall; [done|].
  rewrite filter_cons_True by (apply Hall; left).
  rewrite IH; [done|]. intros y Hy. apply Hall. by right.
Qed.

Lemma filter_none (P : Z -> Prop) `{forall x, Decision (P x)} (l : list Z) :
  (forall x, x ∈ l -> ~ P x) -> filter P l = [].
Proof.
  induction l as [|x l IH]; intros Hall; [done|].
  rewrite filter_cons_False by (apply Hall; left).
  apply IH. intros y Hy. apply Hall. by right.
Qed.

(** A non-empty chunk of a sorted partition is exactly what the manifest
    holds between the chunk's first and last identifier. *)
Lemma chunk_is_range (gs1 gs2 : list (list Z)) (g : list Z) (lo hi : Z) :
  StronglySorted Z.lt (concat (gs1 ++ g :: gs2)) ->
  head g = Some lo -> last g = Some hi ->
  filter (fun x => lo <= x <= hi) (concat (gs1 ++ g :: gs2)) = g.
Proof.
  intros Hs Hlo Hhi.
  destruct (sorted_concat_middle _ _ _ Hs) as (Hg & Hpre & Hpost).
  assert (lo ∈ g) as Hlo_in by (by apply head_Some_elem_of).
  assert (hi ∈ g) as Hhi_in
    by (apply last_Some in Hhi as [t ->]; apply elem_of_app; right; left).
  rewrite concat_app, concat_cons, !filter_app.
  rewrite (filter_none _ (concat gs1)), (filter_all _ g), (filter_none _ (concat gs2)).
  - by rewrite app_nil_r.
  - intros x Hx [_ Hle]. specialize (Hpost hi x Hhi_in Hx). lia.
  - intros x Hx. split; [by eapply sorted_head_le | by eapply sorted_le_last].
  - intros x Hx [Hle _]. specialize (Hpre x lo Hx Hlo_in). lia.
Qed.

End SortedChunks.

(** C1. For every strictly increasing (sorted, duplicate-free) manifest and
    every page size of at least 1 the planner raises no error and its chunks
    partition the manifest in order: their concatenation is the manifest;
    every chunk is non-empty, holds at most a page, and has minID = its first
    identifier <= maxID = its last; the chunk is exactly what the manifest
    holds between minID and maxID; consecutive chunks do not overlap
    (maxID < next minID) and leave no identifier of the manifest between
    them.  For [5, 8, 9, 12, 40, 41] and page size 3 the chunks are
    (5, 9) and (12, 41). *)
Theorem planner_partitions_manifest (page_size : Z) (manifest : list Z) :
  1 <= page_size ->
  StronglySorted Z.lt manifest ->
  exists p,
    Planner.IterableChunk page_size manifest = inr p /\
    concat (Planner.groups p) = manifest /\
    Forall (fun g =>
      exists lo hi,
        Planner.group_bounds g = Some (lo, hi) /\
        head g = Some lo /\ last g = Some hi /\ lo <= hi /\
        (length g <= Z.to_nat page_size)%nat /\
        filter (fun x => lo <= x <= hi) manifest = g) (Planner.groups p) /\
    (forall i g1 g2 lo1 hi1 lo2 hi2,
        Planner.groups p !! i = Some g1 ->
        Planner.groups p !! S i = Some g2 ->
        Planner.group_bounds g1 = Some (lo1, hi1) ->
        Planner.group_bounds g2 = Some (lo2, hi2) ->
        hi1 < lo2 /\ forall x, x ∈ manifest -> ~ (hi1 < x < lo2)) /\
    (Planner.IterableChunk 3 [5; 8; 9; 12; 40; 41]
       = inr (Planner.Plan 2 [[5; 8; 9]; [12; 40; 41]]) /\
     Planner.group_bounds <$> [[5; 8; 9]; [12; 40; 41]]
       = [Some (5, 9); Some (12, 41)]).
Proof.
  intros Hn Hs. rewrite IterableChunk_strides by done.
  eexists. split; [reflexivity|]. cbn [Planner.groups].
  pose proof (strides_concat (Z.to_nat page_size) ltac:(lia)
                (S (length manifest)) manifest ltac:(lia)) as Hcat.
  pose proof (strides_groups (Z.to_nat page_size) ltac:(lia)
                (S (length manifest)) manifest) as Hgs.
  remember (Planner.strides (S (length manifest)) (Z.to_nat page_size) manifest)
    as gs eqn:Egs0.
  clear Egs0. subst manifest. rewrite Forall_forall in Hgs.
  assert (forall g, g ∈ gs -> exists lo hi, head g = Some lo /\ last g = Some hi)
    as Hends.
  { intros g Hg. destruct (Hgs g Hg) as [Hne _].
    destruct g as [|x g]; [done|]. exists x.
    destruct (last (x :: g)) as [hi|] eqn:El; [by exists hi|].
    by apply last_None in El. }
  split; [done|]. split; [|split].
  - apply Forall_forall. intros g Hg.
    destruct (Hends g Hg) as (lo & hi & Hlo & Hhi). exists lo, hi.
    destruct (list_elem_of_split _ _ Hg) as (gs1 & gs2 & Egs).
    subst gs.
    destruct (sorted_concat_middle _ _ _ Hs) as (Hsg & _ & _).
    unfold Planner.group_bounds. rewrite Hlo, Hhi.
    repeat split; [| apply (Hgs g Hg) | by apply chunk_is_range].
    eapply sorted_head_le; [done..|].
    apply last_Some in Hhi as [t ->]. apply elem_of_app. right. left.
  - intros i g1 g2 lo1 hi1 lo2 hi2 H1 H2 Hb1 Hb2.
    unfold Planner.group_bounds in Hb1, Hb2.
    destruct (head g1) as [a1|] eqn:Ea1, (last g1) as [b1|] eqn:Eb1; try discriminate.
    destruct (head g2) as [a2|] eqn:Ea2, (last g2) as [b2|] eqn:Eb2; try discriminate.
    injection Hb1 as <- <-. injection Hb2 as <- <-.
    pose proof (take_drop_middle _ _ _ H1) as E1.
    assert (drop (S i) gs = g2 :: drop (S (S i)) gs) as E2.
    { rewrite <- (take_drop_middle _ _ _ H2) at 1.
      rewrite drop_app_length'; [done|].
      rewrite length_take. apply lookup_lt_Some in H2. lia. }
    rewrite E2 in E1.
    assert (b1 ∈ g1) as Hb1_in
      by (apply last_Some in Eb1 as [t ->]; apply elem_of_app; right; left).
    assert (a2 ∈ g2) as Ha2_in by (by apply head_Some_elem_of).
    rewrite <- E1 in Hs |- *.
    destruct (sorted_concat_middle _ _ _ Hs) as (Hs1 & Hpre1 & Hpost1).
    assert (StronglySorted Z.lt
              (concat ((take i gs ++ [g1]) ++ g2 :: drop (S (S i)) gs))) as Hs'
      by (by rewrite <- app_assoc).
    destruct (sorted_concat_middle _ _ _ Hs') as (Hs2 & Hpre2 & Hpost2).
    split.
    + apply Hpost1; [done|]. rewrite concat_cons. apply elem_of_app. by left.
    + intros x Hx [Hlt1 Hlt2].
      rewrite concat_app, concat_cons, concat_cons in Hx.
      rewrite !elem_of_app in Hx. destruct Hx as [Hx|[Hx|[Hx|Hx]]].
      * specialize (Hpre1 x b1 Hx Hb1_in). lia.
      * pose proof (sorted_le_last _ _ _ Hs1 Eb1 Hx). lia.
      * pose proof (sorted_head_le _ _ _ Hs2 Ea2 Hx). lia.
      * specialize (Hpost2 a2 x Ha2_in Hx). lia.
  - split; reflexivity.
Qed.

Lemma planner_partitions_manifest_witness :
  exists p,
    Planner.IterableChunk 3 [5; 8; 9; 12; 40; 41] = inr p /\
    Planner.group_bounds <$> Planner.groups p = [Some (5, 9); Some (12, 41)].
Proof.
  destruct (planner_partitions_manifest 3 [5; 8; 9; 12; 40; 41]) as (p & Hp & _).
  - lia.
  - repeat (constructor; [|repeat (constructor; [lia|]); constructor]). constructor.
  - exists p. split; [exact Hp|].
    vm_compute in Hp. injection Hp as <-. reflexivity.
Defined.

(** ** Counting the chunks *)

(** When the page size divides the length, every stride is a full page. *)
Lemma strides_full (n : nat) : (1 <= n)%nat ->
  forall (fuel : nat) (l : list Z) (k : nat),
  length l = (k * n)%nat ->
  Forall (fun g => length g = n) (Planner.strides fuel n l).
Proof.
  intros Hn. induction fuel as [|fuel IH]; intros l k Hk; [constructor|].
  destruct l as [|x l]; [constructor|].
  change (Forall (fun g => length g = n)
            (take n (x :: l) :: Planner.strides fuel n (drop n (x :: l)))).
  destruct k as [|k]; [simpl in Hk; discriminate|].
  constructor.
  - rewrite length_take. lia.
  - apply (IH _ k). rewrite length_drop. lia.
Qed.

(** The number of chunks and the printed number of iterations agree, for
    every manifest: both are the length over the page size, rounded up. *)
Lemma IterableChunk_count (page_size : Z) (manifest : list Z) :
  1 <= page_size ->
  exists p,
    Planner.IterableChunk page_size manifest = inr p /\
    Planner.total_iterations p = Planner.len (Planner.groups p) /\
    Planner.len (Planner.groups p)
    = Planner.len manifest / page_size
      + (if Planner.len manifest mod page_size >? 0 then 1 else 0) /\
    Forall (fun g => g <> []) (Planner.groups p).
Proof.
  intros Hn. rewrite IterableChunk_strides by done.
  eexists. split; [reflexivity|]. cbn [Planner.groups Planner.total_iterations].
  pose proof (strides_length (Z.to_nat page_size) ltac:(lia)
                (S (length manifest)) manifest ltac:(lia)) as Hlen.
  rewrite Z2Nat.id in Hlen by lia.
  split; [by rewrite Hlen|]. split.
  - rewrite Hlen. symmetry. apply total_iterations_ceil; [unfold Planner.len|]; lia.
  - eapply Forall_impl; [apply strides_groups; lia|]. by intros g [Hne _].
Qed.

(** C8. When the manifest's length is a positive exact multiple of the page
    size, the planner produces exactly length/pageSize chunks, all of them
    full pages, so that no trailing empty chunk exists, and the number of
    iterations it reports equals the number of chunks produced; a manifest
    of 60 identifiers with page size 30 gives exactly 2 chunks. *)
Theorem exact_multiple_no_trailing_chunk (page_size : Z) (manifest : list Z) :
  1 <= page_size ->
  manifest <> [] ->
  Planner.len manifest mod page_size = 0 ->
  exists p,
    Planner.IterableChunk page_size manifest = inr p /\
    Planner.len (Planner.groups p) = Planner.len manifest / page_size /\
    Forall (fun g => g <> [] /\ Planner.len g = page_size) (Planner.groups p) /\
    last (Planner.groups p) <> Some [] /\
    Planner.total_iterations p = Planner.len (Planner.groups p) /\
    (Planner.len manifest = 60 -> page_size = 30 ->
     Planner.len (Planner.groups p) = 2).
Proof.
  intros Hn Hne Hmod.
  destruct (IterableChunk_count page_size manifest Hn) as (p & Hp & Htot & Hcnt & Hnonempty).
  exists p. split; [done|].
  rewrite Hmod in Hcnt. simpl in Hcnt. rewrite Z.add_0_r in Hcnt.
  assert (Forall (fun g => g <> [] /\ Planner.len g = page_size) (Planner.groups p))
    as Hfull.
  { assert (Planner.groups p
            = Planner.strides (S (length manifest)) (Z.to_nat page_size) manifest)
      as Eg by (rewrite IterableChunk_strides in Hp by done; by injection Hp as <-).
    pose proof (Z.div_mod (Planner.len manifest) page_size ltac:(lia)) as Hdm.
    rewrite Hmod, Z.add_0_r in Hdm.
    assert (0 <= Planner.len manifest / page_size) as Hq
      by (apply Z.div_pos; unfold Planner.len; lia).
    pose proof (strides_full (Z.to_nat page_size) ltac:(lia)
                  (S (length manifest)) manifest
                  (Z.to_nat (Planner.len manifest / page_size))) as Hall.
    rewrite <- Eg in Hall.
    rewrite Forall_forall in Hnonempty, Hall |- *.
    intros g Hg. split; [by apply Hnonempty|].
    unfold Planner.len at 1. rewrite Hall; [lia | | done].
    apply Nat2Z.inj. rewrite Nat2Z.inj_mul, !Z2Nat.id by lia.
    unfold Planner.len in *. nia. }
  repeat split; try done.
  - intros Hlast. apply last_Some in Hlast as [t Et].
    rewrite Et in Hfull. apply Forall_app in Hfull as [_ Hfull].
    apply Forall_cons in Hfull as [[Habs _] _]. done.
  - intros H60 H30. rewrite Hcnt, H60, H30. reflexivity.
Qed.

Lemma exact_multiple_no_trailing_chunk_witness :
  exists p,
    Planner.IterableChunk 30 (seqZ 1 60) = inr p /\
    Planner.len (Planner.groups p) = 2 /\
    Planner.total_iterations p = 2.
Proof.
  destruct (exact_multiple_no_trailing_chunk 30 (seqZ 1 60))
    as (p & Hp & Hcnt & _ & _ & Htot & H60).
  - lia.
  - discriminate.
  - reflexivity.
  - exists p. split; [exact Hp|]. split.
    + apply H60; reflexivity.
    + rewrite Htot. apply H60; reflexivity.
Defined.

(** ** The extraction client *)

Section ExtractionFacts.
Variable svc : service.

Local Abbreviation attempt := (attempt svc).
Local Abbreviation retry_round := (retry_round svc).
Local Abbreviation first_accepted := (first_accepted svc).
Local Abbreviation before_retries := (before_retries svc).

Lemma attempt_shift (response : reply) (k : nat) (queryURL : string) (j : nat) :
  attempt (query_reply svc k queryURL) (S k) queryURL j
  = attempt response k queryURL (S j).
Proof.
  destruct j as [|j]; simpl; [by rewrite Nat.add_0_r|].
  by rewrite Nat.add_succ_r.
Qed.

(** The loop condition is the negation of [accepted] as long as the flag
    tells whether the reply in hand carries the sentinel. *)
Lemma loop_condition (response : reply) (flag : bool) :
  flag = negb (Py.bytes_in server_error_message (content response)) ->
  (negb (ok response) || negb flag)%bool = negb (accepted response).
Proof. intros ->. unfold accepted. by destruct (ok response), (Py.bytes_in _ _). Qed.

Lemma retry_loop_unfold (fuel : nat) (queryURL : string) (response : reply)
    (sleep_timer : Z) (w : world) :
  retry_loop svc fuel queryURL response sleep_timer w
  = if (negb (ok response) || negb (response_flag w))%bool then
      match fuel with
      | O => OutOfFuel
      | S fuel' =>
          retry_loop svc fuel' queryURL (query_reply svc (queries_sent w) queryURL)
            (sleep_timer * 2) (retry_round queryURL sleep_timer w)
      end
    else Returned response w.
Proof.
  destruct fuel as [|fuel]; simpl; unfold bind at 1; unfold gets at 1;
    destruct (negb (ok response) || negb (response_flag w))%bool; try reflexivity.
  unfold bind, time_sleep, session_get, gets, modify, ret, retry_round. simpl.
  by destruct (Py.bytes_in server_error_message
                 (content (query_reply svc (queries_sent w) queryURL))).
Qed.

(** The retry loop returns the first accepted reply, after one doubled delay
    and one request per rejected reply. *)
Lemma retry_loop_returns (queryURL : string) (n : nat) :
  forall (fuel : nat) (response : reply) (sleep_timer : Z) (w : world),
  (n <= fuel)%nat ->
  response_flag w = negb (Py.bytes_in server_error_message (content response)) ->
  (forall j, (j < n)%nat ->
     accepted (attempt response (queries_sent w) queryURL j) = false) ->
  accepted (attempt response (queries_sent w) queryURL n) = true ->
  retry_loop svc fuel queryURL response sleep_timer w
  = Returned (attempt response (queries_sent w) queryURL n)
      (World true (json_file_iterator w) (queries_sent w + n)
         (out_json_folder w) (intermediate_gdb w) (final_featureclass w)
         (log w ++ backoff_events queryURL sleep_timer n)).
Proof.
  induction n as [|n IH]; intros fuel response sleep_timer w Hfuel Hflag Hbad Hgood;
    rewrite retry_loop_unfold, (loop_condition _ _ Hflag).
  - simpl in Hgood. rewrite Hgood. simpl.
    rewrite Nat.add_0_r, app_nil_r. f_equal. destruct w; simpl in *. f_equal.
    unfold accepted in Hgood. rewrite Hflag.
    by destruct (Py.bytes_in _ _); [rewrite andb_false_r in Hgood|].
  - pose proof (Hbad 0%nat ltac:(lia)) as H0. simpl in H0. rewrite H0. simpl.
    destruct fuel as [|fuel]; [exfalso; lia|].
    rewrite (IH fuel); simpl.
    + rewrite (attempt_shift response). f_equal. f_equal; [lia|].
      by rewrite <- !app_assoc.
    + lia.
    + reflexivity.
    + intros j Hj. rewrite (attempt_shift response). apply Hbad. lia.
    + by rewrite (attempt_shift response).
Qed.

(** While every reply is rejected the loop goes on: no number of retries
    makes it give up. *)
Lemma retry_loop_goes_on (queryURL : string) :
  forall (fuel : nat) (response : reply) (sleep_timer : Z) (w : world),
  response_flag w = negb (Py.bytes_in server_error_message (content response)) ->
  (forall j, (j <= fuel)%nat ->
     accepted (attempt response (queries_sent w) queryURL j) = false) ->
  retry_loop svc fuel queryURL response sleep_timer w = OutOfFuel.
Proof.
  induction fuel as [|fuel IH]; intros response sleep_timer w Hflag Hbad;
    rewrite retry_loop_unfold, (loop_condition _ _ Hflag);
    pose proof (Hbad 0%nat ltac:(lia)) as H0; simpl in H0; rewrite H0; simpl;
    [done|].
  apply IH; simpl; [done|].
  intros j Hj. rewrite (attempt_shift response). apply Hbad. lia.
Qed.

Lemma attempt_first (k : nat) (queryURL : string) (j : nat) :
  attempt (query_reply svc k queryURL) (S k) queryURL j
  = query_reply svc (k + j) queryURL.
Proof.
  destruct j as [|j]; simpl; [by rewrite Nat.add_0_r|].
  by rewrite Nat.add_succ_r.
Qed.

Lemma QueryExtractionRequest_unfold (fuel : nat)
    (lo hi field url : string) (w : world) :
  QueryExtractionRequest svc fuel lo hi field url w
  = let queryURL := query_url lo hi field url in
    match retry_loop svc fuel queryURL (query_reply svc (queries_sent w) queryURL)
            30 (before_retries queryURL w) with
    | Returned response w' => Returned tt (persist response w')
    | Raised e w' => Raised e w'
    | OutOfFuel => OutOfFuel
    end.
Proof.
  unfold QueryExtractionRequest, before_retries, persist.
  unfold bind at 1. unfold session_get at 1.
  unfold time_sleep, bind, gets, modify, ret. cbn [chunk_reply healthy].
  cbn beta iota zeta.
  set (queryURL := query_url lo hi field url).
  set (r0 := query_reply svc (queries_sent w) queryURL).
  destruct (Py.bytes_in server_error_message (content r0)); cbn beta iota;
    match goal with
    | |- context [retry_loop _ fuel queryURL r0 30 ?w1] =>
        destruct (retry_loop svc fuel queryURL r0 30 w1)
    end; reflexivity.
Qed.

Lemma before_retries_sent (queryURL : string) (w : world) :
  queries_sent (before_retries queryURL w) = S (queries_sent w).
Proof. unfold before_retries. by destruct (Py.bytes_in _ _). Qed.

Lemma before_retries_flag (queryURL : string) (w : world) :
  response_flag w = true ->
  response_flag (before_retries queryURL w)
  = negb (Py.bytes_in server_error_message
            (content (query_reply svc (queries_sent w) queryURL))).
Proof.
  intros Hflag. unfold before_retries.
  destruct (Py.bytes_in _ _); simpl; [done | by rewrite Hflag].
Qed.

Lemma final_before_retries (queryURL : string) (w : world) :
  final_featureclass (before_retries queryURL w) = final_featureclass w.
Proof. unfold before_retries. by destruct (Py.bytes_in _ _). Qed.

(** A call that starts with the flag set and whose [n] first replies are
    rejected: one request, the standard pause, [n] rounds of backoff, and
    the accepted body written under the name of the current counter. *)
Lemma QueryExtractionRequest_returns (fuel n : nat)
    (lo hi field url : string) (w : world) :
  response_flag w = true ->
  first_accepted (queries_sent w) (query_url lo hi field url) n ->
  (n <= fuel)%nat ->
  let queryURL := query_url lo hi field url in
  let body := content (query_reply svc (queries_sent w + n) queryURL) in
  let name := json_file_name (json_file_iterator w) in
  QueryExtractionRequest svc fuel lo hi field url w
  = Returned tt
      (World true (json_file_iterator w) (S (queries_sent w + n))
         (<[name := body]> (out_json_folder w))
         (intermediate_gdb w) (final_featureclass w)
         (log w ++ Get queryURL :: Sleep query_request_standard_pause
            :: backoff_events queryURL 30 n ++ [WriteFile name body])).
Proof.
  intros Hflag [Hbad Hgood] Hfuel queryURL body name.
  rewrite QueryExtractionRequest_unfold. cbn zeta. fold queryURL.
  rewrite (retry_loop_returns queryURL n).
  - rewrite before_retries_sent, attempt_first. fold body.
    unfold persist, before_retries.
    destruct (Py.bytes_in _ _); simpl; fold name; f_equal;
      unfold set_out_json_folder, emit; simpl; f_equal;
      rewrite <- !app_assoc; reflexivity.
  - done.
  - by apply before_retries_flag.
  - intros j Hj. rewrite before_retries_sent, attempt_first. by apply Hbad.
  - by rewrite before_retries_sent, attempt_first.
Qed.

(** As long as the replies are rejected the call does not return. *)
Lemma QueryExtractionRequest_goes_on (fuel : nat)
    (lo hi field url : string) (w : world) :
  response_flag w = true ->
  (forall j, (j <= fuel)%nat ->
     accepted (query_reply svc (queries_sent w + j) (query_url lo hi field url))
     = false) ->
  QueryExtractionRequest svc fuel lo hi field url w = OutOfFuel.
Proof.
  intros Hflag Hbad. rewrite QueryExtractionRequest_unfold. cbn zeta.
  rewrite retry_loop_goes_on; [done| |].
  - by apply before_retries_flag.
  - intros j Hj. rewrite before_retries_sent, attempt_first. by apply Hbad.
Qed.

(** Among the first [fuel + 1] replies either one is the first accepted or
    all are rejected. *)
Lemma first_accepted_or_none (k : nat) (queryURL : string) (fuel : nat) :
  (exists n, (n <= fuel)%nat /\ first_accepted k queryURL n) \/
  (forall j, (j <= fuel)%nat -> accepted (query_reply svc (k + j) queryURL) = false).
Proof.
  induction fuel as [|fuel [(n & Hn & Hfirst)|Hnone]].
  - destruct (accepted (query_reply svc (k + 0) queryURL)) eqn:E.
    + left. exists 0%nat. split; [lia|]. split; [intros j Hj; lia | done].
    + right. intros j Hj. by replace j with 0%nat by lia.
  - left. exists n. split; [lia | done].
  - destruct (accepted (query_reply svc (k + S fuel) queryURL)) eqn:E.
    + left. exists (S fuel). split; [lia|]. split; [|done].
      intros j Hj. apply Hnone. lia.
    + right. intros j Hj. destruct (decide (j = S fuel)) as [->|Hne]; [done|].
      apply Hnone. lia.
Qed.

(** When an accepted reply comes within [fuel] retries, there is a first. *)
Lemma first_accepted_exists (k : nat) (queryURL : string) (fuel m : nat) :
  (m <= fuel)%nat -> accepted (query_reply svc (k + m) queryURL) = true ->
  exists n, (n <= fuel)%nat /\ first_accepted k queryURL n.
Proof.
  intros Hm Hacc.
  destruct (first_accepted_or_none k queryURL fuel) as [Hex|Hnone]; [done|].
  rewrite Hnone in Hacc by done. discriminate.
Qed.

(** Whatever the flag was on entry, the loop is left with the flag set and
    a reply that is [ok]. *)
Lemma retry_loop_exit (queryURL : string) :
  forall (fuel : nat) (response : reply) (sleep_timer : Z) (w : world)
         (response' : reply) (w' : world),
  retry_loop svc fuel queryURL response sleep_timer w = Returned response' w' ->
  response_flag w' = true /\ ok response' = true.
Proof.
  induction fuel as [|fuel IH]; intros response sleep_timer w response' w';
    rewrite retry_loop_unfold;
    destruct (ok response) eqn:Eok, (response_flag w) eqn:Ef; simpl;
    try discriminate; try (intros [= <- <-]; done); apply IH.
Qed.

(** The retry loop raises nothing. *)
Lemma retry_loop_no_raise (queryURL : string) :
  forall (fuel : nat) (response : reply) (sleep_timer : Z) (w : world)
         (e : exn) (w' : world),
  retry_loop svc fuel queryURL response sleep_timer w <> Raised e w'.
Proof.
  induction fuel as [|fuel IH]; intros response sleep_timer w e w';
    rewrite retry_loop_unfold;
    destruct (negb (ok response) || negb (response_flag w))%bool;
    try discriminate; apply IH.
Qed.

(** Every exit of [QueryExtractionRequest] leaves the flag set. *)
Lemma QueryExtractionRequest_exit_flag (fuel : nat)
    (lo hi field url : string) (w w' : world) :
  QueryExtractionRequest svc fuel lo hi field url w = Returned tt w' ->
  response_flag w' = true.
Proof.
  rewrite QueryExtractionRequest_unfold. cbn zeta.
  destruct (retry_loop _ _ _ _ _ _) as [response w1| |] eqn:Eloop;
    try discriminate.
  intros [= <-]. by apply retry_loop_exit in Eloop as [Hflag _].
Qed.

Lemma QueryExtractionRequest_no_raise (fuel : nat)
    (lo hi field url : string) (w : world) (e : exn) (w' : world) :
  QueryExtractionRequest svc fuel lo hi field url w <> Raised e w'.
Proof.
  rewrite QueryExtractionRequest_unfold. cbn zeta.
  destruct (retry_loop _ _ _ _ _ _) as [response w1|e1 w1|] eqn:Eloop;
    try discriminate.
  by apply retry_loop_no_raise in Eloop.
Qed.

(** A call that returns went through a first accepted reply. *)
Lemma QueryExtractionRequest_inv (fuel : nat)
    (lo hi field url : string) (w w' : world) :
  response_flag w = true ->
  QueryExtractionRequest svc fuel lo hi field url w = Returned tt w' ->
  exists n,
    (n <= fuel)%nat /\
    first_accepted (queries_sent w) (query_url lo hi field url) n /\
    let queryURL := query_url lo hi field url in
    let body := content (query_reply svc (queries_sent w + n) queryURL) in
    let name := json_file_name (json_file_iterator w) in
    w' = World true (json_file_iterator w) (S (queries_sent w + n))
           (<[name := body]> (out_json_folder w))
           (intermediate_gdb w) (final_featureclass w)
           (log w ++ Get queryURL :: Sleep query_request_standard_pause
              :: backoff_events queryURL 30 n ++ [WriteFile name body]).
Proof.
  intros Hflag Hret.
  destruct (first_accepted_or_none (queries_sent w) (query_url lo hi field url) fuel)
    as [(n & Hn & Hfirst)|Hnone].
  - exists n. split; [done|]. split; [done|]. cbn zeta.
    rewrite (QueryExtractionRequest_returns fuel n) in Hret by done.
    cbn zeta in Hret. by injection Hret as <-.
  - rewrite QueryExtractionRequest_goes_on in Hret by done. discriminate.
Qed.

Lemma flat_map_seq_S {A} (f : nat -> list A) (n : nat) : forall a : nat,
  flat_map f (seq (S a) n) = flat_map (fun j => f (S j)) (seq a n).
Proof. induction n as [|n IH]; intros a; simpl; [done|]. by rewrite IH. Qed.

Lemma map_seq_S {A} (f : nat -> A) (n : nat) : forall a : nat,
  map f (seq (S a) n) = map (fun j => f (S j)) (seq a n).
Proof. induction n as [|n IH]; intros a; simpl; [done|]. by rewrite IH. Qed.

Lemma pow2_succ (t : Z) (j : nat) :
  t * 2 * 2 ^ (Z.of_nat j + 1) = t * 2 ^ (Z.of_nat (S j) + 1).
Proof.
  rewrite Nat2Z.inj_succ, <- Z.add_1_l, <- Z.add_assoc.
  rewrite (Z.pow_add_r 2 1) by lia. lia.
Qed.

(** The delays of the backoff written out: the [j]-th retry sleeps
    [sleep_timer * 2 ^ (j + 1)], and every request is for the same URL. *)
Lemma backoff_events_explicit (queryURL : string) (n : nat) :
  forall sleep_timer : Z,
  backoff_events queryURL sleep_timer n
  = flat_map (fun j => [Sleep (sleep_timer * 2 ^ (Z.of_nat j + 1)); Get queryURL])
      (seq 0 n).
Proof.
  induction n as [|n IH]; intros sleep_timer; [done|].
  cbn [backoff_events seq flat_map app]. rewrite IH, flat_map_seq_S.
  replace (sleep_timer * 2 ^ (Z.of_nat 0 + 1)) with (sleep_timer * 2) by (simpl; lia).
  do 2 apply (f_equal2 cons eq_refl).
  apply flat_map_ext. intros j. by rewrite pow2_succ.
Qed.

Lemma sleeps_of_backoff (queryURL : string) (n : nat) :
  forall sleep_timer : Z,
  sleeps_of (backoff_events queryURL sleep_timer n)
  = map (fun j => sleep_timer * 2 ^ (Z.of_nat j + 1)) (seq 0 n).
Proof.
  induction n as [|n IH]; intros sleep_timer; [done|].
  cbn [backoff_events seq map].
  change (sleep_timer * 2 :: sleeps_of (backoff_events queryURL (sleep_timer * 2) n)
          = sleep_timer * 2 ^ (Z.of_nat 0 + 1)
            :: map (fun j => sleep_timer * 2 ^ (Z.of_nat j + 1)) (seq 1 n)).
  rewrite IH, map_seq_S.
  replace (sleep_timer * 2 ^ (Z.of_nat 0 + 1)) with (sleep_timer * 2) by (simpl; lia).
  apply (f_equal2 cons eq_refl).
  apply map_ext. intros j. by rewrite pow2_succ.
Qed.

End ExtractionFacts.

(** ** Reading the log of a call *)

Lemma gets_of_backoff (queryURL : string) (n : nat) : forall sleep_timer : Z,
  gets_of (backoff_events queryURL sleep_timer n) = repeat queryURL n.
Proof.
  induction n as [|n IH]; intros sleep_timer; [done|].
  cbn [backoff_events repeat].
  change (queryURL :: gets_of (backoff_events queryURL (sleep_timer * 2) n)
          = queryURL :: repeat queryURL n).
  by rewrite IH.
Qed.

(** No delay of the backoff equals the standard pause: they start at 60. *)
Lemma backoff_no_standard_pause (queryURL : string) (n : nat) :
  forall sleep_timer : Z,
  6 <= sleep_timer ->
  existsb is_standard_pause (backoff_events queryURL sleep_timer n) = false.
Proof.
  induction n as [|n IH]; intros sleep_timer Ht; [done|].
  cbn [backoff_events existsb is_standard_pause]. rewrite IH by lia.
  unfold query_request_standard_pause.
  destruct (Z.eqb_spec (sleep_timer * 2) 10); [exfalso; lia | done].
Qed.

(** The last round of a backoff ends with the request. *)
Lemma backoff_events_snoc (queryURL : string) (n : nat) (sleep_timer : Z) :
  backoff_events queryURL sleep_timer (S n)
  = backoff_events queryURL sleep_timer n
    ++ [Sleep (sleep_timer * 2 ^ (Z.of_nat n + 1)); Get queryURL].
Proof.
  rewrite !backoff_events_explicit, seq_S, flat_map_app. simpl.
  by rewrite ?app_nil_r.
Qed.

Lemma after_last_get_app (l tail : list event) (u : string) :
  existsb is_get tail = false ->
  after_last_get (l ++ Get u :: tail) = tail.
Proof.
  intros Htail. induction l as [|e l IH]; simpl.
  - by rewrite Htail.
  - rewrite existsb_app. simpl. by rewrite orb_true_r.
Qed.

Lemma gets_of_app (l1 l2 : list event) :
  gets_of (l1 ++ l2) = gets_of l1 ++ gets_of l2.
Proof. apply omap_app. Qed.

Lemma sleeps_of_app (l1 l2 : list event) :
  sleeps_of (l1 ++ l2) = sleeps_of l1 ++ sleeps_of l2.
Proof. apply omap_app. Qed.

Lemma writes_of_app (l1 l2 : list event) :
  writes_of (l1 ++ l2) = writes_of l1 ++ writes_of l2.
Proof. apply omap_app. Qed.

Lemma transfers_of_app (l1 l2 : list event) :
  transfers_of (l1 ++ l2) = transfers_of l1 ++ transfers_of l2.
Proof. apply omap_app. Qed.

(** The events of one call in three parts: first request and pause, the
    backoff rounds, the write. *)
Lemma call_events_split (queryURL name : string) (pause : Z)
    (rounds : list event) (body : Py.bytes) :
  Get queryURL :: Sleep pause :: rounds ++ [WriteFile name body]
  = [Get queryURL; Sleep pause] ++ rounds ++ [WriteFile name body].
Proof. reflexivity. Qed.

(** C4. A reply is rejected when it is a hard failure (requests reports it
    as not ok, which is a status from 400 to 599 and no other) or a soft
    failure (ok, but the body holds the sentinel).  When the first [n]
    replies of a call are rejected and the next is accepted, the client sends
    n + 1 requests, all for the one query URL built at the start of the call,
    and sleeps 60, 120, 240, ... (30 * 2^(j+1) before retry j) between them,
    each delay twice the one before, for every n: nothing caps the delay or
    the number of retries, and as long as [fuel] retries have all been
    rejected the call has not returned. *)
Theorem retries_same_query_with_doubling_backoff
    (svc : service) (fuel n : nat) (lo hi field url : string) (w : world) :
  response_flag w = true ->
  (forall j, (j < n)%nat ->
     ok (query_reply svc (queries_sent w + j) (query_url lo hi field url)) = false \/
     Py.bytes_in server_error_message
       (content (query_reply svc (queries_sent w + j) (query_url lo hi field url)))
     = true) ->
  ok (query_reply svc (queries_sent w + n) (query_url lo hi field url)) = true ->
  Py.bytes_in server_error_message
    (content (query_reply svc (queries_sent w + n) (query_url lo hi field url)))
  = false ->
  let queryURL := query_url lo hi field url in
  let body := content (query_reply svc (queries_sent w + n) queryURL) in
  let name := json_file_name (json_file_iterator w) in
  (forall r, ok r = false <-> 400 <= status_code r < 600) /\
  ((n <= fuel)%nat ->
   exists w' events,
     QueryExtractionRequest svc fuel lo hi field url w = Returned tt w' /\
     log w' = log w ++ events /\
     events = Get queryURL :: Sleep query_request_standard_pause
                :: flat_map (fun j => [Sleep (60 * 2 ^ Z.of_nat j); Get queryURL])
                     (seq 0 n)
                ++ [WriteFile name body] /\
     gets_of events = repeat queryURL (S n) /\
     sleeps_of events
     = query_request_standard_pause :: map (fun j => 60 * 2 ^ Z.of_nat j) (seq 0 n) /\
     queries_sent w' = S (queries_sent w + n) /\
     out_json_folder w' !! name = Some body) /\
  ((fuel < n)%nat ->
   QueryExtractionRequest svc fuel lo hi field url w = OutOfFuel).
Proof.
  intros Hflag Hbad Hok Hclean queryURL body name.
  assert (first_accepted svc (queries_sent w) queryURL n) as Hfirst.
  { unfold queryURL. split.
    - intros j Hj. unfold accepted.
      destruct (Hbad j Hj) as [-> | ->]; [done | by rewrite andb_false_r].
    - unfold accepted. by rewrite Hok, Hclean. }
  assert (
    flat_map (fun j => [Sleep (60 * 2 ^ Z.of_nat j); Get queryURL]) (seq 0 n)
    = backoff_events queryURL 30 n /\
    map (fun j => 60 * 2 ^ Z.of_nat j) (seq 0 n)
    = map (fun j => 30 * 2 ^ (Z.of_nat j + 1)) (seq 0 n)) as Hdelays.
  { rewrite backoff_events_explicit. split.
    - apply flat_map_ext. intros j. do 2 f_equal.
      rewrite Z.pow_add_r by lia. lia.
    - apply map_ext. intros j. rewrite Z.pow_add_r by lia. lia. }
  destruct Hdelays as [Hevents Hsleeps]. split; [|split].
  - intros r. unfold ok.
    rewrite negb_false_iff, andb_true_iff, Z.leb_le, Z.ltb_lt. done.
  - intros Hfuel. eexists. eexists. split; [by apply QueryExtractionRequest_returns|].
    cbn [log queries_sent out_json_folder]. fold queryURL body name.
    split; [reflexivity|]. rewrite Hevents. split; [reflexivity|].
    split; [|split; [|split; [done | apply lookup_insert_eq]]].
    + rewrite call_events_split, !gets_of_app, gets_of_backoff.
      change (queryURL :: repeat queryURL n ++ [] = repeat queryURL (S n)).
      by rewrite app_nil_r.
    + rewrite call_events_split, !sleeps_of_app, sleeps_of_backoff, Hsleeps.
      change (query_request_standard_pause
                :: map (fun j => 30 * 2 ^ (Z.of_nat j + 1)) (seq 0 n) ++ []
              = query_request_standard_pause
                :: map (fun j => 30 * 2 ^ (Z.of_nat j + 1)) (seq 0 n)).
      by rewrite app_nil_r.
  - intros Hfuel. apply QueryExtractionRequest_goes_on; [done|].
    intros j Hj. apply Hfirst. lia.
Qed.

Lemma retries_same_query_with_doubling_backoff_witness :
  exists w',
    QueryExtractionRequest flaky_service 5 "5" "9" "OBJECTID"
      (service_URL flaky_service) (initial_world ∅ None None) = Returned tt w' /\
    sleeps_of (log w') = [10; 60; 120] /\
    queries_sent w' = 3%nat.
Proof.
  destruct (retries_same_query_with_doubling_backoff flaky_service 5 2
              "5" "9" "OBJECTID" (service_URL flaky_service)
              (initial_world ∅ None None)) as (_ & Hret & _).
  - reflexivity.
  - intros j Hj. destruct j as [|[|j]];
      [right; reflexivity | left; reflexivity | exfalso; lia].
  - reflexivity.
  - reflexivity.
  - destruct (Hret ltac:(lia)) as (w' & events & Hrun & Hlog & _ & _ & Hsleeps & Hsent & _).
    exists w'. split; [exact Hrun|]. split; [|exact Hsent].
    rewrite Hlog. exact Hsleeps.
Defined.

Lemma writes_of_backoff (queryURL : string) (n : nat) : forall sleep_timer : Z,
  writes_of (backoff_events queryURL sleep_timer n) = [].
Proof.
  induction n as [|n IH]; intros sleep_timer; [done|].
  cbn [backoff_events].
  change (writes_of (backoff_events queryURL (sleep_timer * 2) n) = []).
  apply IH.
Qed.

Lemma existsb_is_get_backoff_write (name : string) (body : Py.bytes) :
  existsb is_get [WriteFile name body] = false.
Proof. reflexivity. Qed.

(** C2 (as the code has it). The client pauses for the standard interval
    once per call, right after the reply to the first request, whether or
    not that reply is accepted, and before any backoff; the [n] retries
    that follow sleep 60, 120, ... and none of them equals the standard
    pause.  So when at least one retry was needed nothing is slept between
    the final, accepted reply and the write; only a call whose first reply
    is accepted pauses after its final reply. *)
Theorem standard_pause_follows_first_reply
    (svc : service) (fuel n : nat) (lo hi field url : string) (w : world) :
  response_flag w = true ->
  first_accepted svc (queries_sent w) (query_url lo hi field url) n ->
  (n <= fuel)%nat ->
  let queryURL := query_url lo hi field url in
  exists w' rounds name body,
    QueryExtractionRequest svc fuel lo hi field url w = Returned tt w' /\
    log w' = log w ++ Get queryURL :: Sleep query_request_standard_pause
               :: rounds ++ [WriteFile name body] /\
    existsb is_standard_pause rounds = false /\
    gets_of rounds = repeat queryURL n /\
    sleeps_of rounds = map (fun j => 60 * 2 ^ Z.of_nat j) (seq 0 n) /\
    pauses_after_final_response (log w') = Nat.eqb n 0.
Proof.
  intros Hflag Hfirst Hfuel queryURL.
  eexists. exists (backoff_events queryURL 30 n). eexists. eexists.
  split; [by apply (QueryExtractionRequest_returns svc fuel n)|].
  cbn [log]. fold queryURL. split; [reflexivity|].
  split; [by apply backoff_no_standard_pause|].
  split; [apply gets_of_backoff|]. split.
  - rewrite sleeps_of_backoff. apply map_ext. intros j.
    rewrite Z.pow_add_r by lia. lia.
  - unfold pauses_after_final_response. destruct n as [|m].
    + cbn [backoff_events app]. by rewrite after_last_get_app.
    + rewrite backoff_events_snoc.
      match goal with
      | |- context [log w ++ Get queryURL :: Sleep ?p
                      :: (?b ++ [?s; Get queryURL]) ++ [?wr]] =>
          replace (log w ++ Get queryURL :: Sleep p :: (b ++ [s; Get queryURL]) ++ [wr])
            with ((log w ++ Get queryURL :: Sleep p :: b ++ [s]) ++ Get queryURL :: [wr])
            by (rewrite <- !app_assoc; simpl; rewrite <- !app_assoc; reflexivity)
      end.
      by rewrite after_last_get_app.
Qed.

Lemma standard_pause_follows_first_reply_witness :
  exists w',
    QueryExtractionRequest flaky_service 5 "5" "9" "OBJECTID"
      (service_URL flaky_service) (initial_world ∅ None None) = Returned tt w' /\
    sleeps_of (log w') = [10; 60; 120] /\
    length (gets_of (log w')) = 3%nat /\
    pauses_after_final_response (log w') = false.
Proof.
  destruct (standard_pause_follows_first_reply flaky_service 5 2
              "5" "9" "OBJECTID" (service_URL flaky_service)
              (initial_world ∅ None None))
    as (w' & rounds & name & body & Hrun & Hlog & _ & Hgets & Hsleeps & Hpause).
  - reflexivity.
  - split; [|reflexivity].
    intros j Hj. destruct j as [|[|j]]; [reflexivity | reflexivity | exfalso; lia].
  - lia.
  - exists w'. split; [exact Hrun|]. split; [|split; [|exact Hpause]].
    + rewrite Hlog. cbn [initial_world log app].
      rewrite call_events_split, !sleeps_of_app, Hsleeps. reflexivity.
    + rewrite Hlog. cbn [initial_world log app].
      rewrite call_events_split, !gets_of_app, Hgets. reflexivity.
Defined.

(** C2 as stated fails: with replies soft error, hard failure, success the
    standard pause is slept after the first, rejected reply; after the final,
    successful reply the client goes straight to the write. *)
Lemma standard_pause_after_final_success_counterexample :
  exists w',
    QueryExtractionRequest flaky_service 5 "5" "9" "OBJECTID"
      (service_URL flaky_service) (initial_world ∅ None None) = Returned tt w' /\
    sleeps_of (log w') = [10; 60; 120] /\
    after_last_get (log w') = [WriteFile "000000.json" (content success)] /\
    pauses_after_final_response (log w') = false.
Proof.
  eexists. split; [vm_compute; reflexivity|].
  split; [|split]; vm_compute; reflexivity.
Qed.

(** ** Soft failures *)

Lemma startswith_spec (prefix s : Py.bytes) :
  Py.startswith prefix s = true <-> exists q, s = prefix ++ q.
Proof.
  revert s. induction prefix as [|a prefix IH]; intros s; simpl.
  - split; [intros _; by exists s | done].
  - destruct s as [|b s].
    + split; [done | intros [q Hq]; discriminate].
    + rewrite andb_true_iff, IH. split.
      * intros [Hab [q ->]]. apply Byte.byte_dec_bl in Hab as ->. by exists q.
      * intros [q [= -> ->]]. split; [by apply Byte.byte_dec_lb | by exists q].
Qed.

(** [in] on bytes is containment at any offset. *)
Lemma bytes_in_spec (needle hay : Py.bytes) :
  Py.bytes_in needle hay = true <-> exists p q, hay = p ++ needle ++ q.
Proof.
  induction hay as [|b hay IH]; simpl; rewrite orb_true_iff, startswith_spec.
  - split.
    + intros [[q Hq]|Hf]; [by exists [], q | done].
    + intros (p & q & Hpq). left. destruct p; [by exists q | discriminate].
  - rewrite IH. split.
    + intros [[q Hq]|(p & q & ->)]; [by exists [], q | by exists (b :: p), q].
    + intros (p & q & Hpq). destruct p as [|b' p].
      * left. by exists q.
      * right. injection Hpq as -> ->. by exists p, q.
Qed.

(** C9. The soft-failure test is containment of the sentinel bytes anywhere
    in the body.  A reply with a success status whose body holds the sentinel
    somewhere is rejected, so the call needs a retry ([n] is not 0, and
    without a retry the call does not return).  When the [n]-th reply after
    it is the first accepted one, the call returns after n retries of the
    same query: it has written one body, the accepted one, which does not
    hold the sentinel and is not the rejected one, and the rejected body is
    stored nowhere.  No call that starts with the flag set ever writes a body
    that holds the sentinel.  The well-formed payload [nested_payload], which
    merely holds the sentinel bytes as part of its data, is rejected in the
    same way. *)
Theorem soft_failure_is_containment
    (svc : service) (fuel n : nat) (lo hi field url : string) (w : world)
    (before after : Py.bytes) :
  response_flag w = true ->
  ok (query_reply svc (queries_sent w) (query_url lo hi field url)) = true ->
  content (query_reply svc (queries_sent w) (query_url lo hi field url))
  = before ++ server_error_message ++ after ->
  (forall j, (0 < j < n)%nat ->
     accepted (query_reply svc (queries_sent w + j) (query_url lo hi field url))
     = false) ->
  accepted (query_reply svc (queries_sent w + n) (query_url lo hi field url))
  = true ->
  (n <= fuel)%nat ->
  let queryURL := query_url lo hi field url in
  let first := query_reply svc (queries_sent w) queryURL in
  let final := query_reply svc (queries_sent w + n) queryURL in
  let name := json_file_name (json_file_iterator w) in
  (forall body,
     Py.bytes_in server_error_message body = true <->
     exists p q, body = p ++ server_error_message ++ q) /\
  accepted first = false /\
  (0 < n)%nat /\
  QueryExtractionRequest svc 0 lo hi field url w = OutOfFuel /\
  (exists w',
     QueryExtractionRequest svc fuel lo hi field url w = Returned tt w' /\
     log w'
     = log w ++ Get queryURL :: Sleep query_request_standard_pause
         :: backoff_events queryURL 30 n ++ [WriteFile name (content final)] /\
     gets_of (log w') = gets_of (log w) ++ repeat queryURL (S n) /\
     queries_sent w' = S (queries_sent w + n) /\
     writes_of (log w') = writes_of (log w) ++ [(name, content final)] /\
     out_json_folder w' = <[name := content final]> (out_json_folder w) /\
     Py.bytes_in server_error_message (content final) = false /\
     content final <> content first) /\
  (forall w0 w0',
     response_flag w0 = true ->
     QueryExtractionRequest svc fuel lo hi field url w0 = Returned tt w0' ->
     exists name0 body,
       writes_of (log w0') = writes_of (log w0) ++ [(name0, body)] /\
       Py.bytes_in server_error_message body = false) /\
  (nested_payload <> server_error_message /\
   ok (Reply 200 nested_payload) = true /\
   accepted (Reply 200 nested_payload) = false).
Proof.
  intros Hflag Hok Hbody Hbad Hgood Hfuel queryURL first final name.
  assert (Py.bytes_in server_error_message (content first) = true) as Hin
    by (apply bytes_in_spec; by exists before, after).
  assert (accepted first = false) as Hrej
    by (unfold accepted; by rewrite Hin, andb_false_r).
  assert (0 < n)%nat as Hn.
  { destruct n as [|n]; [|lia]. rewrite Nat.add_0_r in Hgood.
    fold queryURL first in Hgood. congruence. }
  assert (first_accepted svc (queries_sent w) queryURL n) as Hfirst.
  { split; [|done]. intros j Hj. destruct j as [|j].
    - by rewrite Nat.add_0_r.
    - apply Hbad. lia. }
  assert (Py.bytes_in server_error_message (content final) = false) as Hclean.
  { unfold accepted in Hgood. apply andb_true_iff in Hgood as [_ Hclean].
    by apply negb_true_iff in Hclean. }
  split; [intros body; apply bytes_in_spec|]. split; [done|]. split; [done|].
  split; [|split; [|split]].
  - apply QueryExtractionRequest_goes_on; [done|].
    intros j Hj. replace j with 0%nat by lia. by rewrite Nat.add_0_r.
  - eexists. split; [by apply QueryExtractionRequest_returns|].
    cbn [log queries_sent out_json_folder]. fold queryURL final name.
    split; [reflexivity|]. split; [|split; [done|split; [|split; [done|split]]]].
    + rewrite call_events_split, !gets_of_app, gets_of_backoff.
      change (gets_of (log w) ++ queryURL :: repeat queryURL n ++ []
              = gets_of (log w) ++ repeat queryURL (S n)).
      by rewrite app_nil_r.
    + rewrite call_events_split, !writes_of_app, writes_of_backoff. reflexivity.
    + done.
    + intros Heq. rewrite Heq in Hclean. congruence.
  - intros w0 w0' Hflag0 Hret.
    apply QueryExtractionRequest_inv in Hret as (m & Hm & [_ Hacc] & ->); [|done].
    cbn [log]. eexists. eexists. split.
    + rewrite call_events_split, !writes_of_app, writes_of_backoff. reflexivity.
    + unfold accepted in Hacc. apply andb_true_iff in Hacc as [_ Hacc].
      by apply negb_true_iff in Hacc.
  - split; [|split]; [discriminate | reflexivity | vm_compute; reflexivity].
Qed.

Lemma soft_failure_is_containment_witness :
  accepted (Reply 200 nested_payload) = false /\
  exists w',
    QueryExtractionRequest nesting_service 5 "5" "9" "OBJECTID"
      (service_URL nesting_service) (initial_world ∅ None None) = Returned tt w' /\
    sleeps_of (log w') = [10; 60] /\
    queries_sent w' = 2%nat /\
    out_json_folder w' = <["000000.json" := content success]> ∅.
Proof.
  destruct (soft_failure_is_containment nesting_service 5 1 "5" "9" "OBJECTID"
              (service_URL nesting_service) (initial_world ∅ None None)
              (list_byte_of_string
                 ("{" +:+ dq +:+ "features" +:+ dq +:+ ":[]," +:+ dq
                  +:+ "lastError" +:+ dq +:+ ":"))
              (list_byte_of_string "}"))
    as (_ & Hrej & _ & _ & (w' & Hrun & Hlog & _ & Hsent & _ & Hfolder & _) & _).
  - reflexivity.
  - reflexivity.
  - reflexivity.
  - intros j Hj. exfalso. lia.
  - vm_compute. reflexivity.
  - lia.
  - split; [exact Hrej|]. exists w'. split; [exact Hrun|].
    split; [rewrite Hlog; reflexivity|]. split; [exact Hsent | exact Hfolder].
Defined.

(** ** The extraction loop and the flag *)

Lemma extraction_loop_cons (svc : service) (fuel : nat) (g : list Z)
    (gs : list (list Z)) (field : string) (w : world) :
  extraction_loop svc fuel (g :: gs) field w
  = match head g, last g with
    | Some lo, Some hi =>
        match QueryExtractionRequest svc fuel (Py.str lo) (Py.str hi) field
                (service_URL svc)
                (set_json_file_iterator (json_file_iterator w + Planner.len g) w) with
        | Returned _ w' => extraction_loop svc fuel gs field w'
        | Raised e w' => Raised e w'
        | OutOfFuel => OutOfFuel
        end
    | _, _ => Raised IndexError w
    end.
Proof.
  unfold extraction_loop. cbn [for_each]. unfold bind at 1.
  destruct (head g) as [lo|], (last g) as [hi|]; try reflexivity;
    unfold bind, gets, modify; cbn beta iota;
    by destruct (QueryExtractionRequest _ _ _ _ _ _ _) as [[] w'| |].
Qed.

(** The loop keeps the flag set from one call to the next. *)
Lemma extraction_loop_flag (svc : service) (fuel : nat) (field : string)
    (gs : list (list Z)) : forall w w' : world,
  response_flag w = true ->
  extraction_loop svc fuel gs field w = Returned tt w' ->
  response_flag w' = true.
Proof.
  induction gs as [|g gs IH]; intros w w' Hflag.
  - unfold extraction_loop. cbn [for_each]. unfold ret. by intros [= <-].
  - rewrite extraction_loop_cons.
    destruct (head g) as [lo|], (last g) as [hi|]; try discriminate.
    destruct (QueryExtractionRequest _ _ _ _ _ _ _) as [[] w1| |] eqn:Ecall;
      try discriminate.
    apply IH. by apply QueryExtractionRequest_exit_flag in Ecall.
Qed.

(** C10. [response_flag] is set when the script starts, every call of
    [QueryExtractionRequest] that returns leaves it set, whatever it was on
    entry, and so it is set on entry of every call of the extraction loop.
    Hence a call's first reply is classified on its own content alone: the
    call stops after one request exactly when that reply is [ok] and free of
    the sentinel. *)
Theorem response_flag_invariant
    (svc : service) (fuel : nat) (field : string) (gs : list (list Z))
    (lo hi url : string) (z : Z) (w w1 w2 : world) :
  response_flag w = true ->
  extraction_loop svc fuel gs field w = Returned tt w1 ->
  QueryExtractionRequest svc fuel lo hi field url (set_json_file_iterator z w1)
  = Returned tt w2 ->
  response_flag w1 = true /\
  response_flag (set_json_file_iterator z w1) = true /\
  response_flag w2 = true /\
  (queries_sent w2 = S (queries_sent w1) <->
   accepted (query_reply svc (queries_sent w1) (query_url lo hi field url)) = true) /\
  (forall w0 w0',
     QueryExtractionRequest svc fuel lo hi field url w0 = Returned tt w0' ->
     response_flag w0' = true) /\
  (forall folder gdb final, response_flag (initial_world folder gdb final) = true).
Proof.
  intros Hflag Hloop Hcall.
  assert (response_flag w1 = true) as Hflag1
    by (by eapply extraction_loop_flag).
  split; [done|]. split; [done|].
  split; [by eapply QueryExtractionRequest_exit_flag|].
  split; [|split; [intros w0 w0'; apply QueryExtractionRequest_exit_flag | done]].
  apply QueryExtractionRequest_inv in Hcall as (n & Hn & [Hbad Hgood] & ->); [|done].
  cbn [queries_sent set_json_file_iterator] in *. split.
  - intros Hsent. assert (n = 0)%nat as -> by lia.
    by rewrite Nat.add_0_r in Hgood.
  - intros Hacc. destruct n as [|n]; [by rewrite Nat.add_0_r|].
    specialize (Hbad 0%nat ltac:(lia)). rewrite Nat.add_0_r in Hbad. congruence.
Qed.

Lemma response_flag_invariant_witness :
  exists w1 w2,
    extraction_loop flaky_service 5 [[5; 8; 9]] "OBJECTID" (initial_world ∅ None None)
    = Returned tt w1 /\
    QueryExtractionRequest flaky_service 5 "12" "41" "OBJECTID"
      (service_URL flaky_service) (set_json_file_iterator 6 w1) = Returned tt w2 /\
    response_flag w1 = true /\ response_flag w2 = true /\
    queries_sent w2 = S (queries_sent w1).
Proof.
  set (w := initial_world ∅ None None).
  set (w1 := match extraction_loop flaky_service 5 [[5; 8; 9]] "OBJECTID" w with
             | Returned _ w' => w'
             | _ => w
             end).
  set (w2 := match QueryExtractionRequest flaky_service 5 "12" "41" "OBJECTID"
                     (service_URL flaky_service) (set_json_file_iterator 6 w1) with
             | Returned _ w' => w'
             | _ => w
             end).
  assert (extraction_loop flaky_service 5 [[5; 8; 9]] "OBJECTID" w = Returned tt w1)
    as H1 by (vm_compute; reflexivity).
  assert (QueryExtractionRequest flaky_service 5 "12" "41" "OBJECTID"
            (service_URL flaky_service) (set_json_file_iterator 6 w1) = Returned tt w2)
    as H2 by (vm_compute; reflexivity).
  destruct (response_flag_invariant flaky_service 5 "OBJECTID" [[5; 8; 9]]
              "12" "41" (service_URL flaky_service) 6 w w1 w2)
    as (Hf1 & _ & Hf2 & Hone & _); [reflexivity | exact H1 | exact H2 |].
  exists w1, w2. split; [exact H1|]. split; [exact H2|].
  split; [exact Hf1|]. split; [exact Hf2|].
  apply Hone. vm_compute. reflexivity.
Defined.

(** ** What touches the destination *)

Section KeepsFinal.

Lemma keeps_final_ret {A} (a : A) : keeps_final (ret a).
Proof. intros w w' [= <-]. reflexivity. Qed.

Lemma keeps_final_raise {A} (e : exn) : keeps_final (raise (A := A) e).
Proof. intros w w' [= <-]. reflexivity. Qed.

Lemma keeps_final_gets {A} (f : world -> A) : keeps_final (gets f).
Proof. intros w w' [= <-]. reflexivity. Qed.

Lemma keeps_final_modify (f : world -> world) :
  (forall w, final_featureclass (f w) = final_featureclass w) ->
  keeps_final (modify f).
Proof. intros Hf w w' [= <-]. apply Hf. Qed.

Lemma keeps_final_bind {A B} (m : M A) (k : A -> M B) :
  keeps_final m -> (forall a, keeps_final (k a)) -> keeps_final (bind m k).
Proof.
  intros Hm Hk w w'. unfold bind.
  destruct (m w) as [a w1|e w1|] eqn:Em; simpl.
  - intros Hw. rewrite (Hk a w1 w' Hw). apply Hm. by rewrite Em.
  - intros [= <-]. apply Hm. by rewrite Em.
  - discriminate.
Qed.

Lemma keeps_final_for_each {A} (l : list A) (body : A -> M unit) :
  (forall x, keeps_final (body x)) -> keeps_final (for_each l body).
Proof.
  intros Hbody. induction l as [|x l IH]; simpl.
  - apply keeps_final_ret.
  - apply keeps_final_bind; [apply Hbody | intros _; apply IH].
Qed.

Lemma keeps_final_response_json {A} (url : string) (response : fetched A) :
  keeps_final (response_json url response).
Proof.
  unfold response_json.
  apply keeps_final_bind; [by apply keeps_final_modify|]. intros _.
  destruct response; [apply keeps_final_raise.. | apply keeps_final_ret].
Qed.

Lemma keeps_final_subscript {A} (entry : option A) : keeps_final (subscript entry).
Proof. destruct entry; [apply keeps_final_ret | apply keeps_final_raise]. Qed.

Lemma keeps_final_sorted (ids : option (list Z)) : keeps_final (sorted ids).
Proof. destruct ids; [apply keeps_final_ret | apply keeps_final_raise]. Qed.

Variable svc : endpoint.
Variable JSONToFeatures : Py.bytes -> string -> option feature_class.
Variable os_listdir : gmap string Py.bytes -> list string.

Lemma keeps_final_session_get (queryURL : string) :
  keeps_final (session_get svc queryURL).
Proof.
  unfold session_get.
  apply keeps_final_bind; [apply keeps_final_gets|]. intros k.
  apply keeps_final_bind; [by apply keeps_final_modify|]. intros _.
  apply keeps_final_bind; [by apply keeps_final_modify|]. intros _.
  destruct (chunk_reply svc k queryURL); [apply keeps_final_ret | apply keeps_final_raise].
Qed.

Lemma keeps_final_retry_loop (queryURL : string) :
  forall (fuel : nat) (response : reply) (sleep_timer : Z),
  keeps_final (retry_loop svc fuel queryURL response sleep_timer).
Proof.
  induction fuel as [|fuel IH]; intros response sleep_timer; cbn [retry_loop];
    (apply keeps_final_bind; [apply keeps_final_gets|]; intros flag;
     destruct (negb (ok response) || negb flag)%bool; [|apply keeps_final_ret]).
  - intros w w'. discriminate.
  - apply keeps_final_bind; [by apply keeps_final_modify|]. intros _.
    apply keeps_final_bind; [apply keeps_final_session_get|]. intros r.
    apply keeps_final_bind; [|intros _; apply IH].
    destruct (Py.bytes_in _ _); by apply keeps_final_modify.
Qed.

Lemma keeps_final_QueryExtractionRequest (fuel : nat) (lo hi field url : string) :
  keeps_final (QueryExtractionRequest svc fuel lo hi field url).
Proof.
  unfold QueryExtractionRequest. cbn zeta.
  apply keeps_final_bind; [apply keeps_final_session_get|]. intros response.
  apply keeps_final_bind.
  { destruct (Py.bytes_in _ _); [by apply keeps_final_modify | apply keeps_final_ret]. }
  intros _. apply keeps_final_bind; [by apply keeps_final_modify|]. intros _.
  apply keeps_final_bind; [apply keeps_final_retry_loop|]. intros r.
  apply keeps_final_bind; [apply keeps_final_gets|]. intros iterator.
  apply keeps_final_bind; [by apply keeps_final_modify|]. intros _.
  apply keeps_final_bind; [apply keeps_final_gets|]. intros folder.
  by apply keeps_final_modify.
Qed.

Lemma keeps_final_CleanUpJSONsFolder : keeps_final (CleanUpJSONsFolder os_listdir).
Proof.
  unfold CleanUpJSONsFolder.
  apply keeps_final_bind; [apply keeps_final_gets|]. intros folder.
  apply keeps_final_for_each. intros file.
  apply keeps_final_bind; [apply keeps_final_gets|]. intros d.
  by apply keeps_final_modify.
Qed.

Lemma keeps_final_extraction_loop (fuel : nat) (gs : list (list Z)) (field : string) :
  keeps_final (extraction_loop svc fuel gs field).
Proof.
  unfold extraction_loop. apply keeps_final_for_each. intros g.
  destruct (head g), (last g); try apply keeps_final_raise.
  apply keeps_final_bind; [apply keeps_final_gets|]. intros iterator.
  apply keeps_final_bind; [by apply keeps_final_modify|]. intros _.
  apply keeps_final_QueryExtractionRequest.
Qed.

Lemma keeps_final_extract_all (page_size : Z) (fuel : nat) :
  keeps_final (extract_all svc os_listdir page_size fuel).
Proof.
  unfold extract_all.
  apply keeps_final_bind; [apply keeps_final_CleanUpJSONsFolder|]. intros _.
  apply keeps_final_bind.
  { unfold ServiceGetRecordExtract.
    apply keeps_final_bind; [apply keeps_final_response_json|]. intros response.
    apply keeps_final_bind; [apply keeps_final_subscript|]. intros m.
    apply keeps_final_ret. }
  intros _. apply keeps_final_bind.
  { unfold ServiceGetObjectIDs.
    apply keeps_final_bind; [apply keeps_final_response_json|]. intros response.
    apply keeps_final_bind; [apply keeps_final_subscript|]. intros field.
    apply keeps_final_bind; [apply keeps_final_subscript|]. intros ids.
    apply keeps_final_bind; [apply keeps_final_sorted|]. intros manifest.
    apply keeps_final_ret. }
  intros [field manifest].
  destruct (Planner.IterableChunk page_size manifest) as [e|p];
    [apply keeps_final_raise | apply keeps_final_extraction_loop].
Qed.

Lemma keeps_final_transfer (file : string) :
  keeps_final (transfer JSONToFeatures file).
Proof.
  unfold transfer.
  apply keeps_final_bind; [by apply keeps_final_modify|]. intros _.
  unfold JSONToFeatures_conversion.
  apply keeps_final_bind; [apply keeps_final_gets|]. intros folder.
  apply keeps_final_bind; [apply keeps_final_gets|]. intros gdb.
  destruct (folder !! file) as [body|], gdb as [fcs|]; try apply keeps_final_raise.
  destruct (JSONToFeatures body "POLYGON"); [|apply keeps_final_raise].
  by apply keeps_final_modify.
Qed.

(** The conversion stage never touches the destination. *)
Lemma keeps_final_ConvertJSONstoFeatureClasses :
  keeps_final (ConvertJSONstoFeatureClasses JSONToFeatures os_listdir).
Proof.
  unfold ConvertJSONstoFeatureClasses.
  apply keeps_final_bind; [apply keeps_final_gets|]. intros gdb.
  apply keeps_final_bind.
  { destruct (bool_decide _); [by apply keeps_final_modify | apply keeps_final_ret]. }
  intros _. apply keeps_final_bind; [by apply keeps_final_modify|]. intros _.
  apply keeps_final_bind.
  { unfold ListFeatureClasses.
    apply keeps_final_bind; [apply keeps_final_gets|]. intros g.
    apply keeps_final_ret. }
  intros list_fc. apply keeps_final_bind.
  { apply keeps_final_for_each. intros fc.
    apply keeps_final_bind; [apply keeps_final_gets|]. intros g.
    by apply keeps_final_modify. }
  intros _. apply keeps_final_bind; [apply keeps_final_gets|]. intros folder.
  apply keeps_final_for_each. intros file. apply keeps_final_transfer.
Qed.

End KeepsFinal.

(** ** The conversion stage *)

Section MergeFacts.
Variable JSONToFeatures : Py.bytes -> string -> option feature_class.
Variable os_listdir : gmap string Py.bytes -> list string.

Lemma transfer_unfold (file : string) (w : world) :
  transfer JSONToFeatures file w
  = let w1 := emit (Transferring file) w in
    match out_json_folder w !! file, intermediate_gdb w with
    | Some body, Some fcs =>
        match JSONToFeatures body "POLYGON" with
        | Some fc =>
            let out_features := "chunk_" +:+ Py.split_dot_head file in
            let others :=
              filter (fun p => negb (String.eqb (fst p) out_features)) fcs in
            Returned tt (set_intermediate_gdb (Some (others ++ [(out_features, fc)])) w1)
        | None => Raised ExecuteError w1
        end
    | _, _ => Raised ExecuteError w1
    end.
Proof.
  unfold transfer, JSONToFeatures_conversion, bind, gets, modify, raise.
  cbn [out_json_folder intermediate_gdb emit].
  destruct (out_json_folder w !! file) as [body|], (intermediate_gdb w) as [fcs|];
    try reflexivity.
  by destruct (JSONToFeatures body "POLYGON").
Qed.

Lemma ConvertJSONstoFeatureClasses_unfold (w : world) :
  ConvertJSONstoFeatureClasses JSONToFeatures os_listdir w
  = for_each (os_listdir (out_json_folder w)) (transfer JSONToFeatures)
      (set_intermediate_gdb (Some []) w).
Proof.
  unfold ConvertJSONstoFeatureClasses, ListFeatureClasses, bind, gets, modify, ret.
  by destruct (bool_decide (is_Some (intermediate_gdb w))).
Qed.

(** A staged payload that does not convert stops the loop with the error of
    the tool. *)
Lemma transfer_loop_raises (l : list string) : forall (w : world) (file : string)
    (body : Py.bytes),
  is_Some (intermediate_gdb w) ->
  file ∈ l ->
  out_json_folder w !! file = Some body ->
  JSONToFeatures body "POLYGON" = None ->
  exists w', for_each l (transfer JSONToFeatures) w = Raised ExecuteError w'.
Proof.
  induction l as [|x l IH]; intros w file body [fcs Hgdb] Hin Hbody Hfail.
  - by apply elem_of_nil in Hin.
  - cbn [for_each]. unfold bind. rewrite transfer_unfold, Hgdb. cbn zeta.
    destruct (out_json_folder w !! x) as [b|] eqn:Ex; [|by eexists].
    destruct (JSONToFeatures b "POLYGON") as [fc|] eqn:Eb; [|by eexists].
    apply (IH _ file body); [by eexists | | done | done].
    apply elem_of_cons in Hin as [->|Hin]; [congruence | done].
Qed.

(** When every listed file converts, the loop hands the files to the
    converter one by one in the order of the list. *)
Lemma transfer_loop_returns (l : list string) : forall w : world,
  is_Some (intermediate_gdb w) ->
  (forall file, file ∈ l ->
     exists body, out_json_folder w !! file = Some body /\
                  is_Some (JSONToFeatures body "POLYGON")) ->
  exists w',
    for_each l (transfer JSONToFeatures) w = Returned tt w' /\
    log w' = log w ++ map Transferring l /\
    out_json_folder w' = out_json_folder w.
Proof.
  induction l as [|x l IH]; intros w [fcs Hgdb] Hall.
  - exists w. by rewrite app_nil_r.
  - cbn [for_each]. unfold bind. rewrite transfer_unfold, Hgdb. cbn zeta.
    destruct (Hall x ltac:(left)) as (b & -> & [fc ->]).
    edestruct IH as (w' & Hrun & Hlog & Hfolder); [| |exists w'; split; [exact Hrun|]].
    + by eexists.
    + intros file Hfile. apply Hall. by right.
    + split; [|done]. rewrite Hlog. cbn [log set_intermediate_gdb emit map].
      by rewrite <- app_assoc.
Qed.

Lemma transfers_of_Transferring (l : list string) :
  transfers_of (map Transferring l) = l.
Proof.
  induction l as [|x l IH]; [done|].
  change (x :: transfers_of (map Transferring l) = x :: l). by rewrite IH.
Qed.

End MergeFacts.

(** C3. When a staged payload that the merge stage comes to convert fails to
    convert, the run ends with the error of the conversion tool and the
    destination feature class is what it was before the run: the delete,
    create and append of the destination come only after every listed
    payload has converted. *)
Theorem conversion_failure_leaves_destination
    (svc : service) (JSONToFeatures : Py.bytes -> string -> option feature_class)
    (os_listdir : gmap string Py.bytes -> list string)
    (page_size : Z) (fuel : nat) (w w1 : world) (file : string) (body : Py.bytes) :
  extract_all svc os_listdir page_size fuel w = Returned tt w1 ->
  file ∈ os_listdir (out_json_folder w1) ->
  out_json_folder w1 !! file = Some body ->
  JSONToFeatures body "POLYGON" = None ->
  exists w',
    script svc JSONToFeatures os_listdir page_size fuel w = Raised ExecuteError w' /\
    ConvertJSONstoFeatureClasses JSONToFeatures os_listdir w1 = Raised ExecuteError w' /\
    final_featureclass w' = final_featureclass w.
Proof.
  intros Hextract Hin Hbody Hfail.
  destruct (transfer_loop_raises JSONToFeatures (os_listdir (out_json_folder w1))
              (set_intermediate_gdb (Some []) w1) file body) as [w' Hloop]; try done.
  exists w'. rewrite <- ConvertJSONstoFeatureClasses_unfold in Hloop.
  split; [|split; [done|]].
  - unfold script, bind. by rewrite Hextract, Hloop.
  - transitivity (final_featureclass w1).
    + eapply keeps_final_ConvertJSONstoFeatureClasses. by rewrite Hloop.
    + eapply keeps_final_extract_all. by rewrite Hextract.
Qed.

Lemma conversion_failure_leaves_destination_witness :
  exists w',
    script steady_service failing_converter listdir_forward 3 5
      (initial_world ∅ None (Some old_destination)) = Raised ExecuteError w' /\
    final_featureclass w' = Some old_destination.
Proof.
  set (w := initial_world ∅ None (Some old_destination)).
  set (w1 := match extract_all steady_service listdir_forward 3 5 w with
             | Returned _ w' => w'
             | _ => w
             end).
  destruct (conversion_failure_leaves_destination steady_service failing_converter
              listdir_forward 3 5 w w1 "000003.json" (content success))
    as (w' & Hrun & _ & Hfinal).
  - vm_compute. reflexivity.
  - vm_compute. left.
  - vm_compute. reflexivity.
  - reflexivity.
  - exists w'. split; [exact Hrun | exact Hfinal].
Defined.

(** C6 (as the code has it). The merge stage converts the staged payloads in
    the order in which [os.listdir] enumerates the staging folder, each staged
    payload once, and sorts nothing: the sequence of files it hands to the
    converter is the directory listing itself. *)
Theorem merge_converts_in_listing_order
    (JSONToFeatures : Py.bytes -> string -> option feature_class)
    (os_listdir : gmap string Py.bytes -> list string) (w : world) :
  lists_folder os_listdir ->
  (forall file body,
     out_json_folder w !! file = Some body ->
     is_Some (JSONToFeatures body "POLYGON")) ->
  exists w',
    ConvertJSONstoFeatureClasses JSONToFeatures os_listdir w = Returned tt w' /\
    transfers_of (log w') = transfers_of (log w) ++ os_listdir (out_json_folder w) /\
    os_listdir (out_json_folder w) ≡ₚ (map_to_list (out_json_folder w)).*1 /\
    out_json_folder w' = out_json_folder w.
Proof.
  intros Hls Hconv. rewrite ConvertJSONstoFeatureClasses_unfold.
  destruct (transfer_loop_returns JSONToFeatures (os_listdir (out_json_folder w))
              (set_intermediate_gdb (Some []) w)) as (w' & Hrun & Hlog & Hfolder).
  - by eexists.
  - intros file Hfile. cbn [out_json_folder set_intermediate_gdb].
    rewrite (Hls (out_json_folder w)) in Hfile.
    apply list_elem_of_fmap in Hfile as ([f body] & -> & Hfb).
    apply elem_of_map_to_list in Hfb. exists body. split; [done|]. by eapply Hconv.
  - exists w'. split; [done|]. split; [|split; [apply Hls | done]].
    rewrite Hlog, transfers_of_app, transfers_of_Transferring. reflexivity.
Qed.

Lemma merge_converts_in_listing_order_witness :
  exists w',
    ConvertJSONstoFeatureClasses lenient_converter listdir_backward staged_world
    = Returned tt w' /\
    transfers_of (log w') = ["000006.json"; "000003.json"].
Proof.
  destruct (merge_converts_in_listing_order lenient_converter listdir_backward
              staged_world) as (w' & Hrun & Hseq & _).
  - intros d. unfold listdir_backward. apply reverse_Permutation.
  - intros file body _. by eexists.
  - exists w'. split; [exact Hrun|]. rewrite Hseq. vm_compute. reflexivity.
Defined.

(** C6 as stated fails: with a directory listing in descending order the
    payload of the second chunk is converted before that of the first. *)
Lemma merge_order_counterexample :
  lists_folder listdir_backward /\
  exists w',
    ConvertJSONstoFeatureClasses lenient_converter listdir_backward staged_world
    = Returned tt w' /\
    transfers_of (log w') = ["000006.json"; "000003.json"] /\
    ~ Sorted Py.str_lt (transfers_of (log w')).
Proof.
  split; [intros d; unfold listdir_backward; apply reverse_Permutation|].
  eexists. split; [vm_compute; reflexivity|].
  split; [vm_compute; reflexivity|].
  intros Hsorted. vm_compute in Hsorted.
  apply Sorted_inv in Hsorted as [_ Hhd]. apply HdRel_inv in Hhd.
  vm_compute in Hhd. discriminate.
Qed.

(** ** A layer without records *)

(** The planner on the empty manifest: no chunk and no error, for every
    page size but zero. *)
Lemma IterableChunk_empty (page_size : Z) :
  page_size <> 0 ->
  Planner.IterableChunk page_size [] = inr (Planner.Plan 0 []).
Proof.
  intros Hne. destruct (Z_lt_le_dec page_size 1) as [Hneg|Hpos].
  - unfold Planner.IterableChunk.
    destruct (Z.eqb_spec page_size 0) as [E|_]; [done|].
    replace (Z.to_nat page_size) with 0%nat by lia. reflexivity.
  - rewrite IterableChunk_strides by done.
    change (Planner.len (@nil Z)) with 0.
    rewrite Z.div_small by lia. reflexivity.
Qed.

(** With nothing converted, the replacement deletes the destination and then
    fails on [list_fc[0]]. *)
Lemma replace_with_nothing (w : world) :
  intermediate_gdb w = Some [] ->
  ReplaceFinalFeatureClassWithIntermediateFeatureClasses w
  = Raised IndexError
      (if bool_decide (is_Some (final_featureclass w))
       then set_final_featureclass None w else w).
Proof.
  intros Hgdb.
  unfold ReplaceFinalFeatureClassWithIntermediateFeatureClasses, ListFeatureClasses,
    bind, gets, modify, ret, raise.
  destruct (bool_decide (is_Some (final_featureclass w)));
    cbn [intermediate_gdb set_final_featureclass]; by rewrite Hgdb.
Qed.

(** A run on a layer without records, from an empty staging folder: the
    planner yields no chunk, the extraction and the conversion succeed on
    nothing, and the replacement deletes the old destination before it
    raises. *)
Lemma empty_manifest_run
    (svc : service) (JSONToFeatures : Py.bytes -> string -> option feature_class)
    (os_listdir : gmap string Py.bytes -> list string)
    (page_size : Z) (fuel : nat)
    (gdb : option (list (string * feature_class))) (old : feature_class) :
  objectIds svc = [] ->
  page_size <> 0 ->
  os_listdir ∅ = [] ->
  exists w',
    script svc JSONToFeatures os_listdir page_size fuel (initial_world ∅ gdb (Some old))
    = Raised IndexError w' /\
    final_featureclass w' = None.
Proof.
  intros Hids Hpage Hls.
  assert (exists l,
    extract_all svc os_listdir page_size fuel (initial_world ∅ gdb (Some old))
    = Returned tt (World true 0 0 ∅ gdb (Some old) l)) as [l Hextract].
  { unfold extract_all, CleanUpJSONsFolder, ServiceGetRecordExtract,
      ServiceGetObjectIDs, response_json, subscript, sorted, bind, gets, modify, ret.
    cbn [out_json_folder initial_world healthy layer_reply ids_reply endpoint_URL
         fst snd].
    rewrite Hls, Hids. cbn [for_each].
    unfold ret. change (merge_sort Z.le []) with (@nil Z).
    rewrite IterableChunk_empty by done. by eexists. }
  eexists. split.
  - unfold script. unfold bind at 1. rewrite Hextract.
    unfold bind. rewrite ConvertJSONstoFeatureClasses_unfold.
    cbn [out_json_folder]. rewrite Hls. cbn [for_each]. unfold ret.
    rewrite replace_with_nothing by done. reflexivity.
  - reflexivity.
Qed.

(** C7 (what the code does). On a layer without records the planner yields
    zero chunks without error, but the run does not complete: after the
    destination feature class has been deleted, the merge stage raises
    [IndexError], and the old destination is gone. *)
Theorem empty_manifest_destroys_destination :
  Planner.IterableChunk record_extraction_hardcode (objectIds empty_service)
  = inr (Planner.Plan 0 []) /\
  exists w',
    main empty_service lenient_converter listdir_forward 5
      (initial_world ∅ None (Some old_destination)) = Raised IndexError w' /\
    final_featureclass w' = None.
Proof.
  split; [by apply IterableChunk_empty|].
  by apply empty_manifest_run.
Qed.

(** ** Decimal names *)

Section DecimalNames.

Lemma pow10_succ (d : nat) : 10 ^ Z.of_nat (S d) = 10 * 10 ^ Z.of_nat d.
Proof. rewrite Nat2Z.inj_succ, Z.pow_succ_r by lia. reflexivity. Qed.

Lemma pow10_pos (d : nat) : 0 < 10 ^ Z.of_nat d.
Proof. apply Z.pow_pos_nonneg; lia. Qed.

(** [digits] writes the digits of [n] and no more, given fuel for them. *)
Lemma digits_fixed_width : forall (fuel : nat) (n : Z) (acc : string),
  0 <= n -> n < 2 ^ (Z.of_nat fuel + 1) ->
  exists d : nat,
    (1 <= d)%nat /\ n < 10 ^ Z.of_nat d /\
    (d = 1%nat \/ 10 ^ Z.of_nat (d - 1) <= n) /\
    Py.digits fuel n acc = Py.fixed_width d n acc.
Proof.
  induction fuel as [|fuel IH]; intros n acc Hn Hlt.
  - exists 1%nat. simpl in Hlt. repeat split; [lia | simpl; lia | by left].
  - cbn [Py.digits].
    pose proof (Z.div_mod n 10 ltac:(lia)) as Hdm.
    pose proof (Z.mod_pos_bound n 10 ltac:(lia)) as Hmod.
    destruct (Z.eqb_spec (n / 10) 0) as [E|E].
    + exists 1%nat. repeat split; [lia | simpl; lia | by left].
    + assert (0 < n / 10) as Hq by (pose proof (Z.div_pos n 10); lia).
      destruct (IH (n / 10) (String (Py.digit_char (n mod 10)) acc))
        as (d & Hd & Hub & Hlb & Hdigits); [lia| |].
      { apply Z.div_lt_upper_bound; [lia|].
        replace (Z.of_nat (S fuel) + 1) with (Z.succ (Z.of_nat fuel + 1)) in Hlt by lia.
        rewrite Z.pow_succ_r in Hlt by lia.
        pose proof (Z.pow_pos_nonneg 2 (Z.of_nat fuel + 1)). lia. }
      exists (S d). split; [lia|]. split; [rewrite pow10_succ; lia|]. split.
      * right. replace (S d - 1)%nat with d by lia.
        destruct Hlb as [-> | Hlb]; [simpl; lia|].
        replace d with (S (d - 1)) at 1 by lia. rewrite pow10_succ. lia.
      * exact Hdigits.
Qed.

Lemma append_String (s : string) (c : ascii) (t : string) :
  s +:+ String c t = (s +:+ String c EmptyString) +:+ t.
Proof.
  induction s as [|a s IH]; [done|].
  change (String a (s +:+ String c t) = String a ((s +:+ String c EmptyString) +:+ t)).
  by rewrite IH.
Qed.

Lemma fixed_width_acc (width : nat) : forall (n : Z) (acc : string),
  Py.fixed_width width n acc = Py.fixed_width width n EmptyString +:+ acc.
Proof.
  induction width as [|width IH]; intros n acc; simpl; [done|].
  rewrite IH, (IH _ (String _ EmptyString)). apply append_String.
Qed.

Lemma zeros_snoc (k : nat) (t : string) :
  Py.zeros k +:+ String "0" t = String "0" (Py.zeros k +:+ t).
Proof.
  induction k as [|k IH]; [done|].
  change (String "0" (Py.zeros k +:+ String "0" t)
          = String "0" (String "0" (Py.zeros k +:+ t))).
  by rewrite IH.
Qed.

Lemma fixed_width_zero (k : nat) : forall acc : string,
  Py.fixed_width k 0 acc = Py.zeros k +:+ acc.
Proof.
  induction k as [|k IH]; intros acc; simpl; [done|].
  change (0 / 10) with 0. change (Py.digit_char (0 mod 10)) with "0"%char.
  by rewrite IH, zeros_snoc.
Qed.

(** Widening the field pads with zeros on the left. *)
Lemma fixed_width_pad (d k : nat) : forall (n : Z) (acc : string),
  0 <= n < 10 ^ Z.of_nat d ->
  Py.fixed_width (d + k) n acc = Py.zeros k +:+ Py.fixed_width d n acc.
Proof.
  induction d as [|d IH]; intros n acc Hn.
  - simpl in Hn. replace n with 0 by lia. apply fixed_width_zero.
  - cbn [Nat.add Py.fixed_width]. apply IH.
    rewrite pow10_succ in Hn. split; [apply Z.div_pos; lia|].
    apply Z.div_lt_upper_bound; lia.
Qed.

Lemma fixed_width_length (width : nat) : forall (n : Z) (acc : string),
  String.length (Py.fixed_width width n acc) = (width + String.length acc)%nat.
Proof.
  induction width as [|width IH]; intros n acc; simpl; [done|].
  rewrite IH. simpl. lia.
Qed.

Lemma digit_char_not_sign (v : Z) : 0 <= v < 10 ->
  (Ascii.eqb (Py.digit_char v) "+" || Ascii.eqb (Py.digit_char v) "-")%bool = false.
Proof.
  intros Hv.
  assert (v = 0 \/ v = 1 \/ v = 2 \/ v = 3 \/ v = 4 \/ v = 5 \/ v = 6 \/ v = 7
          \/ v = 8 \/ v = 9) as Hcases by lia.
  repeat (destruct Hcases as [-> | Hcases]; [reflexivity|]). by subst v.
Qed.

Lemma fixed_width_head (d : nat) : forall (n : Z) (acc : string),
  (1 <= d)%nat ->
  exists v rest, 0 <= v < 10 /\ Py.fixed_width d n acc = String (Py.digit_char v) rest.
Proof.
  induction d as [|d IH]; intros n acc Hd; [exfalso; lia|].
  destruct d as [|d].
  - exists (n mod 10), acc. split; [apply Z.mod_pos_bound; lia | done].
  - cbn [Py.fixed_width]. apply (IH (n / 10)). lia.
Qed.

(** [str(n).zfill(width)] of a number that fits is its fixed-width form. *)
Lemma zfill_str (width : nat) (n : Z) :
  (1 <= width)%nat -> 0 <= n < 10 ^ Z.of_nat width ->
  Py.zfill width (Py.str n) = Py.fixed_width width n EmptyString.
Proof.
  intros Hw [Hn Hlt]. unfold Py.str.
  destruct (Z.ltb_spec n 0) as [Hneg|_]; [exfalso; lia|].
  destruct (digits_fixed_width (Z.to_nat (Z.log2 n)) n EmptyString Hn)
    as (d & Hd & Hub & Hlb & ->).
  { rewrite Z2Nat.id by apply Z.log2_nonneg.
    destruct (Z.eq_dec n 0) as [->|Hne]; [done|].
    replace (Z.log2 n + 1) with (Z.succ (Z.log2 n)) by lia.
    apply Z.log2_spec. lia. }
  assert (d <= width)%nat as Hdw.
  { destruct Hlb as [-> | Hlb]; [done|].
    assert (10 ^ Z.of_nat (d - 1) < 10 ^ Z.of_nat width) as Hpow by lia.
    apply Z.pow_lt_mono_r_iff in Hpow; lia. }
  destruct (fixed_width_head d n EmptyString Hd) as (v & rest & Hv & Ehead).
  unfold Py.zfill. rewrite fixed_width_length. simpl String.length.
  rewrite Ehead, digit_char_not_sign by done. rewrite <- Ehead.
  replace (width - (d + 0))%nat with (width - d)%nat by lia.
  rewrite <- fixed_width_pad by lia. f_equal. lia.
Qed.

Lemma ascii_compare_refl (c : ascii) : Ascii.compare c c = Eq.
Proof. apply N.compare_refl. Qed.

Lemma digit_char_lt (x y : Z) : 0 <= x -> x < y -> y < 10 ->
  Ascii.compare (Py.digit_char x) (Py.digit_char y) = Lt.
Proof.
  intros Hx Hxy Hy. unfold Py.digit_char, Ascii.compare.
  rewrite !N_ascii_embedding by lia. apply N.compare_lt_iff. lia.
Qed.

(** The same digits in front: the order is that of what follows. *)
Lemma compare_fixed_width_same (width : nat) : forall (n : Z) (acc1 acc2 : string),
  String.compare (Py.fixed_width width n acc1) (Py.fixed_width width n acc2)
  = String.compare acc1 acc2.
Proof.
  induction width as [|width IH]; intros n acc1 acc2; simpl; [done|].
  rewrite IH. simpl. by rewrite ascii_compare_refl.
Qed.

(** Numbers of the same width compare as their fixed-width forms do. *)
Lemma compare_fixed_width_lt (width : nat) : forall (a b : Z) (acc1 acc2 : string),
  0 <= a -> a < b -> b < 10 ^ Z.of_nat width ->
  String.compare (Py.fixed_width width a acc1) (Py.fixed_width width b acc2) = Lt.
Proof.
  induction width as [|width IH]; intros a b acc1 acc2 Ha Hab Hb.
  - simpl in Hb. exfalso. lia.
  - cbn [Py.fixed_width]. rewrite pow10_succ in Hb.
    pose proof (Z.div_mod a 10 ltac:(lia)) as Hda.
    pose proof (Z.div_mod b 10 ltac:(lia)) as Hdb.
    pose proof (Z.mod_pos_bound a 10 ltac:(lia)) as Hma.
    pose proof (Z.mod_pos_bound b 10 ltac:(lia)) as Hmb.
    destruct (Z.eq_dec (a / 10) (b / 10)) as [E|E].
    + rewrite E, compare_fixed_width_same. simpl.
      rewrite digit_char_lt; [done | lia | lia | lia].
    + apply IH; [apply Z.div_pos; lia | lia |].
      apply Z.div_lt_upper_bound; lia.
Qed.

(** Below a million records the file name is the six-digit form of the
    counter. *)
Lemma json_file_name_fixed_width (iterator : Z) :
  0 <= iterator < 1000000 ->
  json_file_name iterator = Py.fixed_width 6 iterator ".json".
Proof.
  intros Hi. unfold json_file_name.
  rewrite zfill_str by (simpl; lia). by rewrite <- fixed_width_acc.
Qed.

Lemma json_file_name_lt (a b : Z) :
  0 <= a -> a < b -> b < 1000000 ->
  Py.str_lt (json_file_name a) (json_file_name b).
Proof.
  intros Ha Hab Hb. unfold Py.str_lt.
  rewrite !json_file_name_fixed_width by lia.
  apply compare_fixed_width_lt; [done | done | simpl; lia].
Qed.

Lemma str_lt_irrefl (s : string) : ~ Py.str_lt s s.
Proof.
  unfold Py.str_lt. induction s as [|c s IH]; simpl; [done|].
  by rewrite ascii_compare_refl.
Qed.

End DecimalNames.

(** ** The names of the staged payloads *)

Lemma len_app {A} (l1 l2 : list A) :
  Planner.len (l1 ++ l2) = Planner.len l1 + Planner.len l2.
Proof. unfold Planner.len. rewrite length_app. lia. Qed.

Lemma len_nonempty {A} (l : list A) : l <> [] -> 1 <= Planner.len l.
Proof. unfold Planner.len. destruct l; [done | simpl; lia]. Qed.

(** The counter grows with every chunk and ends at the number of
    identifiers. *)
Lemma cumulative_bounds (gs : list (list Z)) : forall (c x : Z),
  Forall (fun g => g <> []) gs ->
  x ∈ cumulative c gs ->
  c < x <= c + Planner.len (concat gs).
Proof.
  induction gs as [|g gs IH]; intros c x Hne Hx; [by apply elem_of_nil in Hx|].
  apply Forall_cons in Hne as [Hg Hne]. apply len_nonempty in Hg.
  cbn [cumulative concat] in *. rewrite len_app.
  pose proof (Zle_0_nat (length (concat gs))) as Hpos. fold (Planner.len (concat gs)) in Hpos.
  apply elem_of_cons in Hx as [-> | Hx]; [lia|].
  specialize (IH _ _ Hne Hx). lia.
Qed.

Lemma cumulative_names_sorted (gs : list (list Z)) : forall c : Z,
  0 <= c ->
  Forall (fun g => g <> []) gs ->
  c + Planner.len (concat gs) < 1000000 ->
  StronglySorted Py.str_lt (json_file_name <$> cumulative c gs).
Proof.
  induction gs as [|g gs IH]; intros c Hc Hne Hlt; [constructor|].
  pose proof (Forall_inv Hne) as Hg. apply len_nonempty in Hg.
  pose proof (Forall_inv_tail Hne) as Hne'.
  cbn [cumulative concat fmap list_fmap] in *. rewrite len_app in Hlt.
  constructor.
  - apply IH; [lia | done | lia].
  - apply Forall_forall. intros name Hname.
    apply list_elem_of_fmap in Hname as (x & -> & Hx).
    pose proof (cumulative_bounds _ _ _ Hne' Hx).
    apply json_file_name_lt; lia.
Qed.

Lemma cumulative_length (gs : list (list Z)) : forall c : Z,
  length (cumulative c gs) = length gs.
Proof. induction gs as [|g gs IH]; intros c; simpl; [done|]. by rewrite IH. Qed.

Lemma strongly_sorted_NoDup (l : list string) :
  StronglySorted Py.str_lt l -> NoDup l.
Proof.
  induction 1 as [|x l Hs IH Hall]; constructor; [|done].
  intros Hx. rewrite Forall_forall in Hall. by apply (str_lt_irrefl x), Hall.
Qed.

Lemma write_all_other (files : list (string * Py.bytes)) :
  forall (folder : gmap string Py.bytes) (name : string),
  name ∉ files.*1 -> write_all folder files !! name = folder !! name.
Proof.
  induction files as [|[f b] files IH]; intros folder name Hname; [done|].
  cbn [write_all foldl fmap list_fmap fst] in *. apply not_elem_of_cons in Hname as [Hne Hname].
  change (write_all (<[f := b]> folder) files !! name = folder !! name).
  rewrite IH by done. by rewrite lookup_insert_ne.
Qed.

(** With distinct names every file written is there at the end. *)
Lemma write_all_lookup (files : list (string * Py.bytes)) :
  forall (folder : gmap string Py.bytes) (name : string) (body : Py.bytes),
  NoDup files.*1 -> (name, body) ∈ files ->
  write_all folder files !! name = Some body.
Proof.
  induction files as [|[f b] files IH]; intros folder name body Hnd Hin;
    [by apply elem_of_nil in Hin|].
  cbn [fmap list_fmap fst] in Hnd. apply NoDup_cons in Hnd as [Hf Hnd].
  change (write_all (<[f := b]> folder) files !! name = Some body).
  apply elem_of_cons in Hin as [[= -> ->] | Hin].
  - rewrite write_all_other by done. apply lookup_insert_eq.
  - by apply IH.
Qed.

(** The extraction loop on a service that answers in the end: it returns,
    and writes one accepted body per chunk under the name of the counter. *)
Lemma extraction_loop_returns (svc : service) (fuel : nat) (field : string) :
  eventually_accepts svc fuel ->
  forall (gs : list (list Z)) (w : world),
  response_flag w = true ->
  Forall (fun g => g <> []) gs ->
  exists w' bodies,
    extraction_loop svc fuel gs field w = Returned tt w' /\
    response_flag w' = true /\
    json_file_iterator w' = json_file_iterator w + Planner.len (concat gs) /\
    length bodies = length gs /\
    Forall (fun b => Py.bytes_in server_error_message b = false) bodies /\
    writes_of (log w')
    = writes_of (log w)
      ++ zip (json_file_name <$> cumulative (json_file_iterator w) gs) bodies /\
    out_json_folder w'
    = write_all (out_json_folder w)
        (zip (json_file_name <$> cumulative (json_file_iterator w) gs) bodies) /\
    Forall2 (answers svc field) gs bodies.
Proof.
  intros Hsvc. induction gs as [|g gs IH]; intros w Hflag Hne.
  - exists w, []. unfold extraction_loop. cbn [for_each]. unfold ret.
    change (Planner.len (concat [])) with 0.
    rewrite Z.add_0_r, app_nil_r. by repeat split.
  - apply Forall_cons in Hne as [Hg Hne].
    rewrite extraction_loop_cons.
    destruct g as [|x g]; [done|].
    destruct (last (x :: g)) as [hi|] eqn:Elast; [|by apply last_None in Elast].
    cbn [head].
    set (w0 := set_json_file_iterator (json_file_iterator w + Planner.len (x :: g)) w).
    set (queryURL := query_url (Py.str x) (Py.str hi) field (service_URL svc)).
    destruct (Hsvc (queries_sent w0) queryURL) as (m & Hm & Hacc).
    destruct (first_accepted_exists svc _ _ _ _ Hm Hacc) as (n & Hn & Hfirst).
    rewrite (QueryExtractionRequest_returns svc fuel n) by done.
    cbn zeta. fold queryURL.
    set (body := content (query_reply svc (queries_sent w0 + n) queryURL)).
    set (name := json_file_name (json_file_iterator w0)).
    match goal with
    | |- context [extraction_loop _ fuel gs field ?w1] =>
        destruct (IH w1 eq_refl Hne)
          as (w' & bodies & Hrun & Hflag' & Hiter & Hlen & Hclean & Hwrites & Hfolder
              & Hans)
    end.
    cbn [json_file_iterator log out_json_folder] in Hiter, Hwrites, Hfolder.
    exists w', (body :: bodies). split; [done|]. split; [done|].
    cbn [cumulative concat fmap list_fmap zip zip_with length].
    fold name. rewrite len_app.
    change (json_file_iterator w0)
      with (json_file_iterator w + Planner.len (x :: g)) in *.
    split; [lia|]. split; [by rewrite Hlen|]. split; [|split; [|split]].
    + constructor; [|done].
      destruct Hfirst as [_ Hgood]. unfold accepted in Hgood.
      apply andb_true_iff in Hgood as [_ Hgood]. by apply negb_true_iff in Hgood.
    + rewrite Hwrites, call_events_split, !writes_of_app, writes_of_backoff.
      change (writes_of [Get queryURL; Sleep query_request_standard_pause]) with
        (@nil (string * Py.bytes)).
      change (writes_of [WriteFile name body]) with [(name, body)].
      rewrite <- !app_assoc. reflexivity.
    + rewrite Hfolder. reflexivity.
    + constructor; [|done].
      exists x, hi, (queries_sent w0 + n)%nat.
      split; [done|]. split; [done|]. split; [apply Hfirst | done].
Qed.




(** * Further properties of the script *)

(** ** The planner at its edges *)

(** X1. A page size of zero makes [IterableChunk] raise [ZeroDivisionError]
    whatever the manifest; a negative page size raises nothing and yields no
    chunk at all, so that every identifier of the manifest is left out, and
    the number of iterations it reports is not positive. *)
Theorem nonpositive_page_size (page_size : Z) (manifest : list Z) :
  page_size <= 0 ->
  (page_size = 0 ->
   Planner.IterableChunk page_size manifest = inl ZeroDivisionError) /\
  (page_size < 0 ->
   exists total,
     Planner.IterableChunk page_size manifest = inr (Planner.Plan total []) /\
     total <= 0 /\
     total = Planner.len manifest / page_size).
Proof.
  intros Hle. split.
  - intros ->. reflexivity.
  - intros Hneg. unfold Planner.IterableChunk.
    destruct (Z.eqb_spec page_size 0) as [E|_]; [exfalso; lia|].
    replace (Z.to_nat page_size) with 0%nat by lia.
    cbn [repeat Planner.chunks_of Planner.zip_longest length Nat.eqb fmap option_fmap
         option_map map].
    pose proof (Z.mod_neg_bound (Planner.len manifest) page_size Hneg) as Hmod.
    destruct (Z.gtb_spec (Planner.len manifest mod page_size) 0) as [Hpos|_];
      [exfalso; lia|].
    eexists. split; [reflexivity|]. rewrite Z.add_0_r. split; [|done].
    assert (0 <= Planner.len manifest) as Hlen by (unfold Planner.len; lia).
    pose proof (Z.div_mod (Planner.len manifest) page_size ltac:(lia)) as Hdm.
    nia.
Qed.

Lemma nonpositive_page_size_witness :
  Planner.IterableChunk (-2) [5; 8; 9] = inr (Planner.Plan (-2) []).
Proof.
  destruct (nonpositive_page_size (-2) [5; 8; 9]) as [_ Hneg]; [lia|].
  destruct (Hneg ltac:(lia)) as (total & Hrun & _ & Htotal).
  rewrite Hrun, Htotal. reflexivity.
Defined.

Lemma strides_nil (fuel n : nat) : Planner.strides fuel n [] = [].
Proof. by destruct fuel. Qed.

Lemma strides_cons (fuel n : nat) (x : Z) (l : list Z) :
  Planner.strides (S fuel) n (x :: l)
  = take n (x :: l) :: Planner.strides fuel n (drop n (x :: l)).
Proof. reflexivity. Qed.

Lemma strides_nonempty (fuel n : nat) (l : list Z) :
  Planner.strides fuel n l <> [] -> l <> [].
Proof. intros H ->. by rewrite strides_nil in H. Qed.

(** Every stride but the last is a full page. *)
Lemma strides_full_but_last (n : nat) : (1 <= n)%nat ->
  forall (fuel : nat) (l : list Z) (i : nat) (g : list Z),
  Planner.strides fuel n l !! i = Some g ->
  (S i < length (Planner.strides fuel n l))%nat ->
  length g = n.
Proof.
  intros Hn. induction fuel as [|fuel IH]; intros l i g Hg Hi; [done|].
  destruct l as [|x l]; [done|]. rewrite strides_cons in Hg, Hi.
  destruct i as [|i].
  - injection Hg as <-. rewrite length_take.
    assert (drop n (x :: l) <> []) as Hrest.
    { apply (strides_nonempty fuel n). intros E. rewrite E in Hi. simpl in Hi. lia. }
    assert (n < length (x :: l))%nat; [|lia].
    destruct (le_lt_dec (length (x :: l)) n) as [Hle|Hlt]; [|done].
    by rewrite drop_ge in Hrest.
  - apply (IH (drop n (x :: l)) i); [done|]. simpl in Hi. lia.
Qed.

(** The last stride holds what the full pages leave over, or a full page. *)
Lemma strides_last (n : nat) : (1 <= n)%nat ->
  forall (fuel : nat) (l : list Z) (g : list Z),
  (length l <= fuel)%nat ->
  last (Planner.strides fuel n l) = Some g ->
  Planner.len g
  = if Planner.len l mod Z.of_nat n =? 0 then Z.of_nat n
    else Planner.len l mod Z.of_nat n.
Proof.
  intros Hn. unfold Planner.len.
  induction fuel as [|fuel IH]; intros l g Hfuel Hg; [done|].
  destruct l as [|x l]; [done|]. rewrite strides_cons in Hg.
  remember (x :: l) as xl eqn:Exl.
  assert (1 <= length xl)%nat as Hpos by (subst xl; simpl; lia).
  destruct (le_lt_dec (length xl) n) as [Hle|Hlt].
  - rewrite drop_ge, strides_nil in Hg by done. injection Hg as <-.
    rewrite take_ge by done.
    destruct (decide (length xl = n)) as [E|E].
    + rewrite E, Z.mod_same by lia. reflexivity.
    + rewrite Z.mod_small by lia.
      destruct (Z.eqb_spec (Z.of_nat (length xl)) 0); [exfalso; lia | done].
  - assert (Planner.strides fuel n (drop n xl) <> []) as Hrest.
    { destruct fuel as [|fuel']; [exfalso; lia|].
      destruct (drop n xl) as [|y r] eqn:Ed; [|done].
      apply (f_equal length) in Ed. rewrite length_drop in Ed. simpl in Ed. lia. }
    destruct (Planner.strides fuel n (drop n xl)) as [|g1 gs] eqn:Es; [done|].
    rewrite last_cons_cons in Hg. rewrite <- Es in Hg.
    rewrite (IH (drop n xl) g); [| rewrite length_drop; lia | done].
    rewrite length_drop.
    replace (Z.of_nat (length xl - n))
      with (Z.of_nat (length xl) + (-1) * Z.of_nat n) by lia.
    by rewrite Z.mod_add by lia.
Qed.

(** X2. For a page size of at least 1 every chunk but the last holds exactly
    a page of identifiers, and the last chunk holds the remainder of the
    manifest's length by the page size, or a full page when that remainder is
    zero: the requests are as few as the page size allows. *)
Theorem chunks_full_but_last (page_size : Z) (manifest : list Z) :
  1 <= page_size ->
  exists p,
    Planner.IterableChunk page_size manifest = inr p /\
    (forall i g,
       Planner.groups p !! i = Some g ->
       (S i < length (Planner.groups p))%nat ->
       Planner.len g = page_size) /\
    (forall g,
       last (Planner.groups p) = Some g ->
       Planner.len g
       = if Planner.len manifest mod page_size =? 0 then page_size
         else Planner.len manifest mod page_size).
Proof.
  intros Hn. rewrite IterableChunk_strides by done.
  eexists. split; [reflexivity|]. cbn [Planner.groups]. split.
  - intros i g Hg Hi. unfold Planner.len.
    rewrite (strides_full_but_last (Z.to_nat page_size) ltac:(lia) _ _ _ _ Hg Hi).
    lia.
  - intros g Hg.
    rewrite (strides_last (Z.to_nat page_size) ltac:(lia)
               (S (length manifest)) manifest g ltac:(lia) Hg).
    by rewrite Z2Nat.id by lia.
Qed.

Lemma chunks_full_but_last_witness :
  exists p,
    Planner.IterableChunk 4 [5; 8; 9; 12; 40; 41] = inr p /\
    Planner.len <$> Planner.groups p = [4; 2].
Proof.
  destruct (chunks_full_but_last 4 [5; 8; 9; 12; 40; 41]) as (p & Hp & _ & _); [lia|].
  exists p. split; [exact Hp|].
  vm_compute in Hp. injection Hp as <-. reflexivity.
Defined.

(** ** The resolver *)

Lemma sorted_le_NoDup_lt (l : list Z) :
  StronglySorted Z.le l -> NoDup l -> StronglySorted Z.lt l.
Proof.
  induction 1 as [|x l Hs IH Hall]; intros Hnd; [constructor|].
  apply NoDup_cons in Hnd as [Hx Hnd]. constructor; [by apply IH|].
  rewrite Forall_forall in Hall |- *. intros y Hy.
  specialize (Hall y Hy). assert (x <> y) by (intros ->; done). lia.
Qed.

(** X3. [ServiceGetObjectIDs] sends one request and changes nothing else; the
    manifest it returns is the identifier list of the server put in ascending
    order, whatever order the server sent it in: the same identifiers, each as
    often.  When the server's identifiers are distinct the manifest is
    strictly increasing, which is what the planner's partition rests on. *)
Theorem manifest_is_sorted_identifiers (svc : service) (ServiceURL : string)
    (w : world) :
  exists manifest,
    ServiceGetObjectIDs svc ServiceURL w
    = Returned (objectIdFieldName svc, manifest)
        (emit (Get (ServiceURL +:+ "/query?where=1%3D1&returnIdsOnly=true&f=json")) w) /\
    manifest ≡ₚ objectIds svc /\
    StronglySorted Z.le manifest /\
    (NoDup (objectIds svc) -> StronglySorted Z.lt manifest).
Proof.
  exists (merge_sort Z.le (objectIds svc)). split; [reflexivity|].
  split; [apply merge_sort_Permutation|].
  split; [apply StronglySorted_merge_sort; apply _|].
  intros Hnd. apply sorted_le_NoDup_lt.
  - apply StronglySorted_merge_sort; apply _.
  - by rewrite merge_sort_Permutation.
Qed.

(** ** The staging folder *)

Section Staging.
Variable os_listdir : gmap string Py.bytes -> list string.

Lemma remove_all_lookup (files : list string) :
  forall (folder : gmap string Py.bytes) (name : string),
  remove_all folder files !! name
  = if bool_decide (name ∈ files) then None else folder !! name.
Proof.
  induction files as [|f files IH]; intros folder name.
  - by rewrite bool_decide_eq_false_2 by apply not_elem_of_nil.
  - change (remove_all (delete f folder) files !! name
            = if bool_decide (name ∈ f :: files) then None else folder !! name).
    rewrite IH. destruct (decide (name ∈ files)) as [Hin|Hout].
    + rewrite !bool_decide_eq_true_2; [done | by right | done].
    + rewrite (bool_decide_eq_false_2 (name ∈ files)) by done.
      destruct (decide (name = f)) as [->|Hne].
      * rewrite bool_decide_eq_true_2 by left. apply lookup_delete_eq.
      * rewrite bool_decide_eq_false_2, lookup_delete_ne; [done.. |].
        intros [?|?]%elem_of_cons; done.
Qed.

Lemma CleanUpJSONsFolder_unfold (w : world) :
  CleanUpJSONsFolder os_listdir w
  = Returned tt
      (set_out_json_folder
         (remove_all (out_json_folder w) (os_listdir (out_json_folder w))) w).
Proof.
  unfold CleanUpJSONsFolder, bind at 1. unfold gets at 1.
  generalize (os_listdir (out_json_folder w)). intros files.
  revert w. induction files as [|f files IH]; intros w.
  - by destruct w.
  - cbn [for_each]. unfold bind at 1. unfold bind at 1. unfold gets at 1.
    unfold modify at 1. rewrite IH. reflexivity.
Qed.

(** Removing what the listing enumerates removes everything. *)
Lemma remove_all_listed (folder : gmap string Py.bytes) :
  lists_folder os_listdir ->
  remove_all folder (os_listdir folder) = ∅.
Proof.
  intros Hls. apply map_eq. intros name. rewrite remove_all_lookup, lookup_empty.
  destruct (decide (name ∈ os_listdir folder)) as [Hin|Hout].
  - by rewrite bool_decide_eq_true_2.
  - rewrite bool_decide_eq_false_2 by done.
    destruct (folder !! name) as [body|] eqn:E; [|done].
    exfalso. apply Hout. rewrite (Hls folder).
    apply list_elem_of_fmap. exists (name, body). split; [done|].
    by apply elem_of_map_to_list.
Qed.

(** X4. When [os.listdir] lists the staging folder, [CleanUpJSONsFolder]
    leaves it empty, whatever it held, and changes nothing else: not the
    flag, the counter, the geodatabases or the log. *)
Theorem cleanup_empties_staging_folder (w : world) :
  lists_folder os_listdir ->
  CleanUpJSONsFolder os_listdir w = Returned tt (set_out_json_folder ∅ w).
Proof.
  intros Hls. rewrite CleanUpJSONsFolder_unfold. by rewrite remove_all_listed.
Qed.

End Staging.

Lemma cleanup_empties_staging_folder_witness :
  CleanUpJSONsFolder listdir_backward staged_world
  = Returned tt (set_out_json_folder ∅ staged_world).
Proof.
  apply cleanup_empties_staging_folder.
  intros d. unfold listdir_backward. apply reverse_Permutation.
Defined.

(** ** How long a call blocks *)

Lemma total_sleep_app (l1 l2 : list event) :
  total_sleep (l1 ++ l2) = total_sleep l1 + total_sleep l2.
Proof.
  unfold total_sleep. rewrite sleeps_of_app.
  induction (sleeps_of l1) as [|t ts IH]; simpl; [done|]. rewrite IH. lia.
Qed.

Lemma total_sleep_backoff (queryURL : string) (n : nat) : forall sleep_timer : Z,
  total_sleep (backoff_events queryURL sleep_timer n)
  = 2 * sleep_timer * (2 ^ Z.of_nat n - 1).
Proof.
  induction n as [|n IH]; intros sleep_timer.
  { change (0 = 2 * sleep_timer * (2 ^ 0 - 1)). rewrite Z.pow_0_r. ring. }
  cbn [backoff_events].
  change (total_sleep (Sleep (sleep_timer * 2) :: Get queryURL
                         :: backoff_events queryURL (sleep_timer * 2) n))
    with (sleep_timer * 2 + total_sleep (backoff_events queryURL (sleep_timer * 2) n)).
  rewrite IH, Nat2Z.inj_succ, Z.pow_succ_r by lia. ring.
Qed.

(** X5. A call of [QueryExtractionRequest] whose first [n] replies are
    rejected sleeps [10 + 60 * (2^n - 1)] seconds in all before it writes the
    accepted body: the standard pause and a backoff that sums to one less
    than the next delay. *)
Theorem call_blocks_exponentially
    (svc : service) (fuel n : nat) (lo hi field url : string) (w : world) :
  response_flag w = true ->
  first_accepted svc (queries_sent w) (query_url lo hi field url) n ->
  (n <= fuel)%nat ->
  exists w',
    QueryExtractionRequest svc fuel lo hi field url w = Returned tt w' /\
    total_sleep (log w')
    = total_sleep (log w) + query_request_standard_pause + 60 * (2 ^ Z.of_nat n - 1).
Proof.
  intros Hflag Hfirst Hfuel. eexists.
  split; [by apply (QueryExtractionRequest_returns svc fuel n)|].
  cbn [log]. rewrite call_events_split, !total_sleep_app, total_sleep_backoff.
  change (total_sleep [Get (query_url lo hi field url);
                       Sleep query_request_standard_pause])
    with (query_request_standard_pause + 0).
  match goal with
  | |- context [total_sleep [WriteFile ?f ?b]] =>
      change (total_sleep [WriteFile f b]) with 0
  end.
  lia.
Qed.

Lemma call_blocks_exponentially_witness :
  exists w',
    QueryExtractionRequest flaky_service 5 "5" "9" "OBJECTID"
      (service_URL flaky_service) (initial_world ∅ None None) = Returned tt w' /\
    total_sleep (log w') = 190.
Proof.
  destruct (call_blocks_exponentially flaky_service 5 2 "5" "9" "OBJECTID"
              (service_URL flaky_service) (initial_world ∅ None None))
    as (w' & Hrun & Hsleep).
  - reflexivity.
  - split; [|reflexivity].
    intros j Hj. destruct j as [|[|j]]; [reflexivity | reflexivity | exfalso; lia].
  - lia.
  - exists w'. split; [exact Hrun|]. rewrite Hsleep. reflexivity.
Defined.

(** ** The extraction as a whole *)

Lemma extraction_loop_no_raise (svc : service) (fuel : nat) (field : string)
    (gs : list (list Z)) : forall (w : world) (e : exn) (w' : world),
  Forall (fun g => g <> []) gs ->
  extraction_loop svc fuel gs field w <> Raised e w'.
Proof.
  induction gs as [|g gs IH]; intros w e w' Hne; [done|].
  apply Forall_cons in Hne as [Hg Hne]. rewrite extraction_loop_cons.
  destruct g as [|x g]; [done|].
  destruct (last (x :: g)) as [hi|] eqn:Elast; [|by apply last_None in Elast].
  cbn [head].
  destruct (QueryExtractionRequest _ _ _ _ _ _ _) as [[] w1|e1 w1|] eqn:Ecall.
  - by apply IH.
  - by apply QueryExtractionRequest_no_raise in Ecall.
  - done.
Qed.

Lemma extract_all_unfold (svc : service)
    (os_listdir : gmap string Py.bytes -> list string)
    (page_size : Z) (fuel : nat) (w : world) :
  extract_all svc os_listdir page_size fuel w
  = let w1 :=
      emit (Get (service_URL svc +:+ "/query?where=1%3D1&returnIdsOnly=true&f=json"))
        (emit (Get (service_URL svc +:+ "?f=pjson"))
           (set_out_json_folder
              (remove_all (out_json_folder w) (os_listdir (out_json_folder w))) w)) in
    match Planner.IterableChunk page_size (merge_sort Z.le (objectIds svc)) with
    | inl e => Raised e w1
    | inr p => extraction_loop svc fuel (Planner.groups p) (objectIdFieldName svc) w1
    end.
Proof.
  unfold extract_all. unfold bind at 1. rewrite CleanUpJSONsFolder_unfold.
  unfold ServiceGetRecordExtract, ServiceGetObjectIDs, response_json, subscript,
    sorted, bind, modify, ret.
  cbn [healthy layer_reply ids_reply endpoint_URL fst snd].
  by destruct (Planner.IterableChunk _ _).
Qed.





(** The extraction against any endpoint: the cleanup, the two metadata
    requests with what they can raise, the plan and the loop. *)
Lemma extract_all_metadata (net : endpoint)
    (os_listdir : gmap string Py.bytes -> list string)
    (page_size : Z) (fuel : nat) (w : world) :
  extract_all net os_listdir page_size fuel w
  = let w1 :=
      emit (Get (endpoint_URL net +:+ "?f=pjson"))
        (set_out_json_folder
           (remove_all (out_json_folder w) (os_listdir (out_json_folder w))) w) in
    let w2 :=
      emit (Get (endpoint_URL net
                 +:+ "/query?where=1%3D1&returnIdsOnly=true&f=json")) w1 in
    match layer_reply net with
    | Unreachable => Raised ConnectionError w1
    | NotJSON => Raised JSONDecodeError w1
    | Object None => Raised KeyError w1
    | Object (Some _) =>
        match ids_reply net with
        | Unreachable => Raised ConnectionError w2
        | NotJSON => Raised JSONDecodeError w2
        | Object (None, _) => Raised KeyError w2
        | Object (Some _, None) => Raised KeyError w2
        | Object (Some _, Some None) => Raised TypeError w2
        | Object (Some field, Some (Some ids)) =>
            match Planner.IterableChunk page_size (merge_sort Z.le ids) with
            | inl e => Raised e w2
            | inr p => extraction_loop net fuel (Planner.groups p) field w2
            end
        end
    end.
Proof.
  unfold extract_all. unfold bind at 1. rewrite CleanUpJSONsFolder_unfold.
  unfold ServiceGetRecordExtract, ServiceGetObjectIDs, response_json, subscript,
    sorted, bind, modify, ret, raise.
  destruct (layer_reply net) as [| |[m|]]; try reflexivity.
  destruct (ids_reply net) as [| |[[field|] [[ids|]|]]]; try reflexivity.
  cbn [fst snd]. by destruct (Planner.IterableChunk _ _).
Qed.

(** A metadata request that fails ends the extraction after the cleanup. *)
Lemma extract_all_metadata_fails (net : endpoint)
    (os_listdir : gmap string Py.bytes -> list string)
    (page_size : Z) (fuel : nat) (w : world) (e : exn) :
  metadata_error net = Some e ->
  exists w',
    extract_all net os_listdir page_size fuel w = Raised e w' /\
    out_json_folder w'
    = remove_all (out_json_folder w) (os_listdir (out_json_folder w)) /\
    queries_sent w' = queries_sent w /\
    final_featureclass w' = final_featureclass w.
Proof.
  rewrite extract_all_metadata. cbn zeta. unfold metadata_error.
  destruct (layer_reply net) as [| |[m|]];
    try (intros [= <-]; eexists; split; [reflexivity | done]).
  destruct (ids_reply net) as [| |[[field|] [[ids|]|]]];
    try (intros [= <-]; eexists; split; [reflexivity | done]).
  discriminate.
Qed.



Lemma write_all_absent (files : list (string * Py.bytes)) (name : string) :
  name ∉ files.*1 -> write_all ∅ files !! name = None.
Proof. intros Hname. by rewrite write_all_other, lookup_empty. Qed.

(** The keys of a folder written from nothing under distinct names are those
    names. *)
Lemma write_all_keys (files : list (string * Py.bytes)) :
  NoDup files.*1 ->
  (map_to_list (write_all ∅ files)).*1 ≡ₚ files.*1.
Proof.
  intros Hnd. apply NoDup_Permutation; [apply NoDup_fst_map_to_list | done |].
  intros name. split.
  - intros Hin. apply list_elem_of_fmap in Hin as ([f body] & -> & Hfb).
    apply elem_of_map_to_list in Hfb.
    destruct (decide (f ∈ files.*1)) as [Hf|Hf]; [done|].
    cbn [fst] in Hfb. rewrite write_all_absent in Hfb by done. discriminate.
  - intros Hin. apply list_elem_of_fmap in Hin as ([f body] & -> & Hfb).
    apply list_elem_of_fmap. exists (f, body). split; [done|].
    apply elem_of_map_to_list. by apply write_all_lookup.
Qed.

Lemma concat_len_Permutation (l k : list Z) : l ≡ₚ k -> Planner.len l = Planner.len k.
Proof. intros H. unfold Planner.len. by rewrite H. Qed.

(** The extraction on a service that answers in the end, from whatever the
    staging folder held. *)
Lemma extract_all_returns (svc : service)
    (os_listdir : gmap string Py.bytes -> list string)
    (page_size : Z) (fuel : nat) (folder : gmap string Py.bytes)
    (gdb : option (list (string * feature_class))) (final : option feature_class) :
  lists_folder os_listdir ->
  eventually_accepts svc fuel ->
  1 <= page_size ->
  exists w' p bodies,
    Planner.IterableChunk page_size (merge_sort Z.le (objectIds svc)) = inr p /\
    Forall (fun g => g <> []) (Planner.groups p) /\
    concat (Planner.groups p) = merge_sort Z.le (objectIds svc) /\
    extract_all svc os_listdir page_size fuel (initial_world folder gdb final)
    = Returned tt w' /\
    length bodies = length (Planner.groups p) /\
    Forall (fun b => Py.bytes_in server_error_message b = false) bodies /\
    out_json_folder w'
    = write_all ∅ (zip (json_file_name <$> cumulative 0 (Planner.groups p)) bodies) /\
    json_file_iterator w' = Planner.len (objectIds svc) /\
    Forall2 (answers svc (objectIdFieldName svc)) (Planner.groups p) bodies.
Proof.
  intros Hls Hsvc Hn. rewrite extract_all_unfold. cbn zeta.
  cbn [out_json_folder initial_world]. rewrite remove_all_listed by done.
  destruct (IterableChunk_count page_size (merge_sort Z.le (objectIds svc)) Hn)
    as (p & Hp & _ & _ & Hne).
  assert (concat (Planner.groups p) = merge_sort Z.le (objectIds svc)) as Hcat.
  { assert (Planner.groups p
            = Planner.strides (S (length (merge_sort Z.le (objectIds svc))))
                (Z.to_nat page_size) (merge_sort Z.le (objectIds svc))) as ->
      by (rewrite IterableChunk_strides in Hp by done; by injection Hp as <-).
    apply strides_concat; lia. }
  rewrite Hp.
  match goal with
  | |- context [extraction_loop _ fuel _ _ ?w1] =>
      destruct (extraction_loop_returns svc fuel (objectIdFieldName svc) Hsvc
                  (Planner.groups p) w1 eq_refl Hne)
        as (w' & bodies & Hrun & _ & Hiter & Hlen & Hclean & _ & Hfolder & Hans)
  end.
  cbn [json_file_iterator out_json_folder emit set_out_json_folder] in Hiter, Hfolder.
  exists w', p, bodies. do 6 (split; [done|]). split; [done|]. split; [|done].
  rewrite Hiter, Hcat, Z.add_0_l.
  apply concat_len_Permutation, merge_sort_Permutation.
Qed.

(** X7. Against a service whose two metadata replies are well formed and
    whose requests are all answered (the endpoint [healthy svc]), which
    accepts every chunk query in the end, and with a page size of at least
    1, a run's extraction returns with the staging folder holding the
    payloads of this run and nothing else: one file per chunk, written under
    the names of the counter, each holding the body of a reply that the
    service gave to the query of that chunk and that the client accepted
    (so without the sentinel), and no file that was in the folder before
    survives under another name.  The counter ends at the number of
    identifiers of the layer. *)
Theorem extraction_stages_only_this_run (svc : service)
    (os_listdir : gmap string Py.bytes -> list string)
    (page_size : Z) (fuel : nat) (folder : gmap string Py.bytes)
    (gdb : option (list (string * feature_class))) (final : option feature_class) :
  lists_folder os_listdir ->
  eventually_accepts svc fuel ->
  1 <= page_size ->
  exists w' p bodies,
    Planner.IterableChunk page_size (merge_sort Z.le (objectIds svc)) = inr p /\
    extract_all (healthy svc) os_listdir page_size fuel
      (initial_world folder gdb final)
    = Returned tt w' /\
    length bodies = length (Planner.groups p) /\
    Forall2 (answers svc (objectIdFieldName svc)) (Planner.groups p) bodies /\
    Forall (fun b => Py.bytes_in server_error_message b = false) bodies /\
    out_json_folder w'
    = write_all ∅ (zip (json_file_name <$> cumulative 0 (Planner.groups p)) bodies) /\
    (forall name,
       name ∉ json_file_name <$> cumulative 0 (Planner.groups p) ->
       out_json_folder w' !! name = None) /\
    json_file_iterator w' = Planner.len (objectIds svc).
Proof.
  intros Hls Hsvc Hn.
  destruct (extract_all_returns svc os_listdir page_size fuel folder gdb final
              Hls Hsvc Hn)
    as (w' & p & bodies & Hp & _ & _ & Hrun & Hlen & Hclean & Hfolder & Hiter & Hans).
  exists w', p, bodies. do 6 (split; [done|]). split; [|done].
  intros name Hname. rewrite Hfolder. apply write_all_absent.
  rewrite fst_zip; [done|]. rewrite length_fmap, cumulative_length. lia.
Qed.

Lemma extraction_stages_only_this_run_witness :
  exists w',
    extract_all steady_service listdir_forward 3 5
      (initial_world (out_json_folder staged_world) None None) = Returned tt w' /\
    json_file_iterator w' = 6.
Proof.
  destruct (extraction_stages_only_this_run steady_service listdir_forward 3 5
              (out_json_folder staged_world) None None)
    as (w' & p & bodies & _ & Hrun & _ & _ & _ & _ & _ & Hiter).
  - intros d. reflexivity.
  - intros k queryURL. exists 0%nat. split; [lia | reflexivity].
  - lia.
  - exists w'. split; [exact Hrun | exact Hiter].
Defined.

(** ** The advertised page size *)

(** The retry loop reads the replies of the service and nothing else of
    it. *)
Lemma retry_loop_advertising (svc : service) (m : Z) (queryURL : string)
    (fuel : nat) (response : reply) (sleep_timer : Z) (w : world) :
  retry_loop (advertising m svc) fuel queryURL response sleep_timer w
  = retry_loop svc fuel queryURL response sleep_timer w.
Proof. reflexivity. Qed.

Lemma extraction_loop_advertising (svc : service) (m : Z) (fuel : nat)
    (field : string) (gs : list (list Z)) (w : world) :
  extraction_loop (advertising m svc) fuel gs field w
  = extraction_loop svc fuel gs field w.
Proof. reflexivity. Qed.

(** X8. The [maxRecordCount] a service advertises has no effect on a run:
    [ServiceGetRecordExtract] asks for it, but the page size handed to the
    planner is [record_extraction_hardcode], so two services that differ in
    nothing else are extracted and merged in the same way. *)
Theorem advertised_limit_is_ignored (svc : service) (m : Z)
    (JSONToFeatures : Py.bytes -> string -> option feature_class)
    (os_listdir : gmap string Py.bytes -> list string) (fuel : nat) (w : world) :
  main (advertising m svc) JSONToFeatures os_listdir fuel w
  = main svc JSONToFeatures os_listdir fuel w.
Proof.
  unfold main, script. unfold bind at 1 3. rewrite !extract_all_unfold. cbn zeta.
  change (objectIds (advertising m svc)) with (objectIds svc).
  change (service_URL (advertising m svc)) with (service_URL svc).
  change (objectIdFieldName (advertising m svc)) with (objectIdFieldName svc).
  destruct (Planner.IterableChunk _ _) as [e|p]; [reflexivity|].
  by rewrite extraction_loop_advertising.
Qed.

(** ** The intermediate geodatabase *)

Section Converted.
Variable JSONToFeatures : Py.bytes -> string -> option feature_class.
Variable os_listdir : gmap string Py.bytes -> list string.

Lemma filter_other_names (name : string) (fcs : list (string * feature_class)) :
  name ∉ fcs.*1 ->
  filter (fun p => negb (String.eqb (fst p) name)) fcs = fcs.
Proof.
  induction fcs as [|[f fc] fcs IH]; intros Hname; [done|].
  cbn [fmap list_fmap fst] in Hname. apply not_elem_of_cons in Hname as [Hne Hname].
  rewrite filter_cons_True.
  - by rewrite IH.
  - cbn [fst]. destruct (String.eqb_spec f name) as [->|_]; done.
Qed.

Lemma converted_cons (folder : gmap string Py.bytes) (file : string)
    (files : list string) (body : Py.bytes) (fc : feature_class) :
  folder !! file = Some body ->
  JSONToFeatures body "POLYGON" = Some fc ->
  converted JSONToFeatures folder (file :: files)
  = (chunk_class_name file, fc) :: converted JSONToFeatures folder files.
Proof.
  intros Hbody Hfc. unfold converted. cbn [omap list_omap].
  by rewrite Hbody, Hfc.
Qed.

(** With distinct class names the loop adds one feature class per listed
    file, in the order of the list, and replaces none. *)
Lemma transfer_loop_converted (l : list string) :
  forall (w : world) (acc : list (string * feature_class)),
  intermediate_gdb w = Some acc ->
  (forall file, file ∈ l ->
     exists body, out_json_folder w !! file = Some body /\
                  is_Some (JSONToFeatures body "POLYGON")) ->
  NoDup (chunk_class_name <$> l) ->
  (forall file, file ∈ l -> chunk_class_name file ∉ acc.*1) ->
  exists w',
    for_each l (transfer JSONToFeatures) w = Returned tt w' /\
    intermediate_gdb w' = Some (acc ++ converted JSONToFeatures (out_json_folder w) l) /\
    final_featureclass w' = final_featureclass w.
Proof.
  induction l as [|x l IH]; intros w acc Hgdb Hall Hnd Hfresh.
  - exists w. by rewrite app_nil_r.
  - cbn [for_each]. unfold bind. rewrite transfer_unfold, Hgdb. cbn zeta.
    destruct (Hall x ltac:(left)) as (b & Hb & [fc Hfc]). rewrite Hb, Hfc.
    fold (chunk_class_name x).
    rewrite filter_other_names by (apply Hfresh; left).
    cbn [fmap list_fmap] in Hnd. apply NoDup_cons in Hnd as [Hx Hnd].
    edestruct (IH (set_intermediate_gdb (Some (acc ++ [(chunk_class_name x, fc)]))
                     (emit (Transferring x) w)) (acc ++ [(chunk_class_name x, fc)]))
      as (w' & Hrun & Hgdb' & Hfinal); [done | | done | |].
    + intros file Hfile. apply Hall. by right.
    + intros file Hfile. rewrite fmap_app. cbn [fmap list_fmap fst].
      intros [Hin|Hin]%elem_of_app.
      * apply (Hfresh file); [by right | done].
      * apply list_elem_of_singleton in Hin. apply Hx. rewrite <- Hin.
        by apply list_elem_of_fmap_2.
    + exists w'. split; [done|]. split; [|done].
      rewrite Hgdb'. cbn [out_json_folder set_intermediate_gdb emit].
      rewrite (converted_cons _ _ _ _ _ Hb Hfc), <- app_assoc. reflexivity.
Qed.

Lemma converted_names (folder : gmap string Py.bytes) (files : list string) :
  (forall file, file ∈ files ->
     exists body, folder !! file = Some body /\
                  is_Some (JSONToFeatures body "POLYGON")) ->
  (converted JSONToFeatures folder files).*1 = chunk_class_name <$> files.
Proof.
  induction files as [|x files IH]; intros Hall; [done|].
  destruct (Hall x ltac:(left)) as (b & Hb & [fc Hfc]).
  rewrite (converted_cons _ _ _ _ _ Hb Hfc). cbn [fmap list_fmap fst].
  rewrite IH; [done|]. intros file Hfile. apply Hall. by right.
Qed.

(** X9. When every listed payload converts and the names
    [chunk_<file stem>] of the listed files are distinct, the conversion
    leaves the intermediate geodatabase with exactly one feature class per
    staged payload, named after the file and in the order of the listing,
    whatever the geodatabase held before; the destination is not touched. *)
Theorem conversion_builds_one_class_per_payload (w : world) :
  (forall file, file ∈ os_listdir (out_json_folder w) ->
     exists body, out_json_folder w !! file = Some body /\
                  is_Some (JSONToFeatures body "POLYGON")) ->
  NoDup (chunk_class_name <$> os_listdir (out_json_folder w)) ->
  exists w',
    ConvertJSONstoFeatureClasses JSONToFeatures os_listdir w = Returned tt w' /\
    intermediate_gdb w'
    = Some (converted JSONToFeatures (out_json_folder w)
              (os_listdir (out_json_folder w))) /\
    (converted JSONToFeatures (out_json_folder w) (os_listdir (out_json_folder w))).*1
    = chunk_class_name <$> os_listdir (out_json_folder w) /\
    final_featureclass w' = final_featureclass w.
Proof.
  intros Hall Hnd. rewrite ConvertJSONstoFeatureClasses_unfold.
  destruct (transfer_loop_converted (os_listdir (out_json_folder w))
              (set_intermediate_gdb (Some []) w) []) as (w' & Hrun & Hgdb & Hfinal);
    [done | done | done | intros file _; apply not_elem_of_nil |].
  exists w'. split; [done|]. split; [done|]. split; [by apply converted_names | done].
Qed.

End Converted.

Lemma conversion_builds_one_class_per_payload_witness :
  exists w',
    ConvertJSONstoFeatureClasses lenient_converter listdir_backward staged_world
    = Returned tt w' /\
    (default [] (intermediate_gdb w')).*1 = ["chunk_000006"; "chunk_000003"].
Proof.
  destruct (conversion_builds_one_class_per_payload lenient_converter
              listdir_backward staged_world) as (w' & Hrun & Hgdb & Hnames & _).
  - intros file Hfile. vm_compute in Hfile.
    apply elem_of_cons in Hfile as [-> | Hfile];
      [|apply list_elem_of_singleton in Hfile as ->];
      eexists; (split; [vm_compute; reflexivity | by eexists]).
  - vm_compute. apply NoDup_cons. split; [|apply NoDup_singleton].
    intros Hin. apply list_elem_of_singleton in Hin. discriminate.
  - exists w'. split; [exact Hrun|]. rewrite Hgdb. vm_compute. reflexivity.
Defined.

(** ** The replacement *)

(** X10. On a workspace that holds at least one feature class the replacement
    succeeds and leaves, as the destination, a feature class with the shape
    and the fields of the first class of the workspace and the rows of all
    its classes in order.  Nothing of what the destination held before
    remains, and it makes no difference whether there was a destination. *)
Theorem replacement_publishes_the_workspace (w : world)
    (fcs : list (string * feature_class)) :
  intermediate_gdb w = Some fcs ->
  fcs <> [] ->
  ReplaceFinalFeatureClassWithIntermediateFeatureClasses w
  = Returned tt (set_final_featureclass (merged fcs) w) /\
  (forall old,
     ReplaceFinalFeatureClassWithIntermediateFeatureClasses
       (set_final_featureclass old w)
     = Returned tt (set_final_featureclass (merged fcs) w)).
Proof.
  intros Hgdb Hne.
  assert (forall old,
    ReplaceFinalFeatureClassWithIntermediateFeatureClasses
      (set_final_featureclass old w)
    = Returned tt (set_final_featureclass (merged fcs) w)) as Hall.
  { intros old.
    unfold ReplaceFinalFeatureClassWithIntermediateFeatureClasses, ListFeatureClasses,
      bind, gets, modify, ret, raise.
    destruct fcs as [|[name first] fcs]; [done|].
    destruct (bool_decide _);
      cbn [intermediate_gdb set_final_featureclass]; rewrite Hgdb; reflexivity. }
  split; [|done].
  rewrite <- (Hall (final_featureclass w)). by destruct w.
Qed.

Lemma replacement_publishes_the_workspace_witness :
  ReplaceFinalFeatureClassWithIntermediateFeatureClasses
    (set_intermediate_gdb (Some two_chunk_classes) staged_world)
  = Returned tt
      (set_final_featureclass
         (Some (FeatureClass "POLYGON" ["OBJECTID"] [["5"]; ["8"]; ["12"]]))
         (set_intermediate_gdb (Some two_chunk_classes) staged_world)).
Proof.
  destruct (replacement_publishes_the_workspace
              (set_intermediate_gdb (Some two_chunk_classes) staged_world)
              two_chunk_classes) as [Hrun _].
  - reflexivity.
  - discriminate.
  - exact Hrun.
Defined.

(** ** A whole run *)

(** The conversion on a folder written under distinct names of the counter:
    the statement of the conversion for the names [names]. *)
Lemma conversion_files_convert
    (JSONToFeatures : Py.bytes -> string -> option feature_class)
    (os_listdir : gmap string Py.bytes -> list string) (w : world)
    (names : list string) (bodies : list Py.bytes) :
  (forall body, Py.bytes_in server_error_message body = false ->
                is_Some (JSONToFeatures body "POLYGON")) ->
  Forall (fun b => Py.bytes_in server_error_message b = false) bodies ->
  out_json_folder w = write_all ∅ (zip names bodies) ->
  NoDup (zip names bodies).*1 ->
  os_listdir (out_json_folder w) ≡ₚ (zip names bodies).*1 ->
  NoDup (chunk_class_name <$> os_listdir (out_json_folder w)) ->
  exists w',
    ConvertJSONstoFeatureClasses JSONToFeatures os_listdir w = Returned tt w' /\
    intermediate_gdb w'
    = Some (converted JSONToFeatures (out_json_folder w)
              (os_listdir (out_json_folder w))) /\
    (converted JSONToFeatures (out_json_folder w) (os_listdir (out_json_folder w))).*1
    = chunk_class_name <$> os_listdir (out_json_folder w) /\
    final_featureclass w' = final_featureclass w.
Proof.
  intros Hconv Hclean Hfolder Hnd Hlist Hndc.
  assert (forall file, file ∈ os_listdir (out_json_folder w) ->
            exists body, out_json_folder w !! file = Some body /\
                         is_Some (JSONToFeatures body "POLYGON")) as Hall.
  { intros file Hfile. rewrite Hlist in Hfile.
    apply list_elem_of_fmap in Hfile as ([f body] & -> & Hfb).
    exists body. split.
    - rewrite Hfolder. by apply write_all_lookup.
    - apply Hconv. rewrite Forall_forall in Hclean. apply Hclean.
      apply list_elem_of_lookup in Hfb as [i Hi].
      apply lookup_zip_with_Some in Hi as (x & y & [= <- <-] & _ & Hy).
      by eapply list_elem_of_lookup_2. }
  rewrite ConvertJSONstoFeatureClasses_unfold.
  destruct (transfer_loop_converted JSONToFeatures (os_listdir (out_json_folder w))
              (set_intermediate_gdb (Some []) w) []) as (w' & Hrun & Hgdb & Hfinal);
    [done | done | done | intros file _; apply not_elem_of_nil |].
  exists w'. split; [done|]. split; [done|]. split; [by apply converted_names | done].
Qed.

(** The replacement on a workspace with feature classes. *)
Lemma replacement_with_classes (w : world) (fcs : list (string * feature_class)) :
  intermediate_gdb w = Some fcs ->
  fcs <> [] ->
  ReplaceFinalFeatureClassWithIntermediateFeatureClasses w
  = Returned tt (set_final_featureclass (merged fcs) w).
Proof.
  intros Hgdb Hne.
  unfold ReplaceFinalFeatureClassWithIntermediateFeatureClasses, ListFeatureClasses,
    bind, gets, modify, ret, raise.
  destruct fcs as [|[name first] fcs]; [done|].
  destruct (bool_decide _);
    cbn [intermediate_gdb set_final_featureclass]; rewrite Hgdb; [reflexivity|].
  by destruct w.
Qed.

Lemma digit_char_not_dot (v : Z) : 0 <= v < 10 ->
  Ascii.eqb (Py.digit_char v) "." = false.
Proof.
  intros Hv.
  assert (v = 0 \/ v = 1 \/ v = 2 \/ v = 3 \/ v = 4 \/ v = 5 \/ v = 6 \/ v = 7
          \/ v = 8 \/ v = 9) as Hcases by lia.
  repeat (destruct Hcases as [-> | Hcases]; [reflexivity|]). by subst v.
Qed.

(** Digits hold no dot: the stem of a name ends where its suffix begins. *)
Lemma split_dot_head_fixed_width (width : nat) : forall (n : Z) (acc : string),
  Py.split_dot_head (Py.fixed_width width n acc)
  = Py.fixed_width width n (Py.split_dot_head acc).
Proof.
  induction width as [|width IH]; intros n acc; [done|].
  cbn [Py.fixed_width]. rewrite IH. cbn [Py.split_dot_head].
  by rewrite digit_char_not_dot by (apply Z.mod_pos_bound; lia).
Qed.

(** The feature class of the payload staged under the counter [c] is named
    [chunk_] and the six digits of [c]. *)
Lemma chunk_class_name_json (c : Z) :
  0 <= c < 1000000 ->
  chunk_class_name (json_file_name c) = "chunk_" +:+ Py.fixed_width 6 c EmptyString.
Proof.
  intros Hc. unfold chunk_class_name.
  by rewrite json_file_name_fixed_width, split_dot_head_fixed_width.
Qed.

Lemma chunk_class_name_inj (c1 c2 : Z) :
  0 <= c1 < 1000000 -> 0 <= c2 < 1000000 ->
  chunk_class_name (json_file_name c1) = chunk_class_name (json_file_name c2) ->
  json_file_name c1 = json_file_name c2.
Proof.
  intros H1 H2. rewrite !chunk_class_name_json by done. intros Heq.
  apply (inj (String.append "chunk_")) in Heq.
  rewrite !json_file_name_fixed_width by done.
  by rewrite (fixed_width_acc 6 c1), (fixed_width_acc 6 c2), Heq.
Qed.

Lemma cumulative_names_class_NoDup (gs : list (list Z)) :
  Forall (fun g => g <> []) gs ->
  Planner.len (concat gs) < 1000000 ->
  NoDup (json_file_name <$> cumulative 0 gs) /\
  NoDup (chunk_class_name <$> (json_file_name <$> cumulative 0 gs)).
Proof.
  intros Hne Hlt.
  assert (NoDup (json_file_name <$> cumulative 0 gs)) as Hnd
    by (apply strongly_sorted_NoDup, cumulative_names_sorted; [lia | done | lia]).
  split; [done|]. apply NoDup_fmap_2_strong; [|done].
  intros x y Hx Hy.
  apply list_elem_of_fmap in Hx as (c1 & -> & Hc1).
  apply list_elem_of_fmap in Hy as (c2 & -> & Hc2).
  pose proof (cumulative_bounds _ _ _ Hne Hc1).
  pose proof (cumulative_bounds _ _ _ Hne Hc2).
  apply chunk_class_name_inj; lia.
Qed.

(** X11. A run on a layer of at least one and fewer than a million records,
    against a service whose two metadata replies are well formed and whose
    requests are all answered (the endpoint [healthy svc]), which accepts
    every chunk query in the end, and with a converter that accepts what was
    staged, completes: the intermediate geodatabase holds one feature class
    per chunk of the plan, and the destination is replaced by the merge of
    those classes, whatever the staging folder, the geodatabase and the
    destination held before.  Against an endpoint whose metadata requests
    fail, the run ends instead with the exception of the request, the
    staging folder emptied and the destination as it was. *)
Theorem successful_run_publishes_every_chunk (svc : service)
    (JSONToFeatures : Py.bytes -> string -> option feature_class)
    (os_listdir : gmap string Py.bytes -> list string)
    (page_size : Z) (fuel : nat) (folder : gmap string Py.bytes)
    (gdb : option (list (string * feature_class))) (final : option feature_class) :
  lists_folder os_listdir ->
  eventually_accepts svc fuel ->
  (forall body, Py.bytes_in server_error_message body = false ->
                is_Some (JSONToFeatures body "POLYGON")) ->
  1 <= page_size ->
  objectIds svc <> [] ->
  Planner.len (objectIds svc) < 1000000 ->
  (exists w' p fcs,
     Planner.IterableChunk page_size (merge_sort Z.le (objectIds svc)) = inr p /\
     script (healthy svc) JSONToFeatures os_listdir page_size fuel
       (initial_world folder gdb final)
     = Returned tt w' /\
     intermediate_gdb w' = Some fcs /\
     length fcs = length (Planner.groups p) /\
     fcs.*1
     ≡ₚ chunk_class_name <$> (json_file_name <$> cumulative 0 (Planner.groups p)) /\
     fcs <> [] /\
     final_featureclass w' = merged fcs) /\
  (forall (net : endpoint) (e : exn),
     metadata_error net = Some e ->
     exists w',
       script net JSONToFeatures os_listdir page_size fuel
         (initial_world folder gdb final)
       = Raised e w' /\
       out_json_folder w' = ∅ /\
       final_featureclass w' = final).
Proof.
  intros Hls Hsvc Hconv Hn Hids Hlt. split.
  2: { intros net e Hmeta.
       destruct (extract_all_metadata_fails net os_listdir page_size fuel
                   (initial_world folder gdb final) e Hmeta)
         as (w' & Hrun & Hfolder & _ & Hfinal).
       exists w'. split; [|split; [|done]].
       - unfold script. unfold bind at 1. by rewrite Hrun.
       - rewrite Hfolder. cbn [out_json_folder initial_world].
         by apply remove_all_listed. }
  destruct (extract_all_returns svc os_listdir page_size fuel folder gdb final
              Hls Hsvc Hn)
    as (w1 & p & bodies & Hp & Hne & Hcat & Hrun & Hlen & Hclean & Hfolder & _).
  set (names := json_file_name <$> cumulative 0 (Planner.groups p)) in *.
  assert (length names = length (Planner.groups p)) as Hnames
    by (unfold names; by rewrite length_fmap, cumulative_length).
  assert (Planner.len (concat (Planner.groups p)) < 1000000) as Hlt'.
  { rewrite Hcat. by rewrite (concat_len_Permutation _ _ (merge_sort_Permutation _ _)). }
  destruct (cumulative_names_class_NoDup _ Hne Hlt') as [Hnd Hndc]. fold names in Hnd, Hndc.
  assert ((zip names bodies).*1 = names) as Hfst by (apply fst_zip; lia).
  assert (os_listdir (out_json_folder w1) ≡ₚ names) as Hlist.
  { rewrite (Hls (out_json_folder w1)), Hfolder, write_all_keys; by rewrite Hfst. }
  assert (NoDup (chunk_class_name <$> os_listdir (out_json_folder w1))) as Hndl
    by (by rewrite Hlist).
  destruct (conversion_files_convert JSONToFeatures os_listdir w1 names bodies)
    as (w2 & Hconvert & Hgdb & Hfcs & _);
    [done | done | done | by rewrite Hfst | by rewrite Hfst | done |].
  set (fcs := converted JSONToFeatures (out_json_folder w1)
                (os_listdir (out_json_folder w1))) in *.
  assert (length fcs = length (Planner.groups p)) as Hcount.
  { rewrite <- (length_fmap fst fcs), Hfcs, length_fmap, Hlist. done. }
  assert (fcs <> []) as Hfcs_ne.
  { intros E. rewrite E in Hcount. simpl in Hcount.
    destruct (Planner.groups p) as [|g gs] eqn:Eg; [|done].
    simpl in Hcat. apply Hids. apply Permutation_nil_r.
    rewrite <- (merge_sort_Permutation Z.le). by rewrite <- Hcat. }
  exists (set_final_featureclass (merged fcs) w2), p, fcs.
  split; [done|]. split; [|split; [done|split; [done|split; [|done]]]].
  - unfold script, bind. rewrite Hrun, Hconvert.
    apply (replacement_with_classes w2 fcs Hgdb Hfcs_ne).
  - rewrite Hfcs. by rewrite Hlist.
Qed.

Lemma successful_run_publishes_every_chunk_witness :
  exists w',
    script steady_service lenient_converter listdir_backward 3 5
      (initial_world (out_json_folder staged_world) None (Some old_destination))
    = Returned tt w' /\
    final_featureclass w'
    = Some (FeatureClass "POLYGON" ["OBJECTID"] [["{}"]; ["{}"]]) /\
    (default [] (intermediate_gdb w')).*1 = ["chunk_000006"; "chunk_000003"].
Proof.
  destruct (successful_run_publishes_every_chunk steady_service lenient_converter
              listdir_backward 3 5 (out_json_folder staged_world) None
              (Some old_destination))
    as ((w' & p & fcs & _ & Hrun & _) & _).
  - intros d. unfold listdir_backward. apply reverse_Permutation.
  - intros k queryURL. exists 0%nat. split; [lia | reflexivity].
  - intros body _. by eexists.
  - lia.
  - discriminate.
  - reflexivity.
  - exists w'. split; [exact Hrun|].
    vm_compute in Hrun. injection Hrun as <-. split; reflexivity.
Defined.

(** * Properties of the backup rotation *)

Section PruningFacts.
Import WebGISDR.

Lemma filter_keep_all {A} (P : A -> Prop) `{forall x, Decision (P x)} (l : list A) :
  (forall x, x ∈ l -> P x) -> filter P l = l.
Proof.
  induction l as [|x l IH]; intros Hall; [done|].
  rewrite filter_cons_True by (apply Hall; left).
  rewrite IH; [done|]. intros y Hy. apply Hall. by right.
Qed.

Lemma filter_drop_all {A} (P : A -> Prop) `{forall x, Decision (P x)} (l : list A) :
  (forall x, x ∈ l -> ~ P x) -> filter P l = [].
Proof.
  induction l as [|x l IH]; intros Hall; [done|].
  rewrite filter_cons_False by (apply Hall; left).
  apply IH. intros y Hy. apply Hall. by right.
Qed.

(** In a list without repetition, what is not among the first [k] is what
    comes after them. *)
Lemma filter_not_in_take {A} `{EqDecision A} (k : nat) (l : list A) :
  NoDup l -> filter (fun x => x ∉ take k l) l = drop k l.
Proof.
  intros Hnd.
  transitivity (filter (fun x => x ∉ take k l) (take k l ++ drop k l));
    [by rewrite take_drop|].
  rewrite filter_app.
  rewrite <- (take_drop k l) in Hnd. apply NoDup_app in Hnd as (_ & Hdisj & _).
  rewrite filter_drop_all, filter_keep_all; [done | |].
  - intros x Hx Hin. by apply (Hdisj x).
  - intros x Hx Hnot. by apply Hnot.
Qed.

Variable path_le : relation string.
Context `{!RelDecision path_le}.
Variable glob_match : string -> string -> bool.
Variable iterdir : gmap string Py.bytes -> list string.

#[local] Existing Instance path_ge_dec.

Local Abbreviation prune_copies := (prune_copies path_le glob_match iterdir).
Local Abbreviation glob := (glob glob_match iterdir).
Local Abbreviation sorted_backups dir args :=
  (merge_sort (path_ge path_le) (glob dir (mode args))).

Lemma glob_NoDup (dir : gmap string Py.bytes) (mode : string) :
  lists_folder iterdir -> NoDup (glob dir mode).
Proof.
  intros Hls. unfold WebGISDR.glob. apply NoDup_filter.
  rewrite (Hls dir). apply NoDup_fst_map_to_list.
Qed.

Lemma glob_elem (dir : gmap string Py.bytes) (mode name : string) :
  lists_folder iterdir ->
  name ∈ glob dir mode <-> glob_match mode name = true /\ is_Some (dir !! name).
Proof.
  intros Hls. unfold WebGISDR.glob. rewrite list_elem_of_filter, (Hls dir).
  split; intros [Hm Hin]; (split; [done|]).
  - apply list_elem_of_fmap in Hin as ([f body] & -> & Hfb).
    apply elem_of_map_to_list in Hfb. by eexists.
  - destruct Hin as [body Hbody]. apply list_elem_of_fmap.
    exists (name, body). split; [done|]. by apply elem_of_map_to_list.
Qed.

Lemma prune_copies_unfold (dir : gmap string Py.bytes) (args : backup_arguments) :
  0 <= copies args ->
  NoDup (glob dir (mode args)) ->
  prune_copies dir args
  = Pruning
      (remove_all dir (drop (Z.to_nat (copies args)) (sorted_backups dir args)))
      (take (Z.to_nat (copies args)) (sorted_backups dir args))
      (drop (Z.to_nat (copies args)) (sorted_backups dir args)).
Proof.
  intros Hcopies Hnd. unfold WebGISDR.prune_copies, slice_to.
  destruct (Z.ltb_spec (copies args) 0) as [Hneg|_]; [exfalso; lia|].
  rewrite filter_not_in_take; [done|].
  by rewrite merge_sort_Permutation.
Qed.

Section Ordered.
Hypothesis path_le_total : Total path_le.
Hypothesis path_le_trans : Transitive path_le.

Lemma sorted_backups_sorted (dir : gmap string Py.bytes) (args : backup_arguments) :
  StronglySorted (path_ge path_le) (sorted_backups dir args).
Proof using path_le_total path_le_trans.
  apply StronglySorted_merge_sort.
  - intros x y z Hxy Hyz. unfold path_ge, flip in *. by etrans.
  - intros x y. unfold path_ge, flip. destruct (path_le_total x y); auto.
Qed.

End Ordered.

(** X12. For a number of copies that is not negative, [prune_copies] retains
    the first [copies] backups of the mode in descending path order, or all
    of them when there are fewer: the retained and the pruned names together
    are the backups the pattern matches, without repetition, every retained
    backup is a file of the directory that the pattern matches, and every
    pruned backup comes before every retained one in the order of paths. *)
Theorem prune_retains_newest (dir : gmap string Py.bytes) (args : backup_arguments) :
  lists_folder iterdir ->
  Total path_le ->
  Transitive path_le ->
  0 <= copies args ->
  length (backups_retained (prune_copies dir args))
  = Nat.min (Z.to_nat (copies args)) (length (glob dir (mode args))) /\
  backups_retained (prune_copies dir args) ++ backups_pruned (prune_copies dir args)
  ≡ₚ glob dir (mode args) /\
  NoDup (backups_retained (prune_copies dir args)
         ++ backups_pruned (prune_copies dir args)) /\
  (forall kept gone,
     kept ∈ backups_retained (prune_copies dir args) ->
     gone ∈ backups_pruned (prune_copies dir args) ->
     path_le gone kept /\ gone <> kept) /\
  (forall name,
     name ∈ backups_retained (prune_copies dir args) ->
     glob_match (mode args) name = true /\ is_Some (dir !! name)).
Proof.
  intros Hls Htotal Htrans Hcopies.
  pose proof (glob_NoDup dir (mode args) Hls) as Hnd.
  rewrite prune_copies_unfold by done. cbn [backups_retained backups_pruned].
  rewrite take_drop.
  assert (NoDup (sorted_backups dir args)) as Hnds
    by (by rewrite merge_sort_Permutation).
  split; [|split; [apply merge_sort_Permutation|split; [done|split]]].
  - rewrite length_take. f_equal.
    apply Permutation_length, merge_sort_Permutation.
  - intros kept gone Hkept Hgone.
    pose proof (sorted_backups_sorted Htotal Htrans dir args) as Hsorted.
    rewrite <- (take_drop (Z.to_nat (copies args))) in Hsorted, Hnds.
    apply StronglySorted_app in Hsorted as (Hord & _ & _).
    apply NoDup_app in Hnds as (_ & Hdisj & _).
    split; [by apply (Hord kept gone)|]. intros ->. by apply (Hdisj kept).
  - intros name Hname. apply (glob_elem dir (mode args) name Hls).
    rewrite <- (merge_sort_Permutation (path_ge path_le)).
    by eapply subseteq_take.
Qed.

(** X13. [prune_copies] deletes the backups it reports as pruned and nothing
    else, whatever the number of copies: a file whose name the pattern does
    not match stays as it was, and so does every retained backup. *)
Theorem prune_deletes_only_pruned (dir : gmap string Py.bytes)
    (args : backup_arguments) (name : string) :
  directory (prune_copies dir args) !! name
  = (if bool_decide (name ∈ backups_pruned (prune_copies dir args))
     then None else dir !! name) /\
  (glob_match (mode args) name = false ->
   directory (prune_copies dir args) !! name = dir !! name) /\
  (name ∈ backups_retained (prune_copies dir args) ->
   directory (prune_copies dir args) !! name = dir !! name).
Proof.
  unfold WebGISDR.prune_copies. cbn [directory backups_pruned backups_retained].
  rewrite remove_all_lookup. split; [done|]. split.
  - intros Hno. rewrite bool_decide_eq_false_2; [done|].
    intros [_ Hin]%list_elem_of_filter.
    rewrite merge_sort_Permutation in Hin.
    apply list_elem_of_filter in Hin as [Hyes _]. congruence.
  - intros Hkept. rewrite bool_decide_eq_false_2; [done|].
    by intros [Hnot _]%list_elem_of_filter.
Qed.

(** X14. Pruning twice is pruning once: on the directory that [prune_copies]
    leaves, a second call with the same arguments retains the same backups,
    prunes none and leaves the directory as it is. *)
Theorem prune_is_idempotent (dir : gmap string Py.bytes) (args : backup_arguments) :
  lists_folder iterdir ->
  Total path_le ->
  Transitive path_le ->
  AntiSymm (=) path_le ->
  0 <= copies args ->
  prune_copies (directory (prune_copies dir args)) args
  = Pruning (directory (prune_copies dir args))
      (backups_retained (prune_copies dir args)) [].
Proof.
  intros Hls Htotal Htrans Hanti Hcopies.
  pose proof (glob_NoDup dir (mode args) Hls) as Hnd.
  rewrite (prune_copies_unfold dir) by done.
  cbn [directory backups_retained backups_pruned].
  set (k := Z.to_nat (copies args)).
  set (names := sorted_backups dir args).
  set (dir' := remove_all dir (drop k names)).
  rewrite (prune_copies_unfold dir') by (done || by apply glob_NoDup).
  fold k.
  assert (NoDup names) as Hnds by (unfold names; by rewrite merge_sort_Permutation).
  pose proof (sorted_backups_sorted Htotal Htrans dir args) as Hsorted.
  fold names in Hsorted.
  assert (sorted_backups dir' args = take k names) as ->.
  { assert (Transitive (path_ge path_le))
      by (intros x y z Hxy Hyz; unfold path_ge, flip in *; by etrans).
    assert (AntiSymm (=) (path_ge path_le))
      by (intros x y Hxy Hyx; unfold path_ge, flip in *; by apply (anti_symm path_le)).
    apply (StronglySorted_unique (path_ge path_le)).
    - by apply sorted_backups_sorted.
    - rewrite <- (take_drop k names) in Hsorted.
      by apply StronglySorted_app in Hsorted as (_ & Hs & _).
    - rewrite merge_sort_Permutation.
      apply NoDup_Permutation.
      + by apply glob_NoDup.
      + rewrite <- (take_drop k names) in Hnds. by apply NoDup_app in Hnds as (? & _ & _).
      + intros x. rewrite (glob_elem dir' (mode args) x Hls).
        unfold dir'. rewrite remove_all_lookup.
        assert (x ∈ names <-> glob_match (mode args) x = true /\ is_Some (dir !! x))
          as Hx.
        { unfold names. rewrite merge_sort_Permutation. by apply glob_elem. }
        pose proof Hnds as Hnds'.
        rewrite <- (take_drop k names) in Hnds'.
        apply NoDup_app in Hnds' as (_ & Hdisj & _).
        destruct (decide (x ∈ drop k names)) as [Hd|Hd].
        * rewrite bool_decide_eq_true_2 by done. split.
          -- intros [_ [? ?]]. discriminate.
          -- intros Ht. by destruct (Hdisj x Ht).
        * rewrite bool_decide_eq_false_2 by done. rewrite <- Hx. split.
          -- intros Hin. rewrite <- (take_drop k names) in Hin.
             apply elem_of_app in Hin as [?|?]; done.
          -- intros Ht. by eapply subseteq_take. }
  rewrite take_take, Nat.min_id.
  rewrite drop_ge by (rewrite length_take; lia).
  reflexivity.
Qed.

End PruningFacts.

Lemma prune_retains_newest_witness :
  length (WebGISDR.backups_retained
            (WebGISDR.prune_copies String.le WebGISDR.suffix_match listdir_forward
               WebGISDR.backups_folder (WebGISDR.BackupArguments "FULL" 2))) = 2%nat /\
  WebGISDR.backups_pruned
    (WebGISDR.prune_copies String.le WebGISDR.suffix_match listdir_forward
       WebGISDR.backups_folder (WebGISDR.BackupArguments "FULL" 2))
  = ["20240101-FULL.webgissite"].
Proof.
  destruct (prune_retains_newest String.le WebGISDR.suffix_match listdir_forward
              WebGISDR.backups_folder (WebGISDR.BackupArguments "FULL" 2))
    as (Hlen & _).
  - intros d. reflexivity.
  - apply _.
  - apply _.
  - simpl. lia.
  - split; [rewrite Hlen|]; vm_compute; reflexivity.
Defined.

Lemma prune_is_idempotent_witness :
  WebGISDR.backups_pruned
    (WebGISDR.prune_copies String.le WebGISDR.suffix_match listdir_forward
       (WebGISDR.directory
          (WebGISDR.prune_copies String.le WebGISDR.suffix_match listdir_forward
             WebGISDR.backups_folder (WebGISDR.BackupArguments "FULL" 2)))
       (WebGISDR.BackupArguments "FULL" 2)) = [].
Proof.
  rewrite (prune_is_idempotent String.le WebGISDR.suffix_match listdir_forward
             WebGISDR.backups_folder (WebGISDR.BackupArguments "FULL" 2)).
  - reflexivity.
  - intros d. reflexivity.
  - apply _.
  - apply _.
  - apply _.
  - simpl. lia.
Defined.

Lemma prune_deletes_only_pruned_witness :
  WebGISDR.directory
    (WebGISDR.prune_copies String.le WebGISDR.suffix_match listdir_forward
       WebGISDR.backups_folder (WebGISDR.BackupArguments "FULL" 2))
  !! "notes.txt" = Some [].
Proof.
  destruct (prune_deletes_only_pruned String.le WebGISDR.suffix_match
              listdir_forward WebGISDR.backups_folder
              (WebGISDR.BackupArguments "FULL" 2) "notes.txt") as (_ & Hother & _).
  etrans; [apply Hother|]; reflexivity.
Defined.

(** ** The properties file *)

Section TextFacts.
Import WebGISDR.

Lemma append_nil_r (s : string) : s +:+ EmptyString = s.
Proof.
  induction s as [|c s IH]; [done|].
  change (String c (s +:+ EmptyString) = String c s). by rewrite IH.
Qed.

Lemma append_assoc (a b c : string) : (a +:+ b) +:+ c = a +:+ (b +:+ c).
Proof.
  induction a as [|x a IH]; [done|].
  change (String x ((a +:+ b) +:+ c) = String x (a +:+ (b +:+ c))). by rewrite IH.
Qed.

Lemma single_line_app (a b : string) :
  single_line (a +:+ b) = (single_line a && single_line b)%bool.
Proof.
  induction a as [|x a IH]; [done|].
  change (negb (line_boundary x) && single_line (a +:+ b)
          = negb (line_boundary x) && single_line a && single_line b)%bool.
  rewrite IH. by rewrite andb_assoc.
Qed.

(** A string without boundary is read into the line in hand. *)
Lemma splitlines_from_single_line (x : string) : forall (line rest : string),
  single_line x = true ->
  splitlines_from false line (x +:+ rest) = splitlines_from false (line +:+ x) rest.
Proof.
  induction x as [|c x IH]; intros line rest Hx.
  - by rewrite append_nil_r.
  - cbn [single_line] in Hx. apply andb_true_iff in Hx as [Hc Hx].
    apply negb_true_iff in Hc.
    change (String c x +:+ rest) with (String c (x +:+ rest)).
    cbn [splitlines_from andb]. rewrite Hc, IH by done.
    rewrite append_assoc. done.
Qed.

Lemma splitlines_from_nil (line : string) :
  splitlines_from false line EmptyString = drop_final_blank [line].
Proof. by destruct line. Qed.

(** Reading back what [join] wrote gives the lines again, but for an empty
    last line. *)
Lemma splitlines_join (lines : list string) :
  Forall (fun line => single_line line = true) lines ->
  splitlines (String.concat newline lines) = drop_final_blank lines.
Proof.
  unfold splitlines. induction 1 as [|x lines Hx Hlines IH]; [done|].
  destruct lines as [|y lines].
  - cbn [String.concat]. rewrite <- (append_nil_r x) at 1.
    rewrite splitlines_from_single_line by done. apply splitlines_from_nil.
  - change (String.concat newline (x :: y :: lines))
      with (x +:+ (newline +:+ String.concat newline (y :: lines))).
    rewrite splitlines_from_single_line by done.
    change (EmptyString +:+ x) with x.
    change (newline +:+ String.concat newline (y :: lines))
      with (String "010" (String.concat newline (y :: lines))).
    change (drop_final_blank (x :: y :: lines))
      with (x :: drop_final_blank (y :: lines)).
    rewrite <- IH. reflexivity.
Qed.

(** The lines that [splitlines] gives hold no boundary. *)
Lemma splitlines_from_lines (text : string) : forall (after_cr : bool) (line : string),
  single_line line = true ->
  Forall (fun l => single_line l = true) (splitlines_from after_cr line text).
Proof.
  induction text as [|c rest IH]; intros after_cr line Hline.
  - destruct line; [constructor | by repeat constructor].
  - cbn [splitlines_from].
    destruct (after_cr && Ascii.eqb c "010")%bool; [by apply IH|].
    destruct (line_boundary c) eqn:Hc.
    + constructor; [done | by apply IH].
    + apply IH. rewrite single_line_app, Hline. cbn [single_line].
      by rewrite Hc.
Qed.

Lemma setting_single_line (backup_mode : string) :
  single_line backup_mode = true ->
  single_line ("BACKUP_RESTORE_MODE = " +:+ backup_mode) = true.
Proof. intros Hmode. by rewrite single_line_app, Hmode. Qed.

Lemma set_WebGISDR_lines (backup_mode : string) (lines : list string) :
  single_line backup_mode = true ->
  Forall (fun l => single_line l = true) lines ->
  Forall (fun l => single_line l = true) (set_WebGISDR backup_mode lines).
Proof.
  intros Hmode Hlines. unfold set_WebGISDR. apply Forall_fmap.
  eapply Forall_impl; [exact Hlines|]. intros line Hline. cbn.
  destruct (str_in _ line); [by apply setting_single_line | done].
Qed.

Lemma setting_holds_key (backup_mode : string) :
  str_in "BACKUP_RESTORE_MODE =" ("BACKUP_RESTORE_MODE = " +:+ backup_mode) = true.
Proof. reflexivity. Qed.

(** A later setting overwrites an earlier one, line by line. *)
Lemma set_WebGISDR_overwrites (first second : string) (lines : list string) :
  set_WebGISDR second (set_WebGISDR first lines) = set_WebGISDR second lines.
Proof.
  unfold set_WebGISDR. rewrite <- list_fmap_compose.
  apply list_fmap_ext. intros i line _. cbn [compose].
  destruct (str_in "BACKUP_RESTORE_MODE =" line) eqn:E;
    [by rewrite setting_holds_key | by rewrite E].
Qed.

(** Setting the mode keeps a blank line blank and no other line. *)
Lemma set_WebGISDR_drop_final_blank (backup_mode : string) (lines : list string) :
  set_WebGISDR backup_mode (drop_final_blank lines)
  = drop_final_blank (set_WebGISDR backup_mode lines).
Proof.
  induction lines as [|line rest IH]; [done|].
  destruct rest as [|line' rest].
  - cbn [drop_final_blank]. destruct line as [|c line]; [done|].
    change (set_WebGISDR backup_mode [String c line])
      with [if str_in "BACKUP_RESTORE_MODE =" (String c line)
            then "BACKUP_RESTORE_MODE = " +:+ backup_mode else String c line].
    by destruct (str_in _ _).
  - change (drop_final_blank (line :: line' :: rest))
      with (line :: drop_final_blank (line' :: rest)).
    change (set_WebGISDR backup_mode (line :: drop_final_blank (line' :: rest)))
      with ((if str_in "BACKUP_RESTORE_MODE =" line
             then "BACKUP_RESTORE_MODE = " +:+ backup_mode else line)
            :: set_WebGISDR backup_mode (drop_final_blank (line' :: rest))).
    rewrite IH. reflexivity.
Qed.

(** X15. Two calls in a row, the second reading what the first wrote: the
    second setting wins, and the file ends up as one call with the second
    mode would leave it, but for a blank last line, which the second call
    does not read any more.  So for a text that does not end in a blank line
    two calls are one call with the second mode, and setting the same mode
    again changes nothing; for one that does, the second call finds one line
    fewer than the first. *)
Theorem set_WebGISDR_twice (first second file_content : string) :
  single_line first = true ->
  set_WebGISDR_text second (set_WebGISDR_text first file_content)
  = String.concat newline
      (drop_final_blank (set_WebGISDR second (splitlines file_content))) /\
  splitlines (set_WebGISDR_text first file_content)
  = drop_final_blank (set_WebGISDR first (splitlines file_content)) /\
  (drop_final_blank (splitlines file_content) = splitlines file_content ->
   set_WebGISDR_text second (set_WebGISDR_text first file_content)
   = set_WebGISDR_text second file_content /\
   length (splitlines (set_WebGISDR_text first file_content))
   = length (splitlines file_content)) /\
  (drop_final_blank (splitlines file_content) <> splitlines file_content ->
   S (length (splitlines (set_WebGISDR_text first file_content)))
   = length (splitlines file_content)).
Proof.
  intros Hfirst.
  assert (splitlines (set_WebGISDR_text first file_content)
          = drop_final_blank (set_WebGISDR first (splitlines file_content))) as Hread.
  { unfold set_WebGISDR_text. cbn zeta. apply splitlines_join.
    apply set_WebGISDR_lines; [done|]. by apply splitlines_from_lines. }
  assert (set_WebGISDR_text second (set_WebGISDR_text first file_content)
          = String.concat newline
              (drop_final_blank (set_WebGISDR second (splitlines file_content))))
    as Htwice.
  { unfold set_WebGISDR_text at 1. cbn zeta. rewrite Hread.
    rewrite <- set_WebGISDR_drop_final_blank, set_WebGISDR_overwrites.
    by rewrite set_WebGISDR_drop_final_blank. }
  split; [done|]. split; [done|]. split.
  - intros Hkeep. rewrite Htwice, Hread.
    rewrite <- !set_WebGISDR_drop_final_blank, Hkeep. split; [done|].
    unfold set_WebGISDR. by rewrite length_fmap.
  - intros Hdrop. rewrite Hread, <- set_WebGISDR_drop_final_blank.
    unfold set_WebGISDR. rewrite length_fmap.
    clear Hread Htwice. induction (splitlines file_content) as [|line rest IH];
      [done|].
    destruct rest as [|line' rest].
    + destruct line; [done|]. by cbn in Hdrop.
    + change (drop_final_blank (line :: line' :: rest))
        with (line :: drop_final_blank (line' :: rest)) in *.
      cbn [length]. f_equal. apply IH. intros Heq. apply Hdrop. by rewrite Heq.
Qed.

End TextFacts.

Lemma set_WebGISDR_twice_witness :
  WebGISDR.set_WebGISDR_text "FULL" WebGISDR.properties_file
  = "SHARED_LOCATION = D:" +:+ WebGISDR.newline +:+ "BACKUP_RESTORE_MODE = FULL"
    +:+ WebGISDR.newline /\
  WebGISDR.set_WebGISDR_text "FULL"
    (WebGISDR.set_WebGISDR_text "FULL" WebGISDR.properties_file)
  = "SHARED_LOCATION = D:" +:+ WebGISDR.newline +:+ "BACKUP_RESTORE_MODE = FULL".
Proof.
  split; [reflexivity|].
  destruct (set_WebGISDR_twice "FULL" "FULL" WebGISDR.properties_file)
    as (Htwice & _); [reflexivity|].
  rewrite Htwice. reflexivity.
Defined.

(** X16. When no line of the file holds [BACKUP_RESTORE_MODE =],
    [set_WebGISDR] leaves every line as it is: it adds no line, so that the
    mode it was asked to set appears nowhere in what is written back. *)
Theorem set_WebGISDR_without_key (backup_mode : string) (lines : list string) :
  (forall line, line ∈ lines ->
     WebGISDR.str_in "BACKUP_RESTORE_MODE =" line = false) ->
  WebGISDR.set_WebGISDR backup_mode lines = lines.
Proof.
  intros Hnone. unfold WebGISDR.set_WebGISDR.
  rewrite <- (list_fmap_id lines) at 2.
  apply list_fmap_ext. intros i line Hline.
  rewrite Hnone; [done|]. by eapply list_elem_of_lookup_2.
Qed.

Lemma set_WebGISDR_without_key_witness :
  WebGISDR.set_WebGISDR "FULL" ["SHARED_LOCATION = D:"; "BACKUP_RESTORE_MODE=backup"]
  = ["SHARED_LOCATION = D:"; "BACKUP_RESTORE_MODE=backup"].
Proof.
  apply set_WebGISDR_without_key.
  intros line Hline.
  apply elem_of_cons in Hline as [-> | Hline];
    [|apply list_elem_of_singleton in Hline as ->]; reflexivity.
Defined.

(** * Properties of the patch notifier *)

Section NotifierFacts.

Import PatchNotifier.

Variable patch : Type.
Context `{!EqDecision patch}.
Variables Name Products ReleaseDate Critical : patch -> string.

Local Abbreviation dict := (dict patch).
Local Abbreviation patch_lines := (patch_lines Name Products ReleaseDate Critical).
Local Abbreviation format_patches :=
  (format_patches Name Products ReleaseDate Critical).
Local Abbreviation format_versions :=
  (format_versions Name Products ReleaseDate Critical).
Local Abbreviation format_patch_differences :=
  (format_patch_differences Name Products ReleaseDate Critical).

Lemma dict_get_error (key : string) (d : dict) (e : error) :
  dict_get key d = inl e -> e = KeyError key.
Proof.
  induction d as [|[k v] d IH]; cbn [dict_get].
  - by intros [= <-].
  - by destruct (decide (k = key)).
Qed.

Lemma dict_get_keys (key : string) (d : dict) :
  dict_get key d = inl (KeyError key) <-> key ∉ d.*1.
Proof.
  induction d as [|[k v] d IH]; cbn [dict_get fmap list_fmap fst].
  - split; [intros _; apply not_elem_of_nil | done].
  - rewrite not_elem_of_cons. destruct (decide (k = key)) as [->|Hne].
    + split; [done | by intros [? _]].
    + rewrite IH. split; [by intros ?; split | by intros [_ ?]].
Qed.

Lemma dict_get_set (key k : string) (value : list patch) (d : dict) :
  dict_get key (dict_set k value d)
  = if decide (k = key) then inr value else dict_get key d.
Proof.
  induction d as [|[k' v'] d IH]; cbn [dict_set dict_get].
  - done.
  - destruct (decide (k' = k)) as [->|Hne]; cbn [dict_get].
    + by destruct (decide (k = key)).
    + rewrite IH. destruct (decide (k' = key)) as [->|?]; [|done].
      by rewrite decide_False.
Qed.

Lemma dict_set_keys (k : string) (value : list patch) (d : dict) :
  (dict_set k value d).*1 = if decide (k ∈ d.*1) then d.*1 else d.*1 ++ [k].
Proof.
  induction d as [|[k' v'] d IH]; cbn [dict_set fmap list_fmap fst].
  - rewrite decide_False; [done | apply not_elem_of_nil].
  - destruct (decide (k' = k)) as [->|Hne]; cbn [fmap list_fmap fst].
    + rewrite decide_True; [done | apply list_elem_of_here].
    + fold (fmap (M:=list) (@fst string (list patch)) (dict_set k value d)).
      rewrite IH.
      destruct (decide (k ∈ d.*1)) as [Hin|Hout].
      * rewrite decide_True; [done | by apply list_elem_of_further].
      * rewrite decide_False; [done|]. rewrite not_elem_of_cons. by split.
Qed.

Lemma dict_set_NoDup (k : string) (value : list patch) (d : dict) :
  NoDup d.*1 -> NoDup (dict_set k value d).*1.
Proof.
  intros Hnd. rewrite dict_set_keys. destruct (decide (k ∈ d.*1)); [done|].
  apply NoDup_app. split; [done|]. split; [|apply NoDup_singleton].
  intros x Hx ->%list_elem_of_singleton. done.
Qed.

Local Abbreviation step product_version :=
  (fun (available_patches : dict) (item : product patch) =>
     if bool_decide (version item ∈ product_version)
     then dict_set (version item) (patches item) available_patches
     else available_patches).

Lemma find_product_loop (product_version : list string) (items : list (product patch))
    (available : dict) :
  NoDup available.*1 ->
  NoDup (foldl (step product_version) available items).*1 /\
  forall v,
    dict_get v (foldl (step product_version) available items)
    = match last (entries_of v items) with
      | Some item =>
          if bool_decide (v ∈ product_version) then inr (patches item)
          else dict_get v available
      | None => dict_get v available
      end.
Proof.
  revert available. induction items as [|item items IH]; intros available Hnd.
  - done.
  - cbn [foldl].
    assert (NoDup (step product_version available item).*1) as Hnd'
      by (cbv beta; case_bool_decide; [by apply dict_set_NoDup | done]).
    destruct (IH _ Hnd') as [Hkeys Hget]. split; [done|].
    intros v. rewrite Hget. unfold entries_of. rewrite filter_cons.
    assert (version item <> v ->
            dict_get v (step product_version available item) = dict_get v available)
      as Hother.
    { intros Hne. cbv beta. case_bool_decide; [|done].
      rewrite dict_get_set. by rewrite decide_False. }
    destruct (decide (version item = v)) as [Hv|Hne].
    + rewrite last_cons. clear Hother. subst v.
      destruct (last (filter (fun item0 => version item0 = version item) items))
        as [item'|]; case_bool_decide as Hin; try done.
      rewrite dict_get_set. by rewrite decide_True.
    + rewrite (Hother Hne).
      destruct (last (filter (fun item => version item = v) items)); done.
Qed.

(** X17. [find_product] keeps, for every watched version that the manifest
    lists, the patches of the LAST entry of that version, and knows no other
    version; no version is kept twice.  It raises only on a manifest without
    a [Product] key. *)
Theorem find_product_last_entry_wins (product_version : list string)
    (patch_json : document patch) (available : dict) :
  find_product product_version patch_json = inr available ->
  exists items,
    patch_json = Some items /\
    NoDup available.*1 /\
    forall v,
      dict_get v available
      = if bool_decide (v ∈ product_version)
        then match last (entries_of v items) with
             | Some item => inr (patches item)
             | None => inl (KeyError v)
             end
        else inl (KeyError v).
Proof.
  destruct patch_json as [items|]; [|done]. intros [= <-].
  exists items. split; [done|].
  destruct (find_product_loop product_version items [] (NoDup_nil_2)) as [Hnd Hget].
  split; [done|]. intros v. rewrite Hget. cbn [dict_get].
  destruct (last (entries_of v items)); by case_bool_decide.
Qed.

Lemma format_patches_known (patches_local : dict) (version : string)
    (online_patches local : list patch) (formatted : list string) :
  dict_get version patches_local = inr local ->
  format_patches patches_local version online_patches formatted
  = inr (formatted
         ++ (filter (fun p => p ∉ local) online_patches ≫= patch_lines version)).
Proof.
  intros Hlocal. revert formatted.
  induction online_patches as [|p rest IH]; intros formatted;
    cbn [PatchNotifier.format_patches].
  - by rewrite app_nil_r.
  - rewrite Hlocal, IH, filter_cons. case_bool_decide as Hin.
    + rewrite decide_False by (by intros Hout). done.
    + rewrite decide_True by done. by rewrite bind_cons, app_assoc.
Qed.

Lemma format_patches_covered (patches_local : dict) (version : string)
    (online_patches : list patch) (formatted : list string) :
  ~ uncovered patches_local (version, online_patches) ->
  format_patches patches_local version online_patches formatted
  = inr (formatted
         ++ (new_patches patches_local (version, online_patches)
             ≫= lines_of Name Products ReleaseDate Critical)).
Proof.
  intros Hcov. unfold new_patches. cbn [fst snd].
  destruct (dict_get version patches_local) as [e|local] eqn:Hlocal.
  - destruct online_patches as [|p rest].
    + cbn. by rewrite app_nil_r.
    + exfalso. apply Hcov. split; [done|]. cbn [fst].
      by rewrite Hlocal, (dict_get_error _ _ _ Hlocal).
  - rewrite (format_patches_known _ _ _ local) by done. do 2 f_equal.
    induction (filter (fun p => p ∉ local) online_patches) as [|p l IH]; [done|].
    rewrite fmap_cons, !bind_cons, IH. done.
Qed.

Lemma format_versions_covered (patches_local patches_online : dict)
    (formatted : list string) :
  Forall (fun online => ~ uncovered patches_local online) patches_online ->
  format_versions patches_local patches_online formatted
  = inr (formatted
         ++ ((patches_online ≫= new_patches patches_local)
             ≫= lines_of Name Products ReleaseDate Critical)).
Proof.
  intros Hall. revert formatted.
  induction Hall as [|[version online_patches] rest Hcov _ IH]; intros formatted;
    cbn [PatchNotifier.format_versions].
  - by rewrite app_nil_r.
  - rewrite format_patches_covered by done. rewrite IH.
    by rewrite bind_cons, bind_app, app_assoc.
Qed.

Lemma format_versions_uncovered (patches_local patches_online : dict)
    (formatted : list string) :
  Exists (uncovered patches_local) patches_online ->
  exists version online_patches,
    (version, online_patches) ∈ patches_online /\
    uncovered patches_local (version, online_patches) /\
    format_versions patches_local patches_online formatted = inl (KeyError version).
Proof.
  revert formatted.
  induction patches_online as [|[version online_patches] rest IH];
    intros formatted Hex; [by apply Exists_nil in Hex|].
  cbn [PatchNotifier.format_versions].
  destruct (decide (uncovered patches_local (version, online_patches)))
    as [Hunc|Hcov].
  - exists version, online_patches. split; [apply list_elem_of_here|].
    split; [done|]. destruct Hunc as [Hne Hget]. cbn [fst snd] in *.
    destruct online_patches as [|p ps]; [done|].
    cbn [PatchNotifier.format_patches]. by rewrite Hget.
  - rewrite format_patches_covered by done.
    apply Exists_cons in Hex as [Hunc|Hex]; [done|].
    destruct (IH (formatted
                  ++ (new_patches patches_local (version, online_patches)
                      ≫= lines_of Name Products ReleaseDate Critical)) Hex)
      as (v & ps & Hin & Hunc & Hraise).
    exists v, ps. split; [by apply list_elem_of_further|]. done.
Qed.

Lemma format_patch_differences_covered (patches_local patches_online : dict) :
  Forall (fun online => ~ uncovered patches_local online) patches_online ->
  format_patch_differences patches_local patches_online
  = inr (String.concat nl
           ((patches_online ≫= new_patches patches_local)
            ≫= lines_of Name Products ReleaseDate Critical)).
Proof.
  intros Hall. unfold PatchNotifier.format_patch_differences.
  by rewrite format_versions_covered.
Qed.

Lemma format_patch_differences_uncovered (patches_local patches_online : dict) :
  Exists (uncovered patches_local) patches_online ->
  exists version,
    format_patch_differences patches_local patches_online = inl (KeyError version).
Proof.
  intros Hex. unfold PatchNotifier.format_patch_differences.
  destruct (format_versions_uncovered _ _ [] Hex) as (v & ps & _ & _ & ->).
  by exists v.
Qed.

Lemma lines_of_length (news : list (string * patch)) :
  length (news ≫= lines_of Name Products ReleaseDate Critical)
  = (4 * length news)%nat.
Proof.
  induction news as [|new news IH]; [done|].
  rewrite bind_cons, length_app, IH. cbn [length lines_of PatchNotifier.patch_lines].
  lia.
Qed.

(** X18. [format_patch_differences] raises [KeyError] as soon as the online
    manifest holds a patch under a version that the local manifest does not
    know: the version it names is such a version. *)
Theorem format_raises_on_unknown_version (patches_local patches_online : dict) :
  Exists (uncovered patches_local) patches_online ->
  exists version online_patches,
    format_patch_differences patches_local patches_online = inl (KeyError version) /\
    (version, online_patches) ∈ patches_online /\
    online_patches <> [] /\
    version ∉ patches_local.*1.
Proof.
  intros Hex. unfold PatchNotifier.format_patch_differences.
  destruct (format_versions_uncovered _ _ [] Hex) as (v & ps & Hin & [Hne Hget] & ->).
  exists v, ps. split; [done|]. split; [done|]. split; [done|].
  by apply dict_get_keys.
Qed.

(** X19. When the local manifest knows every version under which the online
    manifest holds a patch, [format_patch_differences] returns, joined by
    newlines, four lines for every online patch that the local list of its
    version does not hold, in the order of the online manifest; without such
    a patch the text is empty. *)
Theorem format_lists_new_patches (patches_local patches_online : dict) :
  Forall (fun online => ~ uncovered patches_local online) patches_online ->
  exists formatted_patches,
    format_patch_differences patches_local patches_online
    = inr (String.concat nl formatted_patches) /\
    formatted_patches
    = (patches_online ≫= new_patches patches_local)
      ≫= lines_of Name Products ReleaseDate Critical /\
    length formatted_patches
    = (4 * length (patches_online ≫= new_patches patches_local))%nat /\
    (patches_online ≫= new_patches patches_local = [] ->
     format_patch_differences patches_local patches_online = inr EmptyString).
Proof.
  intros Hall. eexists. split; [by apply format_patch_differences_covered|].
  split; [done|]. split; [apply lines_of_length|].
  intros Hnone. rewrite format_patch_differences_covered by done.
  by rewrite Hnone.
Qed.

Variable esri : nat -> error + Py.bytes.
Variable json_loads : Py.bytes -> error + document patch.
Variable os_environ : string -> option string.
Variable str_error : error -> string.
Variable str_lower : string -> string.

Local Abbreviation main :=
  (main Name Products ReleaseDate Critical esri json_loads os_environ
     str_error str_lower).
Local Abbreviation runs :=
  (runs Name Products ReleaseDate Critical esri json_loads os_environ
     str_error str_lower).
Local Abbreviation failure := (failure str_error str_lower).

Lemma dict_eq_refl (d : dict) : dict_eq d d = true.
Proof. unfold dict_eq. by apply bool_decide_eq_true_2. Qed.

Lemma dict_eq_uncovered (patches_local patches_online : dict) :
  Exists (uncovered patches_local) patches_online ->
  dict_eq patches_online patches_local = false.
Proof.
  intros Hex. apply Exists_exists in Hex as ([v ps] & Hin & _ & Hget).
  cbn [fst] in Hget. apply dict_get_keys in Hget.
  unfold dict_eq. apply bool_decide_eq_false_2. intros Heq.
  apply (not_elem_of_list_to_map (M:=gmap string)) in Hget.
  rewrite <- Heq in Hget. apply not_elem_of_list_to_map in Hget.
  apply Hget. apply list_elem_of_fmap. by exists (v, ps).
Qed.

(** A run of [main] on a machine that has its manifest. *)
Lemma main_with_manifest (h : host) (old content : Py.bytes)
    (local_json online_json : document patch) (patches_local patches_online : dict) :
  manifest h = Some old ->
  esri (requests h) = inr content ->
  json_loads old = inr local_json ->
  json_loads content = inr online_json ->
  find_product ARCGIS_VERSIONS local_json = inr patches_local ->
  find_product ARCGIS_VERSIONS online_json = inr patches_online ->
  main h
  = if dict_eq patches_online patches_local
    then (inr tt, Host (Some old) (S (requests h)) (outbox h ++ [no_new_patches]))
    else match format_patch_differences patches_local patches_online with
         | inr new_patches =>
             (inr tt,
              Host (Some content) (S (requests h))
                (outbox h ++ [new_patches_available new_patches]))
         | inl e =>
             match os_environ "COMPUTERNAME" with
             | Some computername =>
                 (inr tt,
                  Host (Some old) (S (requests h))
                    (outbox h ++ [failure computername e]))
             | None =>
                 (inl (KeyError "COMPUTERNAME"),
                  Host (Some old) (S (requests h)) (outbox h))
             end
         end.
Proof.
  intros Hfile Hesri Hlocal Honline Hpl Hpo.
  destruct h as [file sent mails]. cbn [manifest requests outbox] in *. subst file.
  unfold PatchNotifier.main, try_except, bind, get_local_patches,
    get_esri_patches, lift.
  cbn [manifest requests outbox]. rewrite Hlocal, Hesri, Honline, Hpo, Hpl.
  destruct (dict_eq patches_online patches_local); [done|].
  destruct (format_patch_differences patches_local patches_online) as [e|text];
    [|done].
  unfold environ. by destruct (os_environ "COMPUTERNAME") as [name|].
Qed.

(** X20. On a machine without a manifest, [main] asks Esri twice, stores
    the manifest and reports that there are no new patches: the patches that
    are out at the first run are never announced. *)
Theorem first_run_announces_nothing (h : host) (content : Py.bytes)
    (items : list (product patch)) :
  manifest h = None ->
  esri (requests h) = inr content ->
  esri (S (requests h)) = inr content ->
  json_loads content = inr (Some items) ->
  main h
  = (inr tt, Host (Some content) (2 + requests h) (outbox h ++ [no_new_patches])).
Proof.
  intros Hfile Hfirst Hsecond Hjson.
  destruct h as [file sent mails]. cbn [manifest requests outbox] in *. subst file.
  unfold PatchNotifier.main, try_except, get_local_patches,
    get_esri_patches, write_bytes, lift, bind.
  cbn [manifest requests outbox]. rewrite Hfirst. cbn [manifest requests outbox].
  rewrite Hjson, Hsecond, Hjson. cbn [find_product]. by rewrite dict_eq_refl.
Qed.


Lemma runs_failing (old content : Py.bytes) (local_json online_json : document patch)
    (patches_local patches_online : dict) (computername : string) (e : error)
    (n : nat) (h : host) :
  manifest h = Some old ->
  (forall k, esri (requests h + k)%nat = inr content) ->
  json_loads old = inr local_json ->
  json_loads content = inr online_json ->
  find_product ARCGIS_VERSIONS local_json = inr patches_local ->
  find_product ARCGIS_VERSIONS online_json = inr patches_online ->
  dict_eq patches_online patches_local = false ->
  format_patch_differences patches_local patches_online = inl e ->
  os_environ "COMPUTERNAME" = Some computername ->
  runs n h
  = (inr tt,
     Host (Some old) (requests h + n)
       (outbox h ++ replicate n (failure computername e))).
Proof.
  intros Hfile Hesri Hlocal Honline Hpl Hpo Hdiff Hraise Henv.
  revert h Hfile Hesri. induction n as [|n IH]; intros h Hfile Hesri.
  - cbn [PatchNotifier.runs replicate]. rewrite app_nil_r, Nat.add_0_r.
    by destruct h as [file sent mails]; cbn in *; subst.
  - cbn [PatchNotifier.runs].
    rewrite (main_with_manifest h old content local_json online_json
               patches_local patches_online); try done.
    2: { rewrite <- (Hesri 0%nat). by rewrite Nat.add_0_r. }
    rewrite Hdiff, Hraise, Henv. rewrite IH.
    + cbn [manifest requests outbox replicate].
      rewrite <- app_assoc. do 2 f_equal. lia.
    + done.
    + intros k. cbn [requests]. rewrite <- (Hesri (S k)). f_equal. lia.
Qed.

(** X22. A watched version that the local manifest does not know stops the
    notifier for good: when the online manifest holds a patch under such a
    version, every run mails the same failure, a [KeyError] that names a
    version missing from the local manifest, and none updates the manifest,
    however often [main] runs. *)
Theorem unknown_version_fails_forever (h : host) (old content : Py.bytes)
    (local_json online_json : document patch) (patches_local patches_online : dict)
    (computername : string) :
  manifest h = Some old ->
  (forall k, esri (requests h + k)%nat = inr content) ->
  json_loads old = inr local_json ->
  json_loads content = inr online_json ->
  find_product ARCGIS_VERSIONS local_json = inr patches_local ->
  find_product ARCGIS_VERSIONS online_json = inr patches_online ->
  Exists (uncovered patches_local) patches_online ->
  os_environ "COMPUTERNAME" = Some computername ->
  exists version,
    (version ∉ patches_local.*1) /\
    forall n,
      runs n h
      = (inr tt,
         Host (Some old) (requests h + n)
           (outbox h ++ replicate n (failure computername (KeyError version)))).
Proof.
  intros Hfile Hesri Hlocal Honline Hpl Hpo Hex Henv.
  destruct (format_versions_uncovered _ _ [] Hex)
    as (version & ps & _ & [_ Hget] & Hraise).
  exists version. split; [by apply dict_get_keys|]. intros n.
  apply (runs_failing old content local_json online_json
           patches_local patches_online); try done.
  - by apply dict_eq_uncovered.
  - unfold PatchNotifier.format_patch_differences. by rewrite Hraise.
Qed.

(** X23. A change that brings no patch is mailed as new patches: when the
    online manifest differs from the local one but holds no patch that the
    local one lacks (a patch was withdrawn, say), [main] sends the message
    for new patches, at the highest priority and with an empty list, and
    stores the online manifest. *)
Theorem withdrawn_patch_is_announced_as_new (h : host) (old content : Py.bytes)
    (local_json online_json : document patch) (patches_local patches_online : dict) :
  manifest h = Some old ->
  esri (requests h) = inr content ->
  json_loads old = inr local_json ->
  json_loads content = inr online_json ->
  find_product ARCGIS_VERSIONS local_json = inr patches_local ->
  find_product ARCGIS_VERSIONS online_json = inr patches_online ->
  dict_eq patches_online patches_local = false ->
  Forall (fun online => ~ uncovered patches_local online) patches_online ->
  patches_online ≫= new_patches patches_local = [] ->
  main h
  = (inr tt,
     Host (Some content) (S (requests h))
       (outbox h ++ [new_patches_available EmptyString])) /\
  msg_priority (new_patches_available EmptyString) = 1.
Proof.
  intros Hfile Hesri Hlocal Honline Hpl Hpo Hdiff Hcov Hnone.
  split; [|done].
  rewrite (main_with_manifest h old content local_json online_json
             patches_local patches_online) by done.
  rewrite Hdiff, format_patch_differences_covered by done.
  by rewrite Hnone.
Qed.


End NotifierFacts.

Lemma find_product_last_entry_wins_witness :
  exists items,
    Some PatchNotifier.doubled_manifest = Some items /\
    NoDup [("11.2", ["Security 2024 Update 2"])].*1 /\
    forall v,
      PatchNotifier.dict_get v [("11.2", ["Security 2024 Update 2"])]
      = if bool_decide (v ∈ PatchNotifier.ARCGIS_VERSIONS)
        then match last (PatchNotifier.entries_of v items) with
             | Some item => inr (PatchNotifier.patches item)
             | None => inl (PatchNotifier.KeyError v)
             end
        else inl (PatchNotifier.KeyError v).
Proof.
  apply (find_product_last_entry_wins string PatchNotifier.ARCGIS_VERSIONS
           (Some PatchNotifier.doubled_manifest)).
  reflexivity.
Defined.

Lemma format_raises_on_unknown_version_witness :
  exists version online_patches,
    PatchNotifier.format_patch_differences id id id id
      [] [("11.2", ["Security 2024 Update 1"])]
    = inl (PatchNotifier.KeyError version) /\
    (version, online_patches) ∈ [("11.2", ["Security 2024 Update 1"])] /\
    online_patches <> [] /\
    version ∉ ([] : PatchNotifier.dict string).*1.
Proof.
  apply (format_raises_on_unknown_version string id id id id).
  apply Exists_cons_hd. split; [discriminate | reflexivity].
Defined.

Lemma format_lists_new_patches_witness :
  exists formatted_patches,
    PatchNotifier.format_patch_differences id id id id
      [("11.2", ["Security 2024 Update 1"])]
      [("11.2", ["Security 2024 Update 1"; "Security 2024 Update 2"])]
    = inr (String.concat PatchNotifier.nl formatted_patches) /\
    length formatted_patches = 4%nat.
Proof.
  destruct (format_lists_new_patches string id id id id
              [("11.2", ["Security 2024 Update 1"])]
              [("11.2", ["Security 2024 Update 1"; "Security 2024 Update 2"])])
    as (formatted & Htext & _ & Hlen & _).
  - apply Forall_cons. split; [|apply Forall_nil_2].
    intros [_ Hget]. discriminate Hget.
  - exists formatted. split; [exact Htext|]. rewrite Hlen. reflexivity.
Defined.

Lemma first_run_announces_nothing_witness :
  PatchNotifier.main id id id id PatchNotifier.steady PatchNotifier.loads
    PatchNotifier.windows PatchNotifier.str_of id (PatchNotifier.Host None 0 [])
  = (inr tt,
     PatchNotifier.Host (Some PatchNotifier.esri_bytes) 2
       [PatchNotifier.no_new_patches]).
Proof.
  apply (first_run_announces_nothing string id id id id PatchNotifier.steady
           PatchNotifier.loads PatchNotifier.windows PatchNotifier.str_of id
           (PatchNotifier.Host None 0 []) PatchNotifier.esri_bytes
           PatchNotifier.esri_manifest); reflexivity.
Defined.


Lemma unknown_version_fails_forever_witness :
  exists version,
    (version ∉ ([] : PatchNotifier.dict string).*1) /\
    forall n,
      PatchNotifier.runs id id id id PatchNotifier.steady PatchNotifier.loads
        PatchNotifier.windows PatchNotifier.str_of id n
        (PatchNotifier.Host (Some PatchNotifier.stale_bytes) 0 [])
      = (inr tt,
         PatchNotifier.Host (Some PatchNotifier.stale_bytes) (0 + n)
           ([] ++ replicate n
                    (PatchNotifier.failure PatchNotifier.str_of id "GIS01"
                       (PatchNotifier.KeyError version)))).
Proof.
  apply (unknown_version_fails_forever string id id id id PatchNotifier.steady
           PatchNotifier.loads PatchNotifier.windows PatchNotifier.str_of id
           (PatchNotifier.Host (Some PatchNotifier.stale_bytes) 0 [])
           PatchNotifier.stale_bytes PatchNotifier.esri_bytes
           (Some PatchNotifier.stale_manifest) (Some PatchNotifier.esri_manifest)
           []
           [("11.2", ["Security 2024 Update 1"; "Security 2024 Update 2"])]
           "GIS01").
  - reflexivity.
  - intros k. reflexivity.
  - reflexivity.
  - reflexivity.
  - reflexivity.
  - reflexivity.
  - apply Exists_cons_hd. split; [discriminate | reflexivity].
  - reflexivity.
Defined.

Lemma withdrawn_patch_is_announced_as_new_witness :
  PatchNotifier.main id id id id PatchNotifier.steady PatchNotifier.loads
    PatchNotifier.windows PatchNotifier.str_of id
    (PatchNotifier.Host (Some PatchNotifier.ample_bytes) 0 [])
  = (inr tt,
     PatchNotifier.Host (Some PatchNotifier.esri_bytes) 1
       [PatchNotifier.new_patches_available EmptyString]).
Proof.
  apply (withdrawn_patch_is_announced_as_new string id id id id PatchNotifier.steady
           PatchNotifier.loads PatchNotifier.windows PatchNotifier.str_of id
           (PatchNotifier.Host (Some PatchNotifier.ample_bytes) 0 [])
           PatchNotifier.ample_bytes PatchNotifier.esri_bytes
           (Some PatchNotifier.ample_manifest) (Some PatchNotifier.esri_manifest)
           [("11.2", ["Security 2024 Update 1"; "Security 2024 Update 2";
                      "Portal Hotfix"])]
           [("11.2", ["Security 2024 Update 1"; "Security 2024 Update 2"])]).
  - reflexivity.
  - reflexivity.
  - reflexivity.
  - reflexivity.
  - reflexivity.
  - reflexivity.
  - vm_compute. reflexivity.
  - apply Forall_cons. split; [|apply Forall_nil_2].
    intros [_ Hget]. discriminate Hget.
  - vm_compute. reflexivity.
Defined.

